(** * Chess board recognition, engine query and pick-and-place mapping

    A shallow embedding of the Python sources

    - [computer_vision_files/image_to_fen.py] (the revised variant) and
      [Computer Vision files/image_to_fen.py] (the earlier, bare variant),
    - [computer_vision_files/using_stockfish.py],
    - [robot_controller/robot_control.py],
    - [main.py],

    followed by the properties of the specification that concern them.

    Modelling conventions.

    - Pixel coordinates are numpy floats in the source.  The code is
      embedded over a type [F] of numbers with the operations it uses
      ([+], [-], [/], [int(x)]), the class [Numeric].  Two instances are
      given: [binary32], the single-precision floats of numpy with
      round-to-nearest-even, from the Standard Library's [SpecFloat]; and
      [xrat], exact rationals with an infinity and a nan, which is
      arithmetic without rounding.  What is proved for every instance holds
      for both.
    - A Python [str] is a [string]; a character is a code point below 256.
    - Exceptions are values of [pyerr], carrying the text of [str(e)].
    - The numpy array [board], the printed output and the calls to the
      external collaborators (camera, detector, engine, file system) live
      in a [store] that a small state-and-exception monad [Py] threads
      through the code.
    - The detector, the camera, the engine, the file system and the CSV
      table are not part of the sources: they are the fields of a [world]
      the code is run in. *)

From Stdlib Require Import QArith Qround ZArith String Ascii List Lia Lqa SpecFloat.
From stdpp Require Import base option list strings gmap pretty.

Open Scope string_scope.
Open Scope Z_scope.

(** ** Exceptions *)

Inductive pyerr : Type :=
  | ValueError (msg : string)
  | TypeError (msg : string)
  | IndexError (msg : string)
  | OverflowError (msg : string)
  | FileNotFoundError (msg : string)
  | OtherException (msg : string).

(** [str(e)] *)
Definition exc_str (e : pyerr) : string :=
  match e with
  | ValueError m | TypeError m | IndexError m | OverflowError m
  | FileNotFoundError m | OtherException m => m
  end.

(** [except ValueError] *)
Definition is_ValueError (e : pyerr) : bool :=
  match e with ValueError _ => true | _ => false end.

(** [except (FileNotFoundError, ValueError)] *)
Definition is_FileNotFound_or_Value (e : pyerr) : bool :=
  match e with ValueError _ | FileNotFoundError _ => true | _ => false end.

(** [except (KeyError, IndexError)]; no [KeyError] arises in the model. *)
Definition is_Key_or_Index (e : pyerr) : bool :=
  match e with IndexError _ => true | _ => false end.

(** A computation that may raise, without touching the store. *)
Definition result (A : Type) : Type := pyerr + A.

#[global] Instance result_ret : MRet result := λ A x, inr x.
#[global] Instance result_bind : MBind result := λ A B f m,
  match m with inl e => inl e | inr x => f x end.

(** ** Numbers *)

(** Truncation toward zero of a rational: what [int(x)] returns on a
    finite float that stands for it. *)
Definition py_int (x : Q) : Z := Z.quot (Qnum x) (Zpos (Qden x)).

(** The numbers of the code: numpy floats, with the operations the code
    applies to them.  [value x] is the rational a finite number stands
    for; it serves to state properties and is not used by the code. *)
Class Numeric (F : Type) : Type := {
  of_int : Z → F;            (* a Python int used as an operand *)
  fadd : F → F → F;          (* x + y *)
  fsub : F → F → F;          (* x - y *)
  fdiv : F → F → F;          (* x / y *)
  to_int : F → result Z;     (* int(x) *)
  value : F → option Q;
  to_int_value : ∀ x q, value x = Some q → to_int x = inr (py_int q)
}.

(** *** Single precision *)

(** binary32: 24 bits of precision, infinities at exponent 128. *)
Definition f32_of_int (z : Z) : spec_float := binary_normalize 24 128 z 0 false.

(** The integer with sign [s] and magnitude [m]. *)
Definition signed (s : bool) (m : positive) : Z := if s then Zneg m else Zpos m.

Definition f32_to_int (x : spec_float) : result Z :=
  match x with
  | S754_zero _ => inr 0
  | S754_infinity _ => inl (OverflowError "cannot convert float infinity to integer")
  | S754_nan => inl (ValueError "cannot convert float NaN to integer")
  | S754_finite s m (Zneg k) => inr (Z.quot (signed s m) (Zpos (2 ^ k)))
  | S754_finite s m e => inr (signed s m * 2 ^ e)
  end.

Definition f32_value (x : spec_float) : option Q :=
  match x with
  | S754_zero _ => Some 0%Q
  | S754_infinity _ | S754_nan => None
  | S754_finite s m (Zneg k) => Some (signed s m # 2 ^ k)
  | S754_finite s m e => Some (inject_Z (signed s m * 2 ^ e))
  end.

Lemma f32_to_int_value (x : spec_float) (q : Q) :
  f32_value x = Some q → f32_to_int x = inr (py_int q).
Proof.
  destruct x as [s | s | | s m [|e|k]]; simpl; try discriminate;
    intros [= <-]; unfold py_int; simpl; f_equal.
  - now rewrite Z.quot_1_r.
  - now rewrite Z.quot_1_r.
Qed.

#[global] Instance binary32 : Numeric spec_float := {
  of_int := f32_of_int;
  fadd := SFadd 24 128;
  fsub := SFsub 24 128;
  fdiv := SFdiv 24 128;
  to_int := f32_to_int;
  value := f32_value;
  to_int_value := f32_to_int_value
}.

(** *** Exact arithmetic *)

(** A rational, an infinity with its sign, or a nan: arithmetic without
    rounding, with the results of the divisions by zero. *)
Inductive xrat : Type :=
  | Exact (q : Q)
  | Infinite (negative : bool)
  | NotANumber.

Definition xrat_opp (x : xrat) : xrat :=
  match x with
  | Exact q => Exact (- q)
  | Infinite s => Infinite (negb s)
  | NotANumber => NotANumber
  end.

Definition xrat_add (x y : xrat) : xrat :=
  match x, y with
  | Exact p, Exact q => Exact (p + q)
  | Infinite s, Exact _ | Exact _, Infinite s => Infinite s
  | Infinite s, Infinite s' => if Bool.eqb s s' then Infinite s else NotANumber
  | _, _ => NotANumber
  end.

Definition xrat_sub (x y : xrat) : xrat :=
  match x, y with
  | Exact p, Exact q => Exact (p - q)
  | _, _ => xrat_add x (xrat_opp y)
  end.

Definition Qnegative (q : Q) : bool := Qnum q <? 0.

Definition xrat_div (x y : xrat) : xrat :=
  match x, y with
  | Exact p, Exact q =>
      if Qeq_bool q 0
      then if Qeq_bool p 0 then NotANumber else Infinite (Qnegative p)
      else Exact (p / q)
  | Exact _, Infinite _ => Exact 0
  | Infinite s, Exact q => Infinite (xorb s (Qnegative q))
  | _, _ => NotANumber
  end.

Definition xrat_to_int (x : xrat) : result Z :=
  match x with
  | Exact q => inr (py_int q)
  | Infinite _ => inl (OverflowError "cannot convert float infinity to integer")
  | NotANumber => inl (ValueError "cannot convert float NaN to integer")
  end.

Definition xrat_value (x : xrat) : option Q :=
  match x with
  | Exact q => Some q
  | _ => None
  end.

Lemma xrat_to_int_value (x : xrat) (q : Q) :
  xrat_value x = Some q → xrat_to_int x = inr (py_int q).
Proof. destruct x; simpl; try discriminate. now intros [= <-]. Qed.

#[global] Instance exact_arithmetic : Numeric xrat := {
  of_int := λ z, Exact (inject_Z z);
  fadd := xrat_add;
  fsub := xrat_sub;
  fdiv := xrat_div;
  to_int := xrat_to_int;
  value := xrat_value;
  to_int_value := xrat_to_int_value
}.

(** ** The numpy array [board] *)

(** A two-dimensional array of Python strings, as the list of its rows. *)
Abbreviation ndarray := (list (list string)).

(** [np.full((rows, cols), v, dtype=object)] *)
Definition np_full (rows cols : nat) (v : string) : ndarray :=
  replicate rows (replicate cols v).

(** A Python int used as an index is first converted to the index type
    of numpy, a signed integer of 64 bits.  An int that does not fit is
    then tried as an array: from 2^63 to 2^64 - 1 it makes an unsigned
    array scalar whose conversion raises [OverflowError]; any other int
    makes an array of objects, which is not a valid index.  (The messages
    are those of a 64-bit Linux build.) *)
Definition np_intp (i : Z) : result Z :=
  if (- 2 ^ 63 <=? i) && (i <? 2 ^ 63) then inr i
  else if (2 ^ 63 <=? i) && (i <? 2 ^ 64)
  then inl (OverflowError "Python int too large to convert to C long")
  else inl (IndexError
         ("only integers, slices (`:`), ellipsis (`...`), numpy.newaxis (`None`) "
          ++ "and integer or boolean arrays are valid indices")).

(** Index normalisation along one axis, for an index that has been
    converted: [-size .. -1] counts from the end, anything outside
    [-size .. size-1] raises. *)
Definition np_index (axis size : nat) (i : Z) : result nat :=
  if (0 <=? i) && (i <? Z.of_nat size) then inr (Z.to_nat i)
  else if (- Z.of_nat size <=? i) && (i <? 0) then inr (Z.to_nat (i + Z.of_nat size))
  else inl (IndexError ("index " ++ pretty i ++ " is out of bounds for axis "
                        ++ pretty axis ++ " with size " ++ pretty size)).

(** The number of columns: every row of an array has the same length. *)
Definition np_cols (a : ndarray) : nat := length (hd [] a).

(** [a[r, c]]: both indices are converted, then checked against their
    axes. *)
Definition np_getitem (a : ndarray) (r c : Z) : result string :=
  r ← np_intp r;
  c ← np_intp c;
  i ← np_index 0 (length a) r;
  j ← np_index 1 (np_cols a) c;
  inr (default "" (default [] (a !! i) !! j)).

(** [a[r, c] = v] *)
Definition np_setitem (a : ndarray) (r c : Z) (v : string) : result ndarray :=
  r ← np_intp r;
  c ← np_intp c;
  i ← np_index 0 (length a) r;
  j ← np_index 1 (np_cols a) c;
  inr (<[i := <[j := v]> (default [] (a !! i))]> a).

(** [a[1:, 1:]] *)
Definition np_drop_first (a : ndarray) : ndarray := drop 1 <$> drop 1 a.

(** [range(start, stop, step)] for a non-zero step. *)
Definition py_range (start stop step : Z) : list Z :=
  let n := if 0 <? step then (stop - start + step - 1) / step
           else (start - stop - step - 1) / (- step) in
  (λ k, start + k * step) <$> seqZ 0 n.

(** ** The store and the monad *)

Inductive event : Type :=
  | Print (line : string)                     (* print(line) *)
  | PrintList (items : list string)           (* print of a list of strings *)
  | PrintArray (a : ndarray)                  (* print of an array *)
  | CameraOpen (index : Z)                    (* cv2.VideoCapture(index) *)
  | CameraRead                                (* cap.read() *)
  | CameraRelease                             (* cap.release() *)
  | Makedirs (path : string)                  (* os.makedirs(path) *)
  | Imwrite (path : string)                   (* cv2.imwrite(path, frame) *)
  | Detect (model_path image_path : string)   (* YOLO(model_path)(image_path) *)
  | EngineStart (path : string)               (* Stockfish(path=..., ...) *)
  | EngineValidate (fen : string)             (* stockfish.is_fen_valid(fen) *)
  | EngineSetFen (fen : string)               (* stockfish.set_fen_position(fen) *)
  | EngineBestMove (ms : Z)                   (* stockfish.get_best_move_time(ms) *)
  | ReadCsv (path : string).                  (* pd.read_csv(path) *)

Record store : Type := Store {
  st_board : option ndarray;   (* the local [board] of [image_to_fen] *)
  st_out : list event          (* what happened so far, oldest first *)
}.

Definition Py (A : Type) : Type := store → result A * store.

#[global] Instance Py_ret : MRet Py := λ A x s, (inr x, s).
#[global] Instance Py_bind : MBind Py := λ A B f m s,
  match m s with
  | (inl e, s') => (inl e, s')
  | (inr x, s') => f x s'
  end.

Definition raise {A : Type} (e : pyerr) : Py A := λ s, (inl e, s).

Definition lift {A : Type} (r : result A) : Py A := λ s, (r, s).

Definition emit (ev : event) : Py unit :=
  λ s, (inr tt, Store (st_board s) (st_out s ++ [ev])%list).

Definition print (line : string) : Py unit := emit (Print line).

Definition set_board (b : ndarray) : Py unit :=
  λ s, (inr tt, Store (Some b) (st_out s)).

Definition get_board : Py ndarray :=
  λ s, match st_board s with
       | Some b => (inr b, s)
       | None => (inl (OtherException
            "cannot access local variable 'board' where it is not associated with a value"), s)
       end.

(** [try: body  except <classes>: handler(e)] *)
Definition try_except {A : Type} (body : Py A) (catches : pyerr → bool)
    (handler : pyerr → Py A) : Py A :=
  λ s, match body s with
       | (inl e, s') => if catches e then handler e s' else (inl e, s')
       | ok => ok
       end.

(** [for x in l: body(x)] *)
Fixpoint for_each {A : Type} (l : list A) (body : A → Py unit) : Py unit :=
  match l with
  | [] => mret tt
  | x :: l' => body x ;; for_each l' body
  end.


(** ** Strings *)

Definition nl : string := String "010"%char "".

(** [sub in s] *)
Fixpoint str_in (sub s : string) : bool :=
  String.prefix sub s ||
  match s with
  | "" => false
  | String _ s' => str_in sub s'
  end.

(** [s[i]] *)
Definition str_item (s : string) (i : nat) : result string :=
  match String.get i s with
  | Some c => inr (String c "")
  | None => inl (IndexError "string index out of range")
  end.

Definition hex_digit (n : N) : ascii :=
  ascii_of_N (if (n <? 10)%N then 48 + n else 87 + n).

(** [repr(s)] of a one-character string. *)
Definition repr_char (c : ascii) : string :=
  let n := N_of_ascii c in
  let quoted (body : string) := "'" ++ body ++ "'" in
  if (n =? 39)%N then String "034"%char (String c (String "034"%char ""))
  else if (n =? 92)%N then quoted (String c (String c ""))
  else if (n =? 9)%N then quoted "\t"
  else if (n =? 10)%N then quoted "\n"
  else if (n =? 13)%N then quoted "\r"
  else if (n <? 32)%N || (n =? 127)%N || ((128 <=? n)%N && (n <=? 160)%N) || (n =? 173)%N
  then quoted ("\x" ++ String (hex_digit (n / 16)) (String (hex_digit (n mod 16)) ""))
  else quoted (String c "").

(** [int(s)] of a one-character string: its value when it is a decimal
    digit. *)
Definition int_of_char (c : ascii) : result Z :=
  let n := N_of_ascii c in
  if (48 <=? n)%N && (n <=? 57)%N then inr (Z.of_N n - 48)
  else inl (ValueError ("invalid literal for int() with base 10: " ++ repr_char c)).

(** [int(s[1])] *)
Definition int_of_second (s : string) : result Z :=
  match String.get 1 s with
  | Some c => int_of_char c
  | None => inl (IndexError "string index out of range")
  end.

(** [s.upper()] on ASCII letters. *)
Definition upper_char (c : ascii) : ascii :=
  let n := N_of_ascii c in
  if (97 <=? n)%N && (n <=? 122)%N then ascii_of_N (n - 32) else c.

Fixpoint str_upper (s : string) : string :=
  match s with
  | "" => ""
  | String c s' => String (upper_char c) (str_upper s')
  end.

(** ** The serializer of image_to_fen.py *)

(** Black pieces in lower case, white pieces in upper case. *)
Definition fen_mapping : gmap string string :=
  list_to_map [
    ("Black_Pawn", "p"); ("Black_Rook", "r"); ("Black_Knight", "n");
    ("Black_Bishop", "b"); ("Black_Queen", "q"); ("Black_King", "k");
    ("White_Pawn", "P"); ("White_Rook", "R"); ("White_Knight", "N");
    ("White_Bishop", "B"); ("White_Queen", "Q"); ("White_King", "K")
  ].

(** The body of the loop over the columns of one row: the state is
    ([empty_count], [fen_row]). *)
Definition scan_cell (board : ndarray) (row : Z) (st : Z * string) (col : Z)
    : result (Z * string) :=
  let '(empty_count, fen_row) := st in
  cell ← np_getitem board row col;
  if String.eqb cell ""
  then inr (empty_count + 1, fen_row)
  else
    let '(empty_count, fen_row) :=
      if 0 <? empty_count
      then (0, fen_row ++ pretty empty_count)
      else (empty_count, fen_row) in
    inr (empty_count, fen_row ++ cell).

(** A loop that threads a state through a list and stops at the first
    exception. *)
Fixpoint fold_result {S A : Type} (body : S → A → result S) (l : list A) (s : S)
    : result S :=
  match l with
  | [] => inr s
  | x :: l' => s' ← body s x; fold_result body l' s'
  end.

(** The body of the loop over the rows: one more entry of [fen_rows]. *)
Definition scan_row (board : ndarray) (fen_rows : list string) (row : Z)
    : result (list string) :=
  '(empty_count, fen_row) ← fold_result (scan_cell board row) (py_range 1 9 1) (0, "");
  let fen_row := if 0 <? empty_count then fen_row ++ pretty empty_count else fen_row in
  inr (fen_rows ++ [fen_row])%list.

(** The loop "Generate FEN notation". *)
Definition generate_fen_rows (board : ndarray) : result (list string) :=
  fold_result (scan_row board) (py_range 8 0 (-1)) [].

(** The notation serializer: the rows of [board] joined with ["/"],
    followed by the trailer. *)
Definition notation_serializer (board : ndarray) (fen_trailer : string)
    : result string :=
  fen_rows ← generate_fen_rows board;
  inr (String.concat "/" fen_rows ++ fen_trailer).

(** The trailer of the revised variant:
    active color, castling, en passant, halfmove clock, fullmove number. *)
Definition fen_trailer (active_color : string) : string :=
  " " ++ active_color ++ " - - 0 1".

(** ** robot_control.py *)

(** A row of the coordinate table: the columns [Col], [Row], [Pick] and
    [Place] of "Placement of pieces_csv.csv". *)
Record csv_row : Type := CsvRow {
  Col : string;
  Row : Z;
  Pick : string;
  Place : string
}.

Definition HOME_COORDINATE : string := "[0.45; 0; 0.49]".

(** [df.loc[(df['Col'] == col) & (df['Row'] == row)]] *)
Definition df_select (df : list csv_row) (col : string) (row : Z) : list csv_row :=
  List.filter (λ r, String.eqb (Col r) col && (Row r =? row)) df.

Definition default_csv_path : string :=
  "robot_controller/Placement of pieces_csv.csv".

(** The body of the [try] of [get_move_coordinates]. *)
Definition lookup_coordinates (df : list csv_row) (move_from move_to : string)
    : result (string * string) :=
  from_col ← str_item move_from 0;
  from_row ← int_of_second move_from;
  let pick_coords_series := Pick <$> df_select df from_col from_row in
  match pick_coords_series with
  | [] => inl (ValueError ("Start square '" ++ move_from ++ "' not found in mapping file."))
  | pick_coords :: _ =>
      to_col ← str_item move_to 0;
      to_row ← int_of_second move_to;
      let place_coords_series := Place <$> df_select df to_col to_row in
      match place_coords_series with
      | [] => inl (ValueError ("End square '" ++ move_to ++ "' not found in mapping file."))
      | place_coords :: _ => inr (pick_coords, place_coords)
      end
  end.

Definition get_move_coordinates (df : list csv_row) (move : string)
    : result (string * string) :=
  if (String.length move <? 4)%nat
  then inl (ValueError ("Invalid move format '" ++ move ++ "'. Expected format like 'e2e4'."))
  else
    let move_from := substring 0 2 move in
    let move_to := substring 2 2 move in
    match lookup_coordinates df move_from move_to with
    | inl e =>
        if is_Key_or_Index e
        then inl (ValueError ("Could not find coordinates for move '" ++ move
                              ++ "' in the CSV file."))
        else inl e
    | inr coords => inr coords
    end.

(** The list built in [execute_robot_move]. *)
Definition waypoints_of (pick_coords place_coords : string) : list string :=
  [pick_coords; pick_coords; HOME_COORDINATE;
   place_coords; place_coords; HOME_COORDINATE].

Definition execute_robot_move (df : list csv_row) (move : string) : Py unit :=
  try_except
    ('(pick_coords, place_coords) ← lift (get_move_coordinates df move);
     let waypoints := waypoints_of pick_coords place_coords in
     print (nl ++ "--- Robot Control Final Command ---");;
     print ("Move: " ++ move);;
     print "Final Waypoints Array for Simulink:";;
     emit (PrintList waypoints);;
     print "-----------------------------------")
    is_FileNotFound_or_Value
    (λ e, print ("Error in robot control: " ++ exc_str e)).


(** ** The code that handles coordinates *)

Section Code.
Context {F : Type} {numeric : Numeric F}.

(** One row of [results[0].boxes.xyxy] with its class name. *)
Record detection : Type := Detection {
  x_min : F;
  y_min : F;
  x_max : F;
  y_max : F;
  label : string
}.

(** The tuple stored in [chessboard]:
    (top-left x, top-left y, width, height). *)
Definition frame : Type := (F * F * F * F)%type.

(** The tuple appended to [pieces]: (x_center, y_center, label). *)
Definition piece : Type := (F * F * string)%type.

Definition chessboard_of (box : detection) : frame :=
  (x_min box, y_min box, fsub (x_max box) (x_min box), fsub (y_max box) (y_min box)).

Definition piece_of (box : detection) : piece :=
  (fdiv (fadd (x_min box) (x_max box)) (of_int 2),
   fdiv (fadd (y_min box) (y_max box)) (of_int 2),
   label box).

(** [row_index = 8 - int((y_c - y_b) / h_s)] *)
Definition row_index (y_b h_s y_c : F) : result Z :=
  k ← to_int (fdiv (fsub y_c y_b) h_s);
  inr (8 - k).

(** [col_index = int((x_c - x_b) / w_s) + 1] *)
Definition col_index (x_b w_s x_c : F) : result Z :=
  k ← to_int (fdiv (fsub x_c x_b) w_s);
  inr (k + 1).

(** *** The world the code runs in *)

Record world : Type := World {
  (* os.path *)
  path_exists : string → bool;
  path_join : string → string → string;
  module_dir : string;   (* os.path.dirname(os.path.abspath(__file__)) *)
  (* cv2 *)
  cam_is_opened : bool;  (* cap.isOpened() *)
  cam_read : bool;       (* the flag returned by cap.read() *)
  (* ultralytics: the detections of an image by a model, or an exception *)
  yolo : string → string → result (list detection);
  (* stockfish *)
  sf_init : string → option string;   (* the error of the constructor, if any *)
  sf_is_fen_valid : string → bool;
  sf_best_move_time : string → Z → option string;
  (* pandas *)
  read_csv : string → list csv_row
}.

(** *** image_to_fen.py *)

(** One turn of the loop over the detections: a box labelled
    ["Chess_Board"] replaces [chessboard], any other box is appended to
    [pieces] by its center. *)
Definition extract_step (acc : option frame * list piece) (box : detection)
    : option frame * list piece :=
  let '(chessboard, pieces) := acc in
  if String.eqb (label box) "Chess_Board"
  then (Some (chessboard_of box), pieces)
  else (chessboard, (pieces ++ [piece_of box])%list).

(** The loop "Extract board and piece detections", from
    [chessboard = None] and [pieces = []]. *)
Definition extract_detections (results : list detection)
    : option frame * list piece :=
  fold_left extract_step results (None, []).

(** The body of the loop "Map each detected piece to its row and column
    index", on the array it updates. *)
Definition map_piece (x_b y_b w_s h_s : F) (board : ndarray) (p : piece)
    : result ndarray :=
  let '(x_c, y_c, name) := p in
  row ← row_index y_b h_s y_c;
  col ← col_index x_b w_s x_c;
  match fen_mapping !! name with
  | Some symbol => np_setitem board row col symbol
  | None => inr board
  end.

(** The same turn of the loop on the [board] of the store. *)
Definition place_piece (x_b y_b w_s h_s : F) (p : piece) : Py unit :=
  board ← get_board;
  board' ← lift (map_piece x_b y_b w_s h_s board p);
  set_board board'.

(** The square mapper: from the unpacking of [chessboard] to the end of
    the loop over [pieces], on a fresh 9 x 9 array ("so we can use index
    1-8"). *)
Definition square_mapper (fr : frame) (pieces : list piece) : Py unit :=
  let '(x_b, y_b, w_b, h_b) := fr in
  let h_s := fdiv h_b (of_int 8) in
  let w_s := fdiv w_b (of_int 8) in
  set_board (np_full 9 9 "");;
  for_each pieces (place_piece x_b y_b w_s h_s).

(** The two lines that load the model and run it on the image. *)
Definition detect (w : world) (model_path image_path : string)
    : Py (list detection) :=
  emit (Detect model_path image_path);;
  lift (yolo w model_path image_path).

(** The square mapper followed by the serializer of the revised variant,
    on a frame and a list of pieces. *)
Definition frame_to_fen (fr : frame) (pieces : list piece)
    (active_color : string) : Py string :=
  square_mapper fr pieces;;
  board ← get_board;
  lift (notation_serializer board (fen_trailer active_color)).

(** [image_to_fen] of [computer_vision_files/image_to_fen.py]. *)
Definition image_to_fen (w : world) (image_path model_path active_color : string)
    : Py string :=
  results ← detect w model_path image_path;
  let '(chessboard, pieces) := extract_detections results in
  match chessboard with
  | None =>
      raise (ValueError "Chessboard not detected in the image. Cannot generate FEN.")
  | Some fr => frame_to_fen fr pieces active_color
  end.

(** [image_to_fen] of [Computer Vision files/image_to_fen.py]: no test of
    [chessboard], the array is printed, black is always to move. *)
Definition image_to_fen_bare (w : world) (image_path model_path : string)
    : Py string :=
  results ← detect w model_path image_path;
  let '(chessboard, pieces) := extract_detections results in
  match chessboard with
  | None => raise (TypeError "cannot unpack non-iterable NoneType object")
  | Some fr =>
      square_mapper fr pieces;;
      board ← get_board;
      emit (PrintArray (np_drop_first board));;
      lift (notation_serializer board " b - - 0 1")
  end.

(** *** robot_control.py: the constructor *)

(** [RobotController(csv_path)]: the object is the table it has read. *)
Definition RobotController (w : world) (csv_path : string) : Py (list csv_row) :=
  let csv_path :=
    if negb (path_exists w csv_path)
    then path_join w (module_dir w) "Placement of pieces_csv.csv"
    else csv_path in
  if negb (path_exists w csv_path)
  then raise (FileNotFoundError
         ("Robot coordinate mapping file not found at '" ++ csv_path ++ "'. "
          ++ "Please ensure the path is correct."))
  else
    emit (ReadCsv csv_path);;
    mret (read_csv w csv_path).

(** *** using_stockfish.py *)

Definition get_best_move (w : world) (fen_string stockfish_path : string)
    : Py (option string) :=
  emit (EngineStart stockfish_path);;
  match sf_init w stockfish_path with
  | Some e =>
      raise (FileNotFoundError
        ("Stockfish engine not found or failed to initialize at '" ++ stockfish_path
         ++ "'. " ++ "Please ensure the path is correct. Error: " ++ e))
  | None =>
      emit (EngineValidate fen_string);;
      if negb (sf_is_fen_valid w fen_string)
      then raise (ValueError ("Invalid FEN string provided to Stockfish: " ++ fen_string))
      else
        emit (EngineSetFen fen_string);;
        emit (EngineBestMove 2000);;
        mret (sf_best_move_time w fen_string 2000)
  end.

(** *** main.py *)

(** [if x:] on a value that is [None] or a string. *)
Definition truthy (x : option string) : bool :=
  match x with
  | None | Some EmptyString => false
  | Some _ => true
  end.

Definition capture_image (w : world) (move_number : nat) : Py (option string) :=
  print (nl ++ "Step 1: Capturing image...");;
  emit (CameraOpen 0);;
  if negb (cam_is_opened w) then
    print "  -> Error: Could not open camera.";;
    mret None
  else
    emit CameraRead;;
    emit CameraRelease;;
    if negb (cam_read w) then
      print "  -> Error: Failed to capture frame.";;
      mret None
    else
      let output_dir := path_join w "computer_vision_files" "moves_pictures" in
      (if negb (path_exists w output_dir) then emit (Makedirs output_dir) else mret tt);;
      let image_filename := "move_" ++ pretty move_number ++ ".jpg" in
      let image_path := path_join w output_dir image_filename in
      emit (Imwrite image_path);;
      print ("  -> Image captured and saved to: '" ++ image_path ++ "'");;
      mret (Some image_path).

Definition model_path : string := "Trained model/best.pt".

Definition stockfish_path : string :=
  "Stockfish engine/stockfish-windows-x86-64-avx2/stockfish/stockfish-windows-x86-64-avx2.exe".

(** The [game_state] dictionary: it is never updated. *)
Definition game_active_color : string := "w".
Definition game_full_move_number : nat := 1.

(** Steps 2 and 3 of a turn: [Some fen_string] when the turn goes on,
    [None] when it ends in a [break]. *)
Definition turn_fen (w : world) (image_path : string) : Py (option string) :=
  try_except
    (print (nl ++ "Step 2 & 3: Processing image and generating FEN string...");;
     fen_string ← image_to_fen w image_path model_path game_active_color;
     print ("  -> Generated FEN: " ++ fen_string);;
     mret (Some fen_string))
    (λ _, true)
    (λ e,
       (if is_ValueError e
        then print ("  -> Error during FEN generation: " ++ exc_str e)
        else print ("  -> An unexpected error occurred during image processing: "
                    ++ exc_str e));;
       mret None).

(** Step 4 of a turn, after the test of the kings. *)
Definition turn_engine (w : world) (fen_string : string) : Py (option string) :=
  try_except
    (print (nl ++ "Step 4: Calculating best move with Stockfish...");;
     best_move ← get_best_move w fen_string stockfish_path;
     if truthy best_move then
       print ("  -> Best move found: " ++ default "" best_move);;
       mret best_move
     else
       print "  -> Stockfish did not return a move. Game may be over.";;
       mret None)
    (λ _, true)
    (λ e,
       (if is_FileNotFound_or_Value e
        then print ("  -> Error during Stockfish analysis: " ++ exc_str e)
        else print ("  -> An unexpected error occurred while running Stockfish: "
                    ++ exc_str e));;
       mret None).

(** Steps 5 and 6 of a turn: [true] when the turn goes on. *)
Definition turn_robot (w : world) (best_move : string) : Py bool :=
  try_except
    (print (nl ++ "Step 5 & 6: Translating move and generating robot waypoints...");;
     robot ← RobotController w default_csv_path;
     execute_robot_move robot best_move;;
     mret true)
    (λ _, true)
    (λ e,
       (if is_FileNotFound_or_Value e
        then print ("  -> Error during robot control step: " ++ exc_str e)
        else print ("  -> An unexpected error occurred during robot control: "
                    ++ exc_str e));;
       mret false).

(** The body of [while True] up to the end of steps 2 and 3:
    [Some fen_string] when the turn goes on, [None] when it ends in a
    [break]. *)
Definition turn_generate (w : world) : Py (option string) :=
  print (nl ++ "--- Turn " ++ pretty game_full_move_number ++ ": "
         ++ str_upper game_active_color ++ "'s Move ---");;
  image_path ← capture_image w game_full_move_number;
  if negb (truthy image_path) then mret None
  else turn_fen w (default "" image_path).

(** The rest of the body, from the test of the kings on. *)
Definition turn_play (w : world) (fen_string : string) : Py unit :=
  if negb (str_in "k" fen_string) || negb (str_in "K" fen_string) then
    print ("  -> Warning: FEN string '" ++ fen_string
           ++ "' is missing kings. Skipping Stockfish analysis.");;
    print "  -> Possible causes: Camera captured an empty board, or model failed to detect pieces."
  else
    best_move ← turn_engine w fen_string;
    match best_move with
    | None => mret tt
    | Some best_move =>
        ok ← turn_robot w best_move;
        if (ok : bool)
        then print (nl ++ "Single turn simulation completed successfully.")
        else mret tt
    end.

(** The body of [while True]: every path through it ends in a [break], so
    the loop runs it once. *)
Definition turn (w : world) : Py unit :=
  fen ← turn_generate w;
  match fen with
  | None => mret tt
  | Some fen_string => turn_play w fen_string
  end.

Definition main (w : world) : Py unit :=
  if negb (path_exists w model_path)
  then print ("  -> Error: YOLOv8 model not found at '" ++ model_path ++ "'.")
  else turn w.

(** *** Detections by their label *)

(** A detection is a board detection when its label is ["Chess_Board"]. *)
Definition is_board (box : detection) : bool :=
  String.eqb (label box) "Chess_Board".

(** The detections that are not board detections, in their order. *)
Definition piece_boxes (results : list detection) : list detection :=
  List.filter (λ box, negb (is_board box)) results.

(** The world [w] with a detector that answers [results] on every image. *)
Definition with_detections (w : world) (results : list detection) : world :=
  World (path_exists w) (path_join w) (module_dir w) (cam_is_opened w) (cam_read w)
        (λ _ _, inr results)
        (sf_init w) (sf_is_fen_valid w) (sf_best_move_time w) (read_csv w).

(** The finite number [x] stands for the rational [q]. *)
Definition stands_for (x : F) (q : Q) : Prop :=
  ∃ q', value x = Some q' ∧ (q' == q)%Q.




End Code.

Arguments detection : clear implicits.
Arguments frame : clear implicits.
Arguments piece : clear implicits.
Arguments world : clear implicits.

(** The store a program starts in. *)
Definition initial_store : store := Store None [].

(** ** The words of the specification *)

(** The array has [rows] rows of [cols] cells each. *)
Definition has_shape (a : ndarray) (rows cols : nat) : Prop :=
  length a = rows ∧ Forall (λ row, length row = cols) a.

(** BoardGrid: a mapping from (rank, file) to an optional symbol. *)
Definition BoardGrid : Type := Z → Z → option string.

(** The grid an array stands for: a cell holding the empty string is an
    empty square. *)
Definition grid_of (board : ndarray) : BoardGrid :=
  λ rank file,
    match np_getitem board rank file with
    | inr (String c s) => Some (String c s)
    | _ => None
    end.

(** Flushing a run-length count: its digits, only if it is positive. *)
Definition flush (run : nat) : string :=
  match run with
  | O => ""
  | S _ => pretty run
  end.

(** The run-length encoding of the cells of one rank, [run] empty cells
    having been counted already. *)
Fixpoint encode_rank (run : nat) (cells : list (option string)) : string :=
  match cells with
  | [] => flush run
  | None :: cells' => encode_rank (S run) cells'
  | Some symbol :: cells' => flush run ++ symbol ++ encode_rank 0 cells'
  end.

(** Modelled from the spec: the reference algorithm of the serializer,
    walking rank 8 down to rank 1 and, in each rank, file 1 to 8. *)
Definition reference_serializer (grid : BoardGrid) (active_color : string) : string :=
  String.concat "/"
    ((λ rank, encode_rank 0 (grid rank <$> [1; 2; 3; 4; 5; 6; 7; 8]))
       <$> [8; 7; 6; 5; 4; 3; 2; 1])
  ++ " " ++ active_color ++ " - - 0 1".

(** The cells of ranks 1..8 and files 1..8 are the same in both arrays. *)
Definition same_grid (b b' : ndarray) : Prop :=
  ∀ rank file, 1 ≤ rank ≤ 8 → 1 ≤ file ≤ 8 →
    np_getitem b' rank file = np_getitem b rank file.

(** The standard starting arrangement, as the array holds it: row 0 and
    column 0 are the unused ones. *)
Definition starting_board : ndarray :=
  [ [""; "";  "";  "";  "";  "";  "";  "";  "" ];
    [""; "R"; "N"; "B"; "Q"; "K"; "B"; "N"; "R"];
    [""; "P"; "P"; "P"; "P"; "P"; "P"; "P"; "P"];
    [""; "";  "";  "";  "";  "";  "";  "";  "" ];
    [""; "";  "";  "";  "";  "";  "";  "";  "" ];
    [""; "";  "";  "";  "";  "";  "";  "";  "" ];
    [""; "";  "";  "";  "";  "";  "";  "";  "" ];
    [""; "p"; "p"; "p"; "p"; "p"; "p"; "p"; "p"];
    [""; "r"; "n"; "b"; "q"; "k"; "b"; "n"; "r"] ].

(** The calls of the engine adapter recorded in an output. *)
Definition is_engine_event (ev : event) : bool :=
  match ev with
  | EngineStart _ | EngineValidate _ | EngineSetFen _ | EngineBestMove _ => true
  | _ => false
  end.

(** Modelled from the spec: the coordinate table is keyed by (file letter,
    rank number).  The rank number of a square is the digit its second
    character writes. *)
Definition rank_number (c : ascii) : option Z :=
  let n := Z.of_N (N_of_ascii c) in
  if (48 <=? n) && (n <=? 57) then Some (n - 48) else None.

(** The row [r] is an entry of the square of file [file] and rank number
    [rank]. *)
Definition entry_of (r : csv_row) (file : ascii) (rank : Z) : Prop :=
  Col r = String file "" ∧ Row r = rank.

(** The square written [file rank] is present in the table, with entry
    [r]: [r] is an entry of the square and no row before it is one.
    [pick] and [place] of the square are those of [r]. *)
Definition present (df : list csv_row) (file rank : ascii) (r : csv_row) : Prop :=
  ∃ (n : Z) (before after : list csv_row),
    rank_number rank = Some n
    ∧ df = (before ++ r :: after)%list
    ∧ entry_of r file n
    ∧ Forall (λ r', ¬ entry_of r' file n) before.

(** The square written [file rank] is absent from the table: no row is an
    entry of it. *)
Definition absent (df : list csv_row) (file rank : ascii) : Prop :=
  ∀ n : Z, rank_number rank = Some n → Forall (λ r', ¬ entry_of r' file n) df.

(** The rows the lookup of the code selects for a square. *)
Definition square_rows (df : list csv_row) (file rank : ascii) : list csv_row :=
  match int_of_char rank with
  | inr n => df_select df (String file "") n
  | inl _ => []
  end.

(** The computation [m], from any store, adds to the recorded output only
    events that satisfy [P]. *)
Definition emits_only {A : Type} (P : event → Prop) (m : Py A) : Prop :=
  ∀ s : store, ∃ evs : list event,
    st_out (m s).2 = (st_out s ++ evs)%list ∧ Forall P evs.

(** An event that is not a call of the engine adapter. *)
Definition not_engine (ev : event) : Prop := is_engine_event ev = false.

(** The last [n] events of an output. *)
Definition last_events (n : nat) (out : list event) : list event :=
  reverse (take n (reverse out)).

(** ** Sample inputs *)

Section Samples.
Context {F : Type} {numeric : Numeric F}.

(** A world where everything works: every path exists, the camera gives a
    frame, the detector answers [results], the engine accepts every
    position and answers [best_move], the coordinate table is [table]. *)
Definition sample_world (results : list (detection F)) (table : list csv_row)
    (best_move : option string) : world F :=
  World (λ _, true) (λ a b, a ++ "/" ++ b) "/app/robot_controller" true true
        (λ _ _, inr results)
        (λ _, None) (λ _, true) (λ _ _, best_move) (λ _, table).

(** A board of 80 x 80 pixels at the origin: squares of 10 x 10. *)
Definition sample_board_box : detection F :=
  Detection (of_int 0) (of_int 0) (of_int 80) (of_int 80) "Chess_Board".

(** A box of 4 x 4 pixels centered at [(x, y)]. *)
Definition sample_box (x y : Z) (name : string) : detection F :=
  Detection (of_int (x - 2)) (of_int (y - 2)) (of_int (x + 2)) (of_int (y + 2)) name.

(** Both kings: the black one on a8, the white one on e1. *)
Definition sample_kings : list (detection F) :=
  [sample_board_box; sample_box 5 5 "Black_King"; sample_box 45 75 "White_King"].

End Samples.

Definition sample_table : list csv_row :=
  [CsvRow "e" 2 "[0.30; 0.10; 0.05]" "[0.30; 0.10; 0.06]";
   CsvRow "e" 4 "[0.30; 0.20; 0.05]" "[0.30; 0.20; 0.06]";
   CsvRow "e" 7 "[0.30; 0.35; 0.05]" "[0.30; 0.35; 0.06]";
   CsvRow "e" 8 "[0.30; 0.40; 0.05]" "[0.30; 0.40; 0.06]"].

(** The same table followed by a second row for e2, with other
    coordinates. *)
Definition doubled_table : list csv_row :=
  (sample_table ++ [CsvRow "e" 2 "[9; 9; 9]" "[9; 9; 9]"])%list.





(** ** Words for the further properties *)

(** The array [a] with [v] written at row [i], column [j]: what
    [np_setitem] does once the two indices are normalised. *)
Definition array_put (a : ndarray) (i j : nat) (v : string) : ndarray :=
  <[i := <[j := v]> (default [] (a !! i))]> a.

(** Where an index in -9..8 lands on an axis of nine entries. *)
Definition cell_index (i : Z) : nat := Z.to_nat (i mod 9).

(** The symbols of [fen_mapping], in the order of its entries. *)
Definition symbols : list string :=
  ["p"; "r"; "n"; "b"; "q"; "k"; "P"; "R"; "N"; "B"; "Q"; "K"].

(** Every cell of the array is empty or holds one of the symbols. *)
Definition board_cells (a : ndarray) : Prop :=
  Forall (Forall (λ cell, cell = "" ∨ cell ∈ symbols)) a.

(** A square of a grid is empty or holds one of the symbols. *)
Definition square_ok (square : option string) : Prop :=
  square = None ∨ ∃ symbol, square = Some symbol ∧ symbol ∈ symbols.

(** Reading a rank string back: a digit stands for that many empty
    squares, any other character for the piece it names. *)
Definition digit_of (c : ascii) : option nat :=
  let n := N_of_ascii c in
  if (48 <=? n)%N && (n <=? 57)%N then Some (N.to_nat (n - 48)) else None.

Fixpoint expand_rank (s : string) : list (option string) :=
  match s with
  | "" => []
  | String c s' =>
      match digit_of c with
      | Some n => (replicate n None ++ expand_rank s')%list
      | None => Some (String c "") :: expand_rank s'
      end
  end.

(** The character [c] occurs in the string [s]. *)
Fixpoint char_in (c : ascii) (s : string) : bool :=
  match s with
  | "" => false
  | String a s' => Ascii.eqb c a || char_in c s'
  end.

(** A world like [sample_world], by what exists on the disk, how the
    engine starts and which strings it accepts. *)
Definition sample_world_with {F : Type} (on_disk : string → bool)
    (start : option string) (accepts : bool)
    (results : list (detection F)) (table : list csv_row)
    (best_move : option string) : world F :=
  World on_disk (λ a b, a ++ "/" ++ b) "/app/robot_controller" true true
        (λ _ _, inr results)
        (λ _, start) (λ _, accepts) (λ _ _, best_move) (λ _, table).

(** Any event. *)
Definition any_event (ev : event) : Prop := True.

(** The computation [m] returns normally from every store. *)
Definition never_raises {A : Type} (m : Py A) : Prop :=
  ∀ s : store, ∃ x : A, (m s).1 = inr x.

Section Alone.
Context {F : Type} {numeric : Numeric F}.

(** The fallback path of the coordinate table, next to the module. *)
Definition fallback_csv_path (w : world F) : string :=
  path_join w (module_dir w) "Placement of pieces_csv.csv".

(** What [main] prints when it catches [e] in steps 2 and 3. *)
Definition image_error_line (e : pyerr) : string :=
  if is_ValueError e
  then "  -> Error during FEN generation: " ++ exc_str e
  else "  -> An unexpected error occurred during image processing: " ++ exc_str e.

(** The turn of the loop of the square mapper for the piece [p] in the
    frame [fr], on the array the square mapper starts from. *)
Definition maps_alone (fr : frame F) (p : piece F) : result ndarray :=
  let '(x_b, y_b, w_b, h_b) := fr in
  map_piece x_b y_b (fdiv w_b (of_int 8)) (fdiv h_b (of_int 8)) (np_full 9 9 "") p.

End Alone.

(** * Properties *)

(** ** Truncation and floor *)

Lemma py_int_floor (x : Q) : (0 <= x)%Q → py_int x = Qfloor x.
Proof.
  destruct x as [n d]. unfold Qle, py_int, Qfloor. simpl.
  intros H. apply Z.quot_div_nonneg; lia.
Qed.

Lemma py_int_small (q : Q) : (-1 < q)%Q → (q < 1)%Q → py_int q = 0.
Proof.
  destruct q as [n d]. unfold Qlt, py_int. simpl. intros Hlo Hhi.
  destruct (Z.le_gt_cases 0 n) as [Hn | Hn].
  - apply Z.quot_small. lia.
  - rewrite <- (Z.opp_involutive n), Z.quot_opp_l by lia.
    rewrite Z.quot_small; lia.
Qed.

Lemma Qfloor_range (x : Q) (n : Z) :
  (0 <= x)%Q → (x < inject_Z n)%Q → 0 ≤ Qfloor x < n.
Proof.
  intros H0 Hn. split.
  - change 0 with (Qfloor (inject_Z 0)). now apply Qfloor_resp_le.
  - rewrite Zlt_Qlt. eapply Qle_lt_trans; [apply Qfloor_le | exact Hn].
Qed.

(** A point strictly inside a side of positive length falls in one of the
    eight slices of that side. *)
Lemma slice_in_range (origin side c : Q) :
  (0 < side)%Q → (origin < c)%Q → (c < origin + side)%Q →
  (0 <= (c - origin) / (side / 8))%Q ∧ ((c - origin) / (side / 8) < inject_Z 8)%Q.
Proof.
  intros Hside Hlo Hhi.
  assert (Hs : (0 < side / 8)%Q) by (apply Qlt_shift_div_l; lra).
  split.
  - apply Qle_shift_div_l; [exact Hs | lra].
  - apply Qlt_shift_div_r; [exact Hs |].
    assert (E : (inject_Z 8 * (side / 8) == side)%Q)
      by (change (inject_Z 8) with 8%Q; field).
    rewrite E. lra.
Qed.

(** ** C1: grid completeness *)

Section GridCompleteness.
Context {F : Type} {numeric : Numeric F}.

(** [int(x)] of a number that stands for a rational in [0, 8). *)
Lemma to_int_slice (x : F) (q : Q) :
  stands_for x q → (0 <= q)%Q → (q < inject_Z 8)%Q →
  to_int x = inr (Qfloor q) ∧ 0 ≤ Qfloor q < 8.
Proof.
  intros (q' & Hvalue & Hq) H0 H8.
  rewrite (to_int_value _ _ Hvalue), py_int_floor by (rewrite Hq; exact H0).
  rewrite (Qfloor_comp _ _ Hq). split; [reflexivity | now apply Qfloor_range].
Qed.

(** The two indices, from the two quotients: when the quotient computed
    along a side stands for the exact quotient of a point strictly inside
    that side, the index is the floor of the exact quotient, shifted into
    1..8. *)
Lemma indices_of_exact_quotients (x_b y_b w_s h_s x_c y_c : F)
    (o_x o_y w h c_x c_y : Q) :
  (0 < w)%Q → (0 < h)%Q →
  (o_x < c_x)%Q → (c_x < o_x + w)%Q →
  (o_y < c_y)%Q → (c_y < o_y + h)%Q →
  stands_for (fdiv (fsub y_c y_b) h_s) ((c_y - o_y) / (h / 8)) →
  stands_for (fdiv (fsub x_c x_b) w_s) ((c_x - o_x) / (w / 8)) →
  ∃ rank file : Z,
    row_index y_b h_s y_c = inr rank
    ∧ col_index x_b w_s x_c = inr file
    ∧ rank = 8 - Qfloor ((c_y - o_y) / (h / 8))
    ∧ file = Qfloor ((c_x - o_x) / (w / 8)) + 1
    ∧ 1 ≤ rank ≤ 8 ∧ 1 ≤ file ≤ 8.
Proof.
  intros Hw Hh Hx0 Hx1 Hy0 Hy1 Hqy Hqx.
  destruct (slice_in_range _ _ _ Hh Hy0 Hy1) as [Hy_lo Hy_hi].
  destruct (slice_in_range _ _ _ Hw Hx0 Hx1) as [Hx_lo Hx_hi].
  destruct (to_int_slice _ _ Hqy Hy_lo Hy_hi) as [Er Hr].
  destruct (to_int_slice _ _ Hqx Hx_lo Hx_hi) as [Ec Hc].
  eexists _, _. unfold row_index, col_index, mbind, result_bind. rewrite Er, Ec.
  repeat split; lia.
Qed.






End GridCompleteness.

Ltac stands_for_computed := eexists; split; [reflexivity | reflexivity].




(** In exact arithmetic no quotient carries a rounding error: grid
    completeness holds for every frame of positive size and every center
    strictly inside it. *)
Lemma grid_completeness_exact (b_x0 b_y0 b_x1 b_y1 p_x0 p_y0 p_x1 p_y1 : Q)
    (name : string) :
  let board_box :=
    Detection (Exact b_x0) (Exact b_y0) (Exact b_x1) (Exact b_y1) "Chess_Board" in
  let box := Detection (Exact p_x0) (Exact p_y0) (Exact p_x1) (Exact p_y1) name in
  let c_x := ((p_x0 + p_x1) / 2)%Q in
  let c_y := ((p_y0 + p_y1) / 2)%Q in
  (b_x0 < b_x1)%Q → (b_y0 < b_y1)%Q →
  (b_x0 < c_x)%Q → (c_x < b_x1)%Q → (b_y0 < c_y)%Q → (c_y < b_y1)%Q →
  let '(x_b, y_b, w_b, h_b) := chessboard_of board_box in
  let '(x_c, y_c, _) := piece_of box in
  ∃ rank file : Z,
    row_index y_b (fdiv h_b (of_int 8)) y_c = inr rank
    ∧ col_index x_b (fdiv w_b (of_int 8)) x_c = inr file
    ∧ 1 ≤ rank ≤ 8 ∧ 1 ≤ file ≤ 8.
Proof.
  intros board_box box c_x c_y Hw Hh Hx0 Hx1 Hy0 Hy1.
  assert (Hexact : ∀ o s c : Q, (0 < s)%Q →
            stands_for (fdiv (fsub (Exact c) (Exact o)) (fdiv (Exact s) (of_int 8)))
                       ((c - o) / (s / 8))).
  { intros o s c Hs. simpl. change (inject_Z 8) with 8%Q.
    change (Qeq_bool 8 0) with false. cbv iota.
    destruct (Qeq_bool (s / 8) 0) eqn:E.
    - apply Qeq_bool_eq in E. exfalso.
      assert (0 < s / 8)%Q by (apply Qlt_shift_div_l; lra).
      rewrite E in H. now apply Qlt_irrefl in H.
    - eexists. split; reflexivity. }
  simpl.
  destruct (indices_of_exact_quotients
              (Exact b_x0) (Exact b_y0)
              (fdiv (Exact (b_x1 - b_x0)) (of_int 8)) (fdiv (Exact (b_y1 - b_y0)) (of_int 8))
              (Exact c_x) (Exact c_y)
              b_x0 b_y0 (b_x1 - b_x0) (b_y1 - b_y0) c_x c_y)
    as (rank & file & Er & Ec & _ & _ & Hr & Hc);
    try lra; try (apply Hexact; lra).
  exists rank, file. auto.
Qed.


(** ** Strings and arrays *)

Lemma str_app_assoc (s t u : string) : (s ++ t) ++ u = s ++ t ++ u.
Proof. induction s as [|c s IH]; [reflexivity | ]. change (String c ((s ++ t) ++ u) = String c (s ++ t ++ u)). now rewrite IH. Qed.

Lemma str_app_nil_r (s : string) : s ++ "" = s.
Proof. induction s as [|c s IH]; [reflexivity | ]. change (String c (s ++ "") = String c s). now rewrite IH. Qed.

Lemma pretty_Z_of_nat (n : nat) : pretty (Z.of_nat n) = pretty n.
Proof. destruct n; reflexivity. Qed.

Lemma np_intp_fits (i : Z) :
  -9223372036854775808 ≤ i < 9223372036854775808 → np_intp i = inr i.
Proof.
  intros H. unfold np_intp.
  change (- 2 ^ 63) with (-9223372036854775808).
  change (2 ^ 63) with 9223372036854775808.
  destruct (Z.leb_spec (-9223372036854775808) i),
           (Z.ltb_spec i 9223372036854775808); simpl; (reflexivity || lia).
Qed.

Lemma np_intp_inr (i j : Z) :
  np_intp i = inr j → j = i ∧ -9223372036854775808 ≤ i < 9223372036854775808.
Proof.
  unfold np_intp.
  change (- 2 ^ 63) with (-9223372036854775808).
  change (2 ^ 63) with 9223372036854775808.
  destruct (Z.leb_spec (-9223372036854775808) i),
           (Z.ltb_spec i 9223372036854775808); cbn [andb];
    [intros [= <-]; split; [reflexivity | lia] | ..];
    destruct ((9223372036854775808 <=? i) && (i <? 2 ^ 64)); discriminate.
Qed.

(** An index that does not fit raises [OverflowError] or [IndexError]. *)
Lemma np_intp_error (i : Z) (e : pyerr) :
  np_intp i = inl e →
  (i < -9223372036854775808 ∨ 9223372036854775808 ≤ i)
  ∧ (e = OverflowError "Python int too large to convert to C long"
     ∨ ∃ msg, e = IndexError msg).
Proof.
  unfold np_intp.
  change (- 2 ^ 63) with (-9223372036854775808).
  change (2 ^ 63) with 9223372036854775808.
  destruct (Z.leb_spec (-9223372036854775808) i),
           (Z.ltb_spec i 9223372036854775808); cbn [andb]; try discriminate;
    intros He; (split; [lia |]);
    destruct ((9223372036854775808 <=? i) && (i <? 2 ^ 64)); injection He as <-;
    first [now left | right; eexists; reflexivity].
Qed.

Lemma np_index_inside (axis size : nat) (i : Z) :
  0 ≤ i < Z.of_nat size → np_index axis size i = inr (Z.to_nat i).
Proof.
  intros H. unfold np_index.
  destruct (Z.leb_spec 0 i), (Z.ltb_spec i (Z.of_nat size)); simpl; (reflexivity || lia).
Qed.

Lemma has_shape_cols (a : ndarray) (rows cols : nat) :
  has_shape a (S rows) cols → np_cols a = cols.
Proof.
  intros [Hlen Hall]. destruct a as [|row a]; [discriminate |].
  unfold np_cols. simpl. now inversion Hall.
Qed.

(** Reading a cell of a well-formed array at indices inside it. *)
Lemma np_getitem_inside (a : ndarray) (rows cols : nat) (r c : Z) :
  has_shape a (S rows) cols →
  0 ≤ r < Z.of_nat (S rows) → 0 ≤ c < Z.of_nat cols →
  Z.of_nat (S rows) ≤ 9223372036854775808 → Z.of_nat cols ≤ 9223372036854775808 →
  np_getitem a r c = inr (default "" (default [] (a !! Z.to_nat r) !! Z.to_nat c)).
Proof.
  intros Hs Hr Hc Hrows Hcols. unfold np_getitem.
  rewrite !np_intp_fits by lia. cbn [mbind result_bind].
  rewrite (has_shape_cols _ _ _ Hs). destruct Hs as [Hlen _].
  rewrite np_index_inside by lia. simpl.
  rewrite np_index_inside by lia. reflexivity.
Qed.

(** ** C3: the serializer against its reference algorithm *)

(** The conditional flush of the source is [flush]. *)
Lemma flush_sound (n : nat) (acc : string) :
  (if 0 <? Z.of_nat n then acc ++ pretty (Z.of_nat n) else acc) = acc ++ flush n.
Proof.
  destruct n as [|n].
  - simpl. now rewrite str_app_nil_r.
  - replace (0 <? Z.of_nat (S n)) with true by (symmetry; apply Z.ltb_lt; lia).
    now rewrite pretty_Z_of_nat.
Qed.

Lemma grid_of_cell (board : ndarray) (row col : Z) (cell : string) :
  np_getitem board row col = inr cell →
  grid_of board row col = if String.eqb cell "" then None else Some cell.
Proof. intros E. unfold grid_of. rewrite E. now destruct cell. Qed.

(** The loop over the columns, started with [n] empty cells counted and
    [acc] written, leaves a state whose flush is [acc] followed by the
    encoding of the cells it has walked. *)
Lemma scan_cells_encode (board : ndarray) (row : Z) (cols : list Z) :
  Forall (λ col, ∃ cell, np_getitem board row col = inr cell) cols →
  ∀ (n : nat) (acc : string),
  ∃ (n' : nat) (acc' : string),
    fold_result (scan_cell board row) cols (Z.of_nat n, acc) = inr (Z.of_nat n', acc')
    ∧ acc' ++ flush n' = acc ++ encode_rank n (grid_of board row <$> cols).
Proof.
  induction 1 as [|col cols [cell Hcell] _ IH]; intros n acc.
  - exists n, acc. split; reflexivity.
  - simpl. rewrite Hcell. simpl. rewrite (grid_of_cell _ _ _ _ Hcell).
    destruct (String.eqb cell "") eqn:Ecell.
    + replace (Z.of_nat n + 1) with (Z.of_nat (S n)) by lia.
      destruct (IH (S n) acc) as (n' & acc' & Hrun & Henc).
      exists n', acc'. split; [exact Hrun | exact Henc].
    + destruct (IH 0%nat ((acc ++ flush n) ++ cell)) as (n' & acc' & Hrun & Henc).
      exists n', acc'. split.
      * rewrite <- Hrun. rewrite <- (flush_sound n acc).
        destruct (0 <? Z.of_nat n) eqn:En; [reflexivity |].
        apply Z.ltb_ge in En. now replace n with 0%nat by lia.
      * rewrite Henc. cbn [encode_rank]. now rewrite !str_app_assoc.
Qed.

(** One turn of the loop over the rows appends the encoding of the rank. *)
Lemma scan_row_encode (board : ndarray) (fen_rows : list string) (row : Z) :
  Forall (λ col, ∃ cell, np_getitem board row col = inr cell) (py_range 1 9 1) →
  scan_row board fen_rows row
  = inr (fen_rows ++ [encode_rank 0 (grid_of board row <$> py_range 1 9 1)])%list.
Proof.
  intros Hcols. unfold scan_row.
  destruct (scan_cells_encode board row _ Hcols 0%nat "") as (n' & acc' & Hrun & Henc).
  change (0, "") with (Z.of_nat 0, ""). rewrite Hrun. simpl.
  now rewrite flush_sound, Henc.
Qed.

Lemma generate_fen_rows_encode (board : ndarray) (rows : list Z) :
  Forall (λ row, Forall (λ col, ∃ cell, np_getitem board row col = inr cell)
                        (py_range 1 9 1)) rows →
  ∀ fen_rows,
  fold_result (scan_row board) rows fen_rows
  = inr (fen_rows
         ++ ((λ row, encode_rank 0 (grid_of board row <$> py_range 1 9 1)) <$> rows))%list.
Proof.
  induction 1 as [|row rows Hrow _ IH]; intros fen_rows.
  - simpl. now rewrite app_nil_r.
  - simpl. rewrite (scan_row_encode _ _ _ Hrow). simpl. rewrite IH.
    now rewrite <- app_assoc.
Qed.

Lemma ranks_walked : py_range 8 0 (-1) = [8; 7; 6; 5; 4; 3; 2; 1].
Proof. reflexivity. Qed.

Lemma files_walked : py_range 1 9 1 = [1; 2; 3; 4; 5; 6; 7; 8].
Proof. reflexivity. Qed.

Lemma ranks_in_range : Forall (λ k, 1 ≤ k ≤ 8) (py_range 8 0 (-1)).
Proof. rewrite ranks_walked. repeat (constructor; [lia |]). constructor. Qed.

Lemma files_in_range : Forall (λ k, 1 ≤ k ≤ 8) (py_range 1 9 1).
Proof. rewrite files_walked. repeat (constructor; [lia |]). constructor. Qed.

(** Every cell the serializer reads exists in a 9 x 9 array. *)
Lemma serializer_reads_inside (board : ndarray) :
  has_shape board 9 9 →
  Forall (λ row, Forall (λ col, ∃ cell, np_getitem board row col = inr cell)
                        (py_range 1 9 1)) (py_range 8 0 (-1)).
Proof.
  intros Hs.
  eapply Forall_impl; [apply ranks_in_range |]. intros row Hrow. simpl in Hrow.
  eapply Forall_impl; [apply files_in_range |]. intros col Hcol. simpl in Hcol.
  eexists. eapply np_getitem_inside; [exact Hs | lia ..].
Qed.

Lemma notation_serializer_reference (board : ndarray) (active_color : string) :
  has_shape board 9 9 →
  notation_serializer board (fen_trailer active_color)
  = inr (reference_serializer (grid_of board) active_color).
Proof.
  intros Hs. unfold notation_serializer, generate_fen_rows.
  rewrite (generate_fen_rows_encode _ _ (serializer_reads_inside _ Hs)).
  reflexivity.
Qed.

(** C3.  On every 9 x 9 array the serializer returns what the reference
    algorithm gives on the grid the array stands for: rank 8 down to rank 1,
    file 1 to 8 in each rank, a count of consecutive empty cells flushed
    (only if positive) before each symbol and at the end of the rank, the
    eight rank strings joined with ["/"], then a space, the active color and
    [" - - 0 1"].  The starting arrangement serializes to
    [rnbqkbnr/pppppppp/8/8/8/8/PPPPPPPP/RNBQKBNR] followed by that trailer,
    and a rank whose only piece is [P] at file 5 serializes to [4P3]. *)
Theorem serializer_reference_algorithm :
  (∀ (board : ndarray) (active_color : string),
     has_shape board 9 9 →
     notation_serializer board (fen_trailer active_color)
     = inr (reference_serializer (grid_of board) active_color))
  ∧ (∀ active_color : string,
       notation_serializer starting_board (fen_trailer active_color)
       = inr ("rnbqkbnr/pppppppp/8/8/8/8/PPPPPPPP/RNBQKBNR"
              ++ " " ++ active_color ++ " - - 0 1"))
  ∧ (∀ (board : ndarray) (rank : Z),
       has_shape board 9 9 → 1 ≤ rank ≤ 8 →
       grid_of board rank <$> [1; 2; 3; 4; 5; 6; 7; 8]
       = [None; None; None; None; Some "P"; None; None; None] →
       scan_row board [] rank = inr ["4P3"]).
Proof.
  split; [| split].
  - intros board active_color Hs. now apply notation_serializer_reference.
  - intros active_color. reflexivity.
  - intros board rank Hs Hrank Hcells.
    rewrite scan_row_encode.
    + rewrite files_walked, Hcells. reflexivity.
    + eapply Forall_impl; [apply files_in_range |]. intros col Hcol. simpl in Hcol.
      eexists. eapply np_getitem_inside; [exact Hs | lia ..].
Qed.

Lemma serializer_reference_algorithm_witness :
  notation_serializer starting_board (fen_trailer "w")
  = inr (reference_serializer (grid_of starting_board) "w").
Proof.
  apply (proj1 serializer_reference_algorithm).
  split; [reflexivity | repeat constructor].
Defined.

(** ** Writing into the array *)

(** Where an index lands: itself when it is not negative, counted from
    the end when it is. *)
Lemma np_index_wraps (axis size : nat) (i : Z) :
  - Z.of_nat size ≤ i < Z.of_nat size →
  np_index axis size i = inr (Z.to_nat (i mod Z.of_nat size)).
Proof.
  intros H. unfold np_index.
  destruct (Z.leb_spec 0 i), (Z.ltb_spec i (Z.of_nat size)); simpl; try lia.
  - now rewrite Z.mod_small by lia.
  - destruct (Z.leb_spec (- Z.of_nat size) i), (Z.ltb_spec i 0); simpl; try lia.
    f_equal. f_equal.
    rewrite <- (Z.mod_add i 1 (Z.of_nat size)) by lia.
    rewrite Z.mod_small; lia.
Qed.

Lemma np_index_outside (axis size : nat) (i : Z) :
  i < - Z.of_nat size ∨ Z.of_nat size ≤ i →
  ∃ msg, np_index axis size i = inl (IndexError msg).
Proof.
  intros H. unfold np_index.
  destruct (Z.leb_spec 0 i), (Z.ltb_spec i (Z.of_nat size)); simpl; try lia;
    destruct (Z.leb_spec (- Z.of_nat size) i), (Z.ltb_spec i 0); simpl; try lia;
    eexists; reflexivity.
Qed.

Lemma insert_has_shape (a : ndarray) (rows cols i j : nat) (v : string) :
  has_shape a rows cols →
  has_shape (<[i := <[j := v]> (default [] (a !! i))]> a) rows cols.
Proof.
  intros [Hlen Hall]. split.
  - now rewrite length_insert.
  - destruct (a !! i) as [row|] eqn:E; simpl.
    + apply Forall_insert; [exact Hall |]. cbv beta.
      rewrite length_insert.
      eapply Forall_lookup_1 in Hall; [| exact E]. exact Hall.
    + rewrite list_insert_ge; [exact Hall |]. now apply lookup_ge_None.
Qed.

Lemma np_setitem_wraps (a : ndarray) (rows cols : nat) (r c : Z) (v : string) :
  has_shape a (S rows) cols →
  - Z.of_nat (S rows) ≤ r < Z.of_nat (S rows) →
  - Z.of_nat cols ≤ c < Z.of_nat cols →
  Z.of_nat (S rows) ≤ 9223372036854775808 → Z.of_nat cols ≤ 9223372036854775808 →
  np_setitem a r c v
  = inr (<[Z.to_nat (r mod Z.of_nat (S rows)) :=
            <[Z.to_nat (c mod Z.of_nat cols) := v]>
              (default [] (a !! Z.to_nat (r mod Z.of_nat (S rows))))]> a).
Proof.
  intros Hs Hr Hc Hrows Hcols. unfold np_setitem.
  rewrite !np_intp_fits by lia. cbn [mbind result_bind].
  rewrite (has_shape_cols _ _ _ Hs). destruct Hs as [Hlen _]. rewrite Hlen.
  rewrite (np_index_wraps 0) by exact Hr. simpl.
  rewrite (np_index_wraps 1) by exact Hc. reflexivity.
Qed.

(** Reading after a write at row [i], column [j]: the written value
    there, the former value elsewhere. *)
Lemma np_getitem_insert (a : ndarray) (rows cols i j : nat) (v : string) (r c : Z) :
  has_shape a (S rows) cols →
  (i < S rows)%nat → (j < cols)%nat →
  0 ≤ r < Z.of_nat (S rows) → 0 ≤ c < Z.of_nat cols →
  Z.of_nat (S rows) ≤ 9223372036854775808 → Z.of_nat cols ≤ 9223372036854775808 →
  np_getitem (<[i := <[j := v]> (default [] (a !! i))]> a) r c
  = if decide (i = Z.to_nat r ∧ j = Z.to_nat c) then inr v else np_getitem a r c.
Proof.
  intros Hs Hi Hj Hr Hc Hrows Hcols.
  rewrite (np_getitem_inside _ rows cols) by (try apply insert_has_shape; assumption).
  rewrite (np_getitem_inside _ rows cols) by assumption.
  destruct Hs as [Hlen Hall].
  destruct (lookup_lt_is_Some_2 a i) as [row Hrow]; [lia |].
  rewrite Hrow. simpl.
  assert (Hlrow : length row = cols) by (eapply Forall_lookup_1 in Hall; eauto).
  destruct (decide (i = Z.to_nat r)) as [<- | Hne].
  - rewrite list_lookup_insert_eq by lia. simpl. rewrite Hrow. simpl.
    destruct (decide (j = Z.to_nat c)) as [<- | Hne'].
    + rewrite list_lookup_insert_eq by lia.
      rewrite decide_True by tauto. reflexivity.
    + rewrite list_lookup_insert_ne by exact Hne'.
      rewrite decide_False by tauto. reflexivity.
  - rewrite list_lookup_insert_ne by exact Hne.
    rewrite decide_False by tauto. reflexivity.
Qed.

(** The serializer reads only the cells of ranks 1..8 and files 1..8. *)
Lemma fold_result_ext {S A : Type} (f g : S → A → result S) (l : list A) :
  Forall (λ x, ∀ s, f s x = g s x) l →
  ∀ s, fold_result f l s = fold_result g l s.
Proof.
  induction 1 as [|x l Hx _ IH]; intros s; simpl; [reflexivity |].
  rewrite Hx. destruct (g s x); simpl; [reflexivity | apply IH].
Qed.

Lemma generate_fen_rows_same_grid (b b' : ndarray) :
  same_grid b b' → generate_fen_rows b' = generate_fen_rows b.
Proof.
  intros Hsame. unfold generate_fen_rows. apply fold_result_ext.
  eapply Forall_impl; [apply ranks_in_range |]. intros row Hrow fen_rows.
  simpl in Hrow. unfold scan_row. f_equal. apply fold_result_ext.
  eapply Forall_impl; [apply files_in_range |]. intros col Hcol [n acc].
  simpl in Hcol. unfold scan_cell. now rewrite Hsame.
Qed.

Lemma notation_serializer_same_grid (b b' : ndarray) (trailer : string) :
  same_grid b b' → notation_serializer b' trailer = notation_serializer b trailer.
Proof.
  intros Hsame. unfold notation_serializer.
  now rewrite (generate_fen_rows_same_grid _ _ Hsame).
Qed.


(** ** C2: detections whose indices fall outside 1..8 *)

(** C2, as stated, fails.  On the 80 x 80 frame at the origin a white pawn
    centered at (5, 95), below the frame, gets rank index -1 and file index
    1: the write wraps to rank 8, whose first cell changes from empty to
    [P], and the serialized output changes from [8/8/...] to [P7/8/...].
    The same pawn centered at (5, -15), above the frame, gets rank index 9:
    the write raises [IndexError] and no output is produced.  (Single
    precision; every operation is exact on these inputs.) *)
Lemma out_of_range_not_discarded :
  let fr : frame spec_float := (of_int 0, of_int 0, of_int 80, of_int 80) in
  let square := fdiv (of_int 80) (of_int 8) : spec_float in
  let below : piece spec_float := (of_int 5, of_int 95, "White_Pawn") in
  let above : piece spec_float := (of_int 5, of_int (-15), "White_Pawn") in
  fen_mapping !! "White_Pawn" = Some "P"
  ∧ row_index (of_int 0) square (of_int 95) = inr (-1)
  ∧ col_index (of_int 0) square (of_int 5) = inr 1
  ∧ (∃ board',
       map_piece (of_int 0) (of_int 0) square square (np_full 9 9 "") below = inr board'
       ∧ np_getitem (np_full 9 9 "") 8 1 = inr ""
       ∧ np_getitem board' 8 1 = inr "P")
  ∧ (frame_to_fen fr [] "w" initial_store).1 = inr "8/8/8/8/8/8/8/8 w - - 0 1"
  ∧ (frame_to_fen fr [below] "w" initial_store).1 = inr "P7/8/8/8/8/8/8/8 w - - 0 1"
  ∧ row_index (of_int 0) square (of_int (-15)) = inr 9
  ∧ (frame_to_fen fr [above] "w" initial_store).1
    = inl (IndexError "index 9 is out of bounds for axis 0 with size 9").
Proof.
  repeat split; try reflexivity.
  eexists. repeat split; reflexivity.
Qed.

Section OutOfRange.
Context {F : Type} {numeric : Numeric F}.

(** C2, amended.  A detection whose label maps to a symbol and whose
    computed rank or file index is 0 or -9, both indices being in -9..8, is
    written to row 0 or column 0 of the 9 x 9 array: the square mapper
    completes without error, every cell of ranks 1..8 and files 1..8 is
    unchanged, and so is the serialized output. *)
Theorem out_of_range_spare_cell (x_b y_b w_s h_s : F) (board : ndarray)
    (x_c y_c : F) (name symbol : string) (rank file : Z) :
  has_shape board 9 9 →
  fen_mapping !! name = Some symbol →
  row_index y_b h_s y_c = inr rank →
  col_index x_b w_s x_c = inr file →
  -9 ≤ rank ≤ 8 → -9 ≤ file ≤ 8 →
  rank = 0 ∨ rank = -9 ∨ file = 0 ∨ file = -9 →
  ∃ board',
    map_piece x_b y_b w_s h_s board (x_c, y_c, name) = inr board'
    ∧ has_shape board' 9 9
    ∧ same_grid board board'
    ∧ ∀ trailer, notation_serializer board' trailer = notation_serializer board trailer.
Proof.
  intros Hs Hname Hrow Hcol Hrank Hfile Hspare.
  unfold map_piece. rewrite Hrow, Hcol, Hname. simpl.
  rewrite (np_setitem_wraps board 8 9) by (assumption || lia).
  change (Z.of_nat 9) with 9.
  pose proof (Z.mod_pos_bound rank 9 eq_refl) as Hi.
  pose proof (Z.mod_pos_bound file 9 eq_refl) as Hj.
  eexists. split; [reflexivity |].
  assert (Hsame : same_grid board
            (<[Z.to_nat (rank mod 9) :=
                 <[Z.to_nat (file mod 9) := symbol]>
                   (default [] (board !! Z.to_nat (rank mod 9)))]> board)).
  { intros r c Hr Hc.
    rewrite (np_getitem_insert board 8 9) by first [assumption | lia].
    rewrite decide_False; [reflexivity |].
    intros [E1 E2].
    assert (Hzero : rank mod 9 = 0 ∨ file mod 9 = 0)
      by (destruct Hspare as [-> | [-> | [-> | ->]]]; auto).
    lia. }
  split; [now apply insert_has_shape |].
  split; [exact Hsame |].
  intros trailer. now apply notation_serializer_same_grid.
Qed.

(** Beside the amended claim: an index in -8..-1 counts from the end of
    the axis, so a detection with rank index in -8..-1 and file index in
    1..8 lands on the square of rank [rank + 9]. *)
Lemma negative_rank_wraps (x_b y_b w_s h_s : F) (board : ndarray)
    (x_c y_c : F) (name symbol : string) (rank file : Z) :
  has_shape board 9 9 →
  fen_mapping !! name = Some symbol →
  row_index y_b h_s y_c = inr rank →
  col_index x_b w_s x_c = inr file →
  -8 ≤ rank ≤ -1 → 1 ≤ file ≤ 8 →
  ∃ board',
    map_piece x_b y_b w_s h_s board (x_c, y_c, name) = inr board'
    ∧ np_getitem board' (rank + 9) file = inr symbol.
Proof.
  intros Hs Hname Hrow Hcol Hrank Hfile.
  unfold map_piece. rewrite Hrow, Hcol, Hname. simpl.
  rewrite (np_setitem_wraps board 8 9) by (assumption || lia).
  change (Z.of_nat 9) with 9.
  eexists. split; [reflexivity |].
  assert (Er : rank mod 9 = rank + 9)
    by (rewrite <- (Z.mod_add rank 1 9) by lia; apply Z.mod_small; lia).
  assert (Ec : file mod 9 = file) by (apply Z.mod_small; lia).
  rewrite (np_getitem_insert board 8 9) by first [assumption | lia].
  rewrite decide_True; [reflexivity | split; lia].
Qed.

(** And an index beyond -9..8 raises: [IndexError] when both indices fit
    the index type, [OverflowError] or [IndexError] otherwise; nothing is
    written. *)
Lemma index_beyond_array_raises (x_b y_b w_s h_s : F) (board : ndarray)
    (x_c y_c : F) (name symbol : string) (rank file : Z) :
  has_shape board 9 9 →
  fen_mapping !! name = Some symbol →
  row_index y_b h_s y_c = inr rank →
  col_index x_b w_s x_c = inr file →
  rank < -9 ∨ 9 ≤ rank ∨ (-9 ≤ rank ≤ 8 ∧ (file < -9 ∨ 9 ≤ file)) →
  ∃ e : pyerr,
    map_piece x_b y_b w_s h_s board (x_c, y_c, name) = inl e
    ∧ (e = OverflowError "Python int too large to convert to C long"
       ∨ ∃ msg, e = IndexError msg)
    ∧ (-9223372036854775808 ≤ rank < 9223372036854775808 →
       -9223372036854775808 ≤ file < 9223372036854775808 →
       ∃ msg, e = IndexError msg).
Proof.
  intros Hs Hname Hrow Hcol Hbeyond.
  unfold map_piece. rewrite Hrow, Hcol, Hname. simpl.
  unfold np_setitem.
  destruct (np_intp rank) as [e | rank'] eqn:Er.
  { exists e. destruct (np_intp_error _ _ Er) as [Hout He].
    split; [reflexivity |]. split; [exact He |]. lia. }
  destruct (np_intp file) as [e | file'] eqn:Ec.
  { exists e. destruct (np_intp_error _ _ Ec) as [Hout He].
    split; [reflexivity |]. split; [exact He |]. lia. }
  apply np_intp_inr in Er as [-> _]. apply np_intp_inr in Ec as [-> _].
  cbn [mbind result_bind].
  rewrite (has_shape_cols _ 8 9 Hs). destruct Hs as [-> _].
  destruct Hbeyond as [Hr | [Hr | [Hr Hc]]].
  - destruct (np_index_outside 0 9 rank) as [msg ->]; [lia |].
    eexists. split; [reflexivity |]. split; [right |]; intros; now exists msg.
  - destruct (np_index_outside 0 9 rank) as [msg ->]; [lia |].
    eexists. split; [reflexivity |]. split; [right |]; intros; now exists msg.
  - rewrite (np_index_wraps 0 9 rank) by lia. simpl.
    destruct (np_index_outside 1 9 file) as [msg ->]; [lia |].
    eexists. split; [reflexivity |]. split; [right |]; intros; now exists msg.
Qed.

End OutOfRange.

Lemma out_of_range_spare_cell_witness :
  let square := fdiv (of_int 80) (of_int 8) : spec_float in
  ∃ board',
    map_piece (of_int 0) (of_int 0) square square starting_board
      (of_int 5, of_int 85, "White_Pawn") = inr board'
    ∧ has_shape board' 9 9
    ∧ same_grid starting_board board'
    ∧ ∀ trailer,
        notation_serializer board' trailer = notation_serializer starting_board trailer.
Proof.
  apply (out_of_range_spare_cell (F := spec_float)
           (of_int 0) (of_int 0) (fdiv (of_int 80) (of_int 8)) (fdiv (of_int 80) (of_int 8))
           starting_board (of_int 5) (of_int 85) "White_Pawn" "P" 0 1);
    first [reflexivity | lia | (split; [reflexivity | repeat constructor]) | (left; reflexivity)].
Defined.

Ltac py_unfold :=
  unfold print in *;
  unfold mbind, mret, Py_bind, Py_ret, result_bind, result_ret,
    raise, lift, emit, set_board, get_board, try_except in *.


Section Localizer.
Context {F : Type} {numeric : Numeric F}.

(** ** C9 and C4: the board localizer *)

Lemma extract_fold (results : list (detection F)) :
  ∀ (chessboard : option (frame F)) (pieces : list (piece F)),
  fold_left extract_step results (chessboard, pieces)
  = (from_option Some chessboard
       (chessboard_of <$> last (List.filter is_board results)),
     (pieces ++ (piece_of <$> piece_boxes results))%list).
Proof.
  induction results as [|box results IH]; intros chessboard pieces.
  - simpl. now rewrite app_nil_r.
  - simpl. unfold piece_boxes. simpl.
    destruct (is_board box) eqn:E; unfold is_board in E; rewrite E; simpl; rewrite IH.
    + f_equal.
      destruct (List.filter is_board results) as [|d l]; [reflexivity |].
      change (last (box :: d :: l)) with (last (d :: l)).
      destruct (last (d :: l)) eqn:L; [reflexivity |].
      now apply last_None in L.
    + f_equal. now rewrite <- app_assoc.
Qed.

Lemma extract_detections_spec (results : list (detection F)) :
  extract_detections results
  = (chessboard_of <$> last (List.filter is_board results),
     piece_of <$> piece_boxes results).
Proof.
  unfold extract_detections. rewrite extract_fold. f_equal.
  now destruct (last (List.filter is_board results)).
Qed.

Lemma filter_no_board (l : list (detection F)) :
  Forall (λ box, is_board box = false) l → List.filter is_board l = [].
Proof.
  induction 1 as [|box l Hbox _ IH]; [reflexivity |]. simpl. now rewrite Hbox.
Qed.

Lemma piece_boxes_app (l1 l2 : list (detection F)) :
  piece_boxes (l1 ++ l2) = (piece_boxes l1 ++ piece_boxes l2)%list.
Proof. apply List.filter_app. Qed.

Lemma piece_boxes_idem (l : list (detection F)) : piece_boxes (piece_boxes l) = piece_boxes l.
Proof.
  unfold piece_boxes. induction l as [|box l IH]; [reflexivity |]. simpl.
  destruct (is_board box) eqn:E; simpl; [exact IH |]. rewrite E. simpl. now rewrite IH.
Qed.

Lemma piece_boxes_no_board (l : list (detection F)) :
  Forall (λ box, is_board box = false) (piece_boxes l).
Proof.
  unfold piece_boxes. induction l as [|box l IH]; simpl; [constructor |].
  destruct (is_board box) eqn:E; simpl; [exact IH |]. now constructor.
Qed.

(** The last board detection decides. *)
Lemma extract_last_board (earlier later : list (detection F)) (box : detection F) :
  is_board box = true →
  Forall (λ b, is_board b = false) later →
  extract_detections (earlier ++ box :: later)
  = (Some (chessboard_of box), piece_of <$> piece_boxes (earlier ++ later)).
Proof.
  intros Hbox Hlater. rewrite extract_detections_spec.
  rewrite List.filter_app. simpl. rewrite Hbox, (filter_no_board _ Hlater).
  rewrite last_snoc. simpl. f_equal.
  rewrite !piece_boxes_app. unfold piece_boxes at 2. simpl. now rewrite Hbox.
Qed.

(** ** The store under the square mapper and the serializer *)

(** The loop over the pieces on an array [b]: its outcome and the array it
    leaves do not depend on the output recorded so far, which it leaves as
    it is. *)
Lemma place_pieces_run (x_b y_b w_s h_s : F) (pieces : list (piece F)) :
  ∀ b : ndarray, ∃ (r : result unit) (b' : ndarray), ∀ out : list event,
    for_each pieces (place_piece x_b y_b w_s h_s) (Store (Some b) out)
    = (r, Store (Some b') out).
Proof.
  induction pieces as [|p pieces IH]; intros b.
  - exists (inr tt), b. reflexivity.
  - destruct (map_piece x_b y_b w_s h_s b p) as [e | b1] eqn:E.
    + exists (inl e), b. intros out. simpl. unfold place_piece. py_unfold.
      simpl. now rewrite E.
    + destruct (IH b1) as (r & b' & Hrun). exists r, b'. intros out.
      simpl. unfold place_piece. py_unfold. simpl. rewrite E. apply Hrun.
Qed.

(** The square mapper followed by the serializer: the outcome and the
    array left in the store depend on the frame, the pieces and the color
    only; the output recorded in the store is left as it is. *)
Lemma frame_to_fen_run (fr : frame F) (pieces : list (piece F)) (active_color : string) :
  ∃ (r : result string) (b' : ndarray), ∀ s : store,
    frame_to_fen fr pieces active_color s = (r, Store (Some b') (st_out s)).
Proof.
  destruct fr as [[[x_b y_b] w_b] h_b].
  destruct (place_pieces_run x_b y_b (fdiv w_b (of_int 8)) (fdiv h_b (of_int 8)) pieces
              (np_full 9 9 ""))
    as (r & b' & Hrun).
  destruct r as [e | []].
  - exists (inl e), b'. intros s.
    unfold frame_to_fen, square_mapper. py_unfold. simpl. now rewrite Hrun.
  - exists (notation_serializer b' (fen_trailer active_color)), b'. intros s.
    unfold frame_to_fen, square_mapper. py_unfold. simpl. now rewrite Hrun.
Qed.

(** [image_to_fen] after the detector has answered. *)
Lemma image_to_fen_detected (w : world F) (image model active_color : string)
    (results : list (detection F)) (s : store) :
  yolo w model image = inr results →
  image_to_fen w image model active_color s
  = let s' := Store (st_board s) (st_out s ++ [Detect model image])%list in
    match extract_detections results with
    | (None, _) =>
        (inl (ValueError "Chessboard not detected in the image. Cannot generate FEN."), s')
    | (Some fr, pieces) => frame_to_fen fr pieces active_color s'
    end.
Proof.
  intros Hyolo. unfold image_to_fen, detect.
  unfold mbind at 1 2. unfold Py_bind, emit, lift. rewrite Hyolo.
  destruct (extract_detections results) as [[fr|] pieces]; reflexivity.
Qed.

(** C8.  Running the square mapper followed by the serializer a second
    time, on the same frame, the same pieces and the same active color,
    from the store the first run has left, gives the same outcome as the
    first run: the same string, or the same exception. *)
Theorem mapper_serializer_idempotent (fr : frame F) (pieces : list (piece F))
    (active_color : string) (s : store) :
  let first := frame_to_fen fr pieces active_color s in
  let second := frame_to_fen fr pieces active_color first.2 in
  second.1 = first.1.
Proof.
  destruct (frame_to_fen_run fr pieces active_color) as (r & b' & Hrun).
  simpl. now rewrite !Hrun.
Qed.

(** C4.  When no detection is labelled ["Chess_Board"], [image_to_fen]
    raises [ValueError] with the message of the missing board; the [board]
    of the store is as it was, so no array has been built, and no string is
    returned.  The caller, [main], catches the exception in steps 2 and 3,
    prints it and ends the turn. *)
Theorem missing_board_fails (w : world F) (image model active_color : string)
    (results : list (detection F)) (s : store) :
  yolo w model image = inr results →
  Forall (λ box, is_board box = false) results →
  image_to_fen w image model active_color s
  = (inl (ValueError "Chessboard not detected in the image. Cannot generate FEN."),
     Store (st_board s) (st_out s ++ [Detect model image])%list)
  ∧ (model = model_path →
     turn_fen w image s
     = (inr None,
        Store (st_board s)
          (st_out s ++
           [Print (nl ++ "Step 2 & 3: Processing image and generating FEN string...");
            Detect model image;
            Print ("  -> Error during FEN generation: "
                   ++ "Chessboard not detected in the image. Cannot generate FEN.")])%list)).
Proof.
  intros Hyolo Hnone.
  assert (Hfen : ∀ color s0,
    image_to_fen w image model color s0
    = (inl (ValueError "Chessboard not detected in the image. Cannot generate FEN."),
       Store (st_board s0) (st_out s0 ++ [Detect model image])%list)).
  { intros color s0. rewrite (image_to_fen_detected _ _ _ _ _ _ Hyolo).
    rewrite extract_detections_spec, (filter_no_board _ Hnone). reflexivity. }
  split; [apply Hfen |].
  intros ->. unfold turn_fen, try_except.
  unfold mbind at 1. unfold Py_bind. unfold print at 1. unfold emit at 1.
  unfold mbind at 1. unfold Py_bind. rewrite Hfen. simpl.
  py_unfold. simpl. now rewrite <- !app_assoc.
Qed.

(** X25.  The earlier variant of [image_to_fen] unpacks [chessboard]
    without a test: with no board detection it raises [TypeError], again
    before the array is built. *)
Lemma missing_board_fails_bare (w : world F) (image model : string)
    (results : list (detection F)) (s : store) :
  yolo w model image = inr results →
  Forall (λ box, is_board box = false) results →
  image_to_fen_bare w image model s
  = (inl (TypeError "cannot unpack non-iterable NoneType object"),
     Store (st_board s) (st_out s ++ [Detect model image])%list).
Proof.
  intros Hyolo Hnone. unfold image_to_fen_bare, detect.
  py_unfold. simpl. rewrite Hyolo.
  rewrite extract_detections_spec, (filter_no_board _ Hnone). reflexivity.
Qed.

(** C9.  When the detections hold a board detection [box] with no board
    detection after it, the frame is the one of [box]; the pieces are the
    centers of the detections that are not board detections, in their
    order, so no board detection is among them; and the outcome of
    [image_to_fen] is the one obtained with the board detections before
    [box] removed. *)
Theorem last_board_detection_wins (w : world F) (earlier later : list (detection F))
    (box : detection F) (image model active_color : string) (s : store) :
  is_board box = true →
  Forall (λ b, is_board b = false) later →
  extract_detections (earlier ++ box :: later)
  = (Some (chessboard_of box), piece_of <$> piece_boxes (earlier ++ later))
  ∧ Forall (λ b, is_board b = false) (piece_boxes (earlier ++ later))
  ∧ image_to_fen (with_detections w (earlier ++ box :: later)) image model active_color s
    = image_to_fen (with_detections w (piece_boxes earlier ++ box :: later))
        image model active_color s.
Proof.
  intros Hbox Hlater.
  split; [now apply extract_last_board |].
  split; [apply piece_boxes_no_board |].
  rewrite (image_to_fen_detected _ _ _ _ (earlier ++ box :: later)) by reflexivity.
  rewrite (image_to_fen_detected _ _ _ _ (piece_boxes earlier ++ box :: later))
    by reflexivity.
  rewrite !extract_last_board by assumption.
  now rewrite !piece_boxes_app, piece_boxes_idem.
Qed.

End Localizer.

Lemma missing_board_fails_bare_witness :
  let w : world spec_float :=
    sample_world [sample_box 5 5 "Black_King"] sample_table None in
  image_to_fen_bare w "move_1.jpg" model_path initial_store
  = (inl (TypeError "cannot unpack non-iterable NoneType object"),
     Store None [Detect model_path "move_1.jpg"]).
Proof.
  apply (missing_board_fails_bare (F := spec_float)
           (sample_world [sample_box 5 5 "Black_King"] sample_table None)
           "move_1.jpg" model_path [sample_box 5 5 "Black_King"] initial_store).
  - reflexivity.
  - repeat constructor.
Defined.

Lemma missing_board_fails_witness :
  let w : world spec_float :=
    sample_world [sample_box 5 5 "Black_King"] sample_table None in
  image_to_fen w "move_1.jpg" model_path "w" initial_store
  = (inl (ValueError "Chessboard not detected in the image. Cannot generate FEN."),
     Store None [Detect model_path "move_1.jpg"])
  ∧ (model_path = model_path →
     turn_fen w "move_1.jpg" initial_store
     = (inr None,
        Store None
          [Print (nl ++ "Step 2 & 3: Processing image and generating FEN string...");
           Detect model_path "move_1.jpg";
           Print ("  -> Error during FEN generation: "
                  ++ "Chessboard not detected in the image. Cannot generate FEN.")])).
Proof.
  apply (missing_board_fails (F := spec_float)
           (sample_world [sample_box 5 5 "Black_King"] sample_table None)
           "move_1.jpg" model_path "w" [sample_box 5 5 "Black_King"] initial_store).
  - reflexivity.
  - repeat constructor.
Defined.

Lemma last_board_detection_wins_witness :
  let w : world spec_float := sample_world [] sample_table None in
  let first_board :=
    Detection (of_int 10) (of_int 10) (of_int 50) (of_int 50) "Chess_Board" in
  let earlier := [sample_box 5 5 "Black_King"; first_board] in
  let later := [sample_box 45 75 "White_King"] in
  extract_detections (earlier ++ sample_board_box :: later)
  = (Some (chessboard_of sample_board_box), piece_of <$> piece_boxes (earlier ++ later))
  ∧ Forall (λ b, is_board b = false) (piece_boxes (earlier ++ later))
  ∧ image_to_fen (with_detections w (earlier ++ sample_board_box :: later))
      "move_1.jpg" model_path "w" initial_store
    = image_to_fen (with_detections w (piece_boxes earlier ++ sample_board_box :: later))
        "move_1.jpg" model_path "w" initial_store.
Proof.
  apply (last_board_detection_wins (F := spec_float)
           (sample_world [] sample_table None)
           [sample_box 5 5 "Black_King";
            Detection (of_int 10) (of_int 10) (of_int 50) (of_int 50) "Chess_Board"]
           [sample_box 45 75 "White_King"] sample_board_box
           "move_1.jpg" model_path "w" initial_store).
  - reflexivity.
  - repeat constructor.
Defined.

(** ** C6 and C10: the placement mapper *)

(** A move of at least four characters, by its first four characters. *)
Lemma move_of_length_4 (move : string) :
  (4 ≤ String.length move)%nat →
  ∃ (a b c d : ascii) (rest : string),
    move = String a (String b (String c (String d rest))).
Proof.
  destruct move as [|a [|b [|c [|d rest]]]]; simpl; try lia.
  intros _. now exists a, b, c, d, rest.
Qed.

(** The lookup of the two squares of a move, by the rows of the table
    that match them. *)
Lemma lookup_coordinates_rows (df : list csv_row) (a b c d : ascii) :
  lookup_coordinates df (String a (String b "")) (String c (String d ""))
  = match int_of_char b with
    | inl e => inl e
    | inr _ =>
        match square_rows df a b with
        | [] => inl (ValueError ("Start square '" ++ String a (String b "")
                                 ++ "' not found in mapping file."))
        | origin :: _ =>
            match int_of_char d with
            | inl e => inl e
            | inr _ =>
                match square_rows df c d with
                | [] => inl (ValueError ("End square '" ++ String c (String d "")
                                         ++ "' not found in mapping file."))
                | dest :: _ => inr (Pick origin, Place dest)
                end
            end
        end
    end.
Proof.
  unfold lookup_coordinates, square_rows, int_of_second, str_item. simpl.
  destruct (int_of_char b) as [e | n]; simpl; [reflexivity |].
  destruct (df_select df (String a "") n) as [|origin rows_o]; simpl; [reflexivity |].
  destruct (int_of_char d) as [e | m]; simpl; [reflexivity |].
  destruct (df_select df (String c "") m) as [|dest rows_d]; reflexivity.
Qed.

Lemma int_of_char_error (c : ascii) (e : pyerr) :
  int_of_char c = inl e → ∃ msg, e = ValueError msg.
Proof.
  unfold int_of_char.
  destruct ((48 <=? N_of_ascii c)%N && (N_of_ascii c <=? 57)%N); [discriminate |].
  intros [= <-]. eexists. reflexivity.
Qed.

(** Every failure of the lookup is a [ValueError]. *)
Lemma lookup_coordinates_error (df : list csv_row) (a b c d : ascii) (e : pyerr) :
  lookup_coordinates df (String a (String b "")) (String c (String d "")) = inl e →
  ∃ msg, e = ValueError msg.
Proof.
  rewrite lookup_coordinates_rows.
  destruct (int_of_char b) as [e1 | n] eqn:Eb.
  { intros [= <-]. eapply int_of_char_error, Eb. }
  destruct (square_rows df a b) as [|origin rows_o].
  { intros [= <-]. eexists. reflexivity. }
  destruct (int_of_char d) as [e1 | m] eqn:Ed.
  { intros [= <-]. eapply int_of_char_error, Ed. }
  destruct (square_rows df c d) as [|dest rows_d]; [| discriminate].
  intros [= <-]. eexists. reflexivity.
Qed.

Lemma substring_0_0 (s : string) : substring 0 0 s = "".
Proof. now destruct s. Qed.

Lemma get_move_coordinates_rows (df : list csv_row) (a b c d : ascii) (rest : string) :
  get_move_coordinates df (String a (String b (String c (String d rest))))
  = lookup_coordinates df (String a (String b "")) (String c (String d "")).
Proof.
  unfold get_move_coordinates.
  change (substring 0 2 (String a (String b (String c (String d rest)))))
    with (String a (String b "")).
  change (substring 2 2 (String a (String b (String c (String d rest)))))
    with (String c (String d (substring 0 0 rest))).
  rewrite substring_0_0.
  change (String.length (String a (String b (String c (String d rest)))) <? 4)%nat
    with false.
  destruct (lookup_coordinates df (String a (String b "")) (String c (String d "")))
    as [e | coords] eqn:E; [| reflexivity].
  destruct (lookup_coordinates_error _ _ _ _ _ _ E) as [msg ->]. reflexivity.
Qed.

(** Every failure of [get_move_coordinates] is a [ValueError]. *)
Lemma get_move_coordinates_error (df : list csv_row) (move : string) (e : pyerr) :
  get_move_coordinates df move = inl e → ∃ msg, e = ValueError msg.
Proof.
  destruct (Nat.ltb_spec (String.length move) 4) as [Hshort | Hlong].
  - unfold get_move_coordinates.
    replace (String.length move <? 4)%nat with true by (symmetry; now apply Nat.ltb_lt).
    intros [= <-]. eexists. reflexivity.
  - destruct (move_of_length_4 move Hlong) as (a & b & c & d & rest & ->).
    rewrite get_move_coordinates_rows. apply lookup_coordinates_error.
Qed.

(** What [execute_robot_move] does once the lookup has succeeded. *)
Lemma execute_robot_move_found (df : list csv_row) (move pick place : string) (s : store) :
  get_move_coordinates df move = inr (pick, place) →
  execute_robot_move df move s
  = (inr tt,
     Store (st_board s)
       (st_out s ++
        [Print (nl ++ "--- Robot Control Final Command ---");
         Print ("Move: " ++ move);
         Print "Final Waypoints Array for Simulink:";
         PrintList [pick; pick; HOME_COORDINATE; place; place; HOME_COORDINATE];
         Print "-----------------------------------"])%list).
Proof.
  intros Hfound. unfold execute_robot_move. py_unfold. rewrite Hfound. simpl.
  now rewrite <- !app_assoc.
Qed.

(** What [execute_robot_move] does once the lookup has failed: it prints
    the error and returns. *)
Lemma execute_robot_move_failed (df : list csv_row) (move : string) (e : pyerr) (s : store) :
  get_move_coordinates df move = inl e →
  execute_robot_move df move s
  = (inr tt,
     Store (st_board s) (st_out s ++ [Print ("Error in robot control: " ++ exc_str e)])%list).
Proof.
  intros Hfailed. destruct (get_move_coordinates_error _ _ _ Hfailed) as [msg ->].
  unfold execute_robot_move. py_unfold. rewrite Hfailed. reflexivity.
Qed.

(** The digit of the code and the rank number of the spec. *)
Lemma int_of_char_rank_number (c : ascii) (n : Z) :
  int_of_char c = inr n ↔ rank_number c = Some n.
Proof.
  unfold int_of_char, rank_number. cbv zeta.
  destruct (N.leb_spec 48 (N_of_ascii c)), (N.leb_spec (N_of_ascii c) 57);
    destruct (Z.leb_spec 48 (Z.of_N (N_of_ascii c))),
             (Z.leb_spec (Z.of_N (N_of_ascii c)) 57);
    cbn [andb]; try lia; (split; intros [= <-]; reflexivity) || (split; discriminate).
Qed.

Lemma entry_of_selected (r : csv_row) (file : ascii) (n : Z) :
  String.eqb (Col r) (String file "") && (Row r =? n) = true ↔ entry_of r file n.
Proof.
  unfold entry_of. rewrite andb_true_iff, String.eqb_eq, Z.eqb_eq. reflexivity.
Qed.

(** The selection of the code finds the entry of a square that is present,
    and nothing for a square that is absent. *)
Lemma df_select_present (before after : list csv_row) (r : csv_row)
    (file : ascii) (n : Z) :
  entry_of r file n →
  Forall (λ r', ¬ entry_of r' file n) before →
  head (df_select (before ++ r :: after) (String file "") n) = Some r.
Proof.
  intros Hr Hbefore. unfold df_select.
  induction Hbefore as [|r' before Hr' _ IH]; simpl.
  - apply entry_of_selected in Hr. now rewrite Hr.
  - destruct (String.eqb (Col r') (String file "") && (Row r' =? n)) eqn:E; [| exact IH].
    apply entry_of_selected in E. contradiction.
Qed.

Lemma df_select_absent (df : list csv_row) (file : ascii) (n : Z) :
  Forall (λ r', ¬ entry_of r' file n) df →
  df_select df (String file "") n = [].
Proof.
  intros Habsent. unfold df_select.
  induction Habsent as [|r' df Hr' _ IH]; simpl; [reflexivity |].
  destruct (String.eqb (Col r') (String file "") && (Row r' =? n)) eqn:E; [| exact IH].
  apply entry_of_selected in E. contradiction.
Qed.

Lemma square_rows_present (df : list csv_row) (file rank : ascii) (r : csv_row) :
  present df file rank r →
  (∃ n, int_of_char rank = inr n) ∧ head (square_rows df file rank) = Some r.
Proof.
  intros (n & before & after & Hn & -> & Hr & Hbefore).
  apply int_of_char_rank_number in Hn. unfold square_rows. rewrite Hn.
  split; [now exists n | now apply df_select_present].
Qed.

Lemma square_rows_absent (df : list csv_row) (file rank : ascii) :
  absent df file rank → square_rows df file rank = [].
Proof.
  intros Habsent. unfold square_rows.
  destruct (int_of_char rank) as [e | n] eqn:E; [reflexivity |].
  apply df_select_absent, Habsent. now apply int_of_char_rank_number.
Qed.

(** C6.  For a move of at least four characters [a b c d ...]: when the
    square [a b] is present in the table with entry [origin] and the square
    [c d] is present with entry [dest], an entry being the first row of the
    table with the file letter and the rank number of the square, the
    lookup returns the pick coordinates of [origin] and the place
    coordinates of [dest], and [execute_robot_move] prints the waypoints
    [pick, pick, home, place, place, home]; when one of the two squares is
    absent from the table, no row having its file letter and rank number,
    the lookup raises [ValueError]. *)
Theorem waypoint_sequence (df : list csv_row) (move : string) (a b c d : ascii) :
  (4 ≤ String.length move)%nat →
  String.get 0 move = Some a → String.get 1 move = Some b →
  String.get 2 move = Some c → String.get 3 move = Some d →
  (∀ origin dest : csv_row,
     present df a b origin →
     present df c d dest →
     get_move_coordinates df move = inr (Pick origin, Place dest)
     ∧ ∀ s : store,
         execute_robot_move df move s
         = (inr tt,
            Store (st_board s)
              (st_out s ++
               [Print (nl ++ "--- Robot Control Final Command ---");
                Print ("Move: " ++ move);
                Print "Final Waypoints Array for Simulink:";
                PrintList [Pick origin; Pick origin; HOME_COORDINATE;
                           Place dest; Place dest; HOME_COORDINATE];
                Print "-----------------------------------"])%list))
  ∧ (absent df a b ∨ absent df c d →
     ∃ msg, get_move_coordinates df move = inl (ValueError msg)).
Proof.
  intros Hlen Ha Hb Hc Hd.
  destruct (move_of_length_4 move Hlen) as (a' & b' & c' & d' & rest & ->).
  simpl in Ha, Hb, Hc, Hd.
  injection Ha as ->. injection Hb as ->. injection Hc as ->. injection Hd as ->.
  split.
  - intros origin dest Ho Hd.
    destruct (square_rows_present _ _ _ _ Ho) as [[n Hn] Horigin].
    destruct (square_rows_present _ _ _ _ Hd) as [[m Hm] Hdest].
    assert (Hfound : get_move_coordinates df (String a (String b (String c (String d rest))))
                     = inr (Pick origin, Place dest)).
    { rewrite get_move_coordinates_rows, lookup_coordinates_rows. rewrite Hn, Hm.
      destruct (square_rows df a b); [discriminate |]. injection Horigin as ->.
      destruct (square_rows df c d); [discriminate |]. injection Hdest as ->.
      reflexivity. }
    split; [exact Hfound |].
    intros s. now apply execute_robot_move_found.
  - intros Habsent.
    destruct (get_move_coordinates df (String a (String b (String c (String d rest)))))
      as [e | coords] eqn:E.
    + destruct (get_move_coordinates_error _ _ _ E) as [msg ->]. now exists msg.
    + exfalso. rewrite get_move_coordinates_rows, lookup_coordinates_rows in E.
      destruct (int_of_char b); [discriminate |].
      destruct (square_rows df a b) eqn:Eo; [discriminate |].
      destruct (int_of_char d); [discriminate |].
      destruct (square_rows df c d) eqn:Ed; [discriminate |].
      destruct Habsent as [Habsent | Habsent];
        apply square_rows_absent in Habsent; congruence.
Qed.

Lemma waypoint_sequence_witness :
  (get_move_coordinates doubled_table "e2e4"
   = inr ("[0.30; 0.10; 0.05]", "[0.30; 0.20; 0.06]")
   ∧ ∀ s : store,
       execute_robot_move doubled_table "e2e4" s
       = (inr tt,
          Store (st_board s)
            (st_out s ++
             [Print (nl ++ "--- Robot Control Final Command ---");
              Print ("Move: " ++ "e2e4");
              Print "Final Waypoints Array for Simulink:";
              PrintList ["[0.30; 0.10; 0.05]"; "[0.30; 0.10; 0.05]"; HOME_COORDINATE;
                         "[0.30; 0.20; 0.06]"; "[0.30; 0.20; 0.06]"; HOME_COORDINATE];
              Print "-----------------------------------"])%list))
  ∧ ∃ msg, get_move_coordinates doubled_table "e2a1" = inl (ValueError msg).
Proof.
  split.
  - apply (proj1 (waypoint_sequence doubled_table "e2e4" "e" "2" "e" "4"
                    ltac:(simpl; lia) eq_refl eq_refl eq_refl eq_refl)
             (CsvRow "e" 2 "[0.30; 0.10; 0.05]" "[0.30; 0.10; 0.06]")
             (CsvRow "e" 4 "[0.30; 0.20; 0.05]" "[0.30; 0.20; 0.06]")).
    + exists 2, [],
        [CsvRow "e" 4 "[0.30; 0.20; 0.05]" "[0.30; 0.20; 0.06]";
         CsvRow "e" 7 "[0.30; 0.35; 0.05]" "[0.30; 0.35; 0.06]";
         CsvRow "e" 8 "[0.30; 0.40; 0.05]" "[0.30; 0.40; 0.06]";
         CsvRow "e" 2 "[9; 9; 9]" "[9; 9; 9]"].
      split; [reflexivity |]. split; [reflexivity |]. split; [now split | constructor].
    + exists 4, [CsvRow "e" 2 "[0.30; 0.10; 0.05]" "[0.30; 0.10; 0.06]"],
        [CsvRow "e" 7 "[0.30; 0.35; 0.05]" "[0.30; 0.35; 0.06]";
         CsvRow "e" 8 "[0.30; 0.40; 0.05]" "[0.30; 0.40; 0.06]";
         CsvRow "e" 2 "[9; 9; 9]" "[9; 9; 9]"].
      split; [reflexivity |]. split; [reflexivity |]. split; [now split |].
      constructor; [| constructor]. intros [_ H]. discriminate H.
  - apply (proj2 (waypoint_sequence doubled_table "e2a1" "e" "2" "a" "1"
                    ltac:(simpl; lia) eq_refl eq_refl eq_refl eq_refl)).
    right. intros n Hn. injection Hn as <-.
    repeat (constructor; [intros [H _]; discriminate H |]). constructor.
Defined.

(** C10.  For a move of at least four characters the lookup returns what
    it returns for the first four characters alone: the same coordinates,
    or the same exception. *)
Theorem move_suffix_ignored (df : list csv_row) (move : string) :
  (4 ≤ String.length move)%nat →
  get_move_coordinates df move = get_move_coordinates df (substring 0 4 move).
Proof.
  intros Hlen.
  destruct (move_of_length_4 move Hlen) as (a & b & c & d & rest & ->).
  change (substring 0 4 (String a (String b (String c (String d rest)))))
    with (String a (String b (String c (String d (substring 0 0 rest))))).
  now rewrite !get_move_coordinates_rows.
Qed.

Lemma move_suffix_ignored_witness :
  get_move_coordinates sample_table "e7e8q"
  = get_move_coordinates sample_table (substring 0 4 "e7e8q").
Proof.
  apply (move_suffix_ignored sample_table "e7e8q"). simpl. lia.
Defined.

(** ** What a computation adds to the output *)

Section Emits.
Context {A : Type} (P : event → Prop).

Lemma emits_only_silent (m : Py A) :
  (∀ s, st_out (m s).2 = st_out s) → emits_only P m.
Proof.
  intros Hm s. exists []. rewrite Hm, app_nil_r. split; [reflexivity | constructor].
Qed.

Lemma emits_only_ret (x : A) : emits_only P (mret x).
Proof. now apply emits_only_silent. Qed.

Lemma emits_only_raise (e : pyerr) : emits_only P (raise e : Py A).
Proof. now apply emits_only_silent. Qed.

Lemma emits_only_lift (r : result A) : emits_only P (lift r).
Proof. now apply emits_only_silent. Qed.

Lemma emits_only_bind {B : Type} (m : Py B) (k : B → Py A) :
  emits_only P m → (∀ x, emits_only P (k x)) → emits_only P (m ≫= k).
Proof.
  intros Hm Hk s. destruct (Hm s) as (evs & Hout & Hevs).
  unfold mbind, Py_bind. destruct (m s) as [[e | x] s']; simpl in *.
  - now exists evs.
  - destruct (Hk x s') as (evs' & Hout' & Hevs'). exists (evs ++ evs')%list.
    rewrite Hout', Hout, app_assoc. split; [reflexivity | now apply Forall_app].
Qed.

Lemma emits_only_try_except (body : Py A) (catches : pyerr → bool)
    (handler : pyerr → Py A) :
  emits_only P body → (∀ e, emits_only P (handler e)) →
  emits_only P (try_except body catches handler).
Proof.
  intros Hbody Hhandler s. destruct (Hbody s) as (evs & Hout & Hevs).
  unfold try_except. destruct (body s) as [[e | x] s']; simpl in *.
  - destruct (catches e); [| now exists evs].
    destruct (Hhandler e s') as (evs' & Hout' & Hevs'). exists (evs ++ evs')%list.
    rewrite Hout', Hout, app_assoc. split; [reflexivity | now apply Forall_app].
  - now exists evs.
Qed.

End Emits.

Lemma emits_only_emit (P : event → Prop) (ev : event) : P ev → emits_only P (emit ev).
Proof. intros Hev s. exists [ev]. split; [reflexivity | now repeat constructor]. Qed.

Lemma emits_only_print (line : string) : emits_only not_engine (print line).
Proof. now apply emits_only_emit. Qed.

Create HintDb emits.
#[local] Hint Resolve emits_only_ret emits_only_raise emits_only_lift
  emits_only_print : emits.
#[local] Hint Extern 1 (emits_only not_engine (emit _)) =>
  apply emits_only_emit; reflexivity : emits.

Ltac emits_step :=
  match goal with
  | |- emits_only _ (mbind _ _) => apply emits_only_bind; [| intros ?]
  | |- emits_only _ (try_except _ _ _) => apply emits_only_try_except; [| intros ?]
  | |- emits_only _ (if ?b then _ else _) => destruct b
  | |- emits_only _ (match ?x with _ => _ end) => destruct x
  | |- emits_only _ _ => solve [auto with emits]
  end.

Section Pass.
Context {F : Type} {numeric : Numeric F}.

Lemma emits_only_frame_to_fen (P : event → Prop) (fr : frame F) (pieces : list (piece F))
    (active_color : string) :
  emits_only P (frame_to_fen fr pieces active_color).
Proof.
  apply emits_only_silent. intros s.
  destruct (frame_to_fen_run fr pieces active_color) as (r & b' & Hrun).
  now rewrite Hrun.
Qed.

Lemma emits_only_image_to_fen (w : world F) (image model active_color : string) :
  emits_only not_engine (image_to_fen w image model active_color).
Proof.
  unfold image_to_fen, detect. repeat emits_step.
  apply emits_only_frame_to_fen.
Qed.

Lemma emits_only_capture_image (w : world F) (move_number : nat) :
  emits_only not_engine (capture_image w move_number).
Proof. unfold capture_image. repeat emits_step. Qed.

Lemma emits_only_turn_generate (w : world F) : emits_only not_engine (turn_generate w).
Proof.
  unfold turn_generate. repeat emits_step.
  - apply emits_only_capture_image.
  - unfold turn_fen. repeat emits_step. apply emits_only_image_to_fen.
Qed.

(** ** C7: no engine query without both kings *)

(** C7.  In a pass of the loop of [main] that has generated the string
    [fen_string], if [fen_string] does not contain [k] or does not contain
    [K], the pass prints the two lines of the warning and ends: from the
    start of [main] to its end, no call of the engine adapter is added to
    the recorded output. *)
Theorem kingless_rejection (w : world F) (s s1 : store) (fen_string : string) :
  turn_generate w s = (inr (Some fen_string), s1) →
  str_in "k" fen_string = false ∨ str_in "K" fen_string = false →
  turn w s
  = (inr tt,
     Store (st_board s1)
       (st_out s1 ++
        [Print ("  -> Warning: FEN string '" ++ fen_string
                ++ "' is missing kings. Skipping Stockfish analysis.");
         Print "  -> Possible causes: Camera captured an empty board, or model failed to detect pieces."])%list)
  ∧ ∃ evs : list event,
      st_out (main w s).2 = (st_out s ++ evs)%list ∧ Forall not_engine evs.
Proof.
  intros Hgen Hking.
  assert (Htest : negb (str_in "k" fen_string) || negb (str_in "K" fen_string) = true)
    by (destruct Hking as [-> | ->]; [reflexivity | apply orb_true_r]).
  assert (Hturn : turn w s
    = (inr tt,
       Store (st_board s1)
         (st_out s1 ++
          [Print ("  -> Warning: FEN string '" ++ fen_string
                  ++ "' is missing kings. Skipping Stockfish analysis.");
           Print "  -> Possible causes: Camera captured an empty board, or model failed to detect pieces."])%list)).
  { unfold turn. unfold mbind at 1. unfold Py_bind. rewrite Hgen.
    unfold turn_play. rewrite Htest. py_unfold. simpl. now rewrite <- app_assoc. }
  split; [exact Hturn |].
  unfold main. destruct (negb (path_exists w model_path)).
  - apply emits_only_print.
  - rewrite Hturn. simpl.
    destruct (emits_only_turn_generate w s) as (evs & Hout & Hevs).
    rewrite Hgen in Hout. simpl in Hout. rewrite Hout, <- app_assoc.
    eexists. split; [reflexivity |].
    apply Forall_app. split; [exact Hevs | now repeat constructor].
Qed.

(** ** C5: a failed lookup in the pass of [main] *)

(** Whatever the lookup raises, steps 5 and 6 go on as if the move had been
    executed: [execute_robot_move] has caught the exception, so the handlers
    of [main] around it see none. *)
Lemma turn_robot_after_failed_lookup (w : world F) (best_move : string) (e : pyerr)
    (s : store) :
  path_exists w default_csv_path = true →
  get_move_coordinates (read_csv w default_csv_path) best_move = inl e →
  turn_robot w best_move s
  = (inr true,
     Store (st_board s)
       (st_out s ++
        [Print (nl ++ "Step 5 & 6: Translating move and generating robot waypoints...");
         ReadCsv default_csv_path;
         Print ("Error in robot control: " ++ exc_str e)])%list).
Proof.
  intros Hcsv Hfailed. unfold turn_robot, RobotController. cbv zeta.
  repeat (rewrite Hcsv; cbn [negb]).
  unfold try_except, print. unfold mbind, Py_bind, emit, mret, Py_ret.
  cbv beta iota. rewrite (execute_robot_move_failed _ _ _ _ Hfailed).
  cbn [st_board st_out]. now rewrite <- !app_assoc.
Qed.

End Pass.

Lemma kingless_rejection_witness :
  let w : world spec_float :=
    sample_world [sample_board_box; sample_box 5 5 "Black_King"]
      sample_table (Some "e2e4") in
  let fen_string := "k7/8/8/8/8/8/8/8 w - - 0 1" in
  let s1 := (turn_generate w initial_store).2 in
  turn w initial_store
  = (inr tt,
     Store (st_board s1)
       (st_out s1 ++
        [Print ("  -> Warning: FEN string '" ++ fen_string
                ++ "' is missing kings. Skipping Stockfish analysis.");
         Print "  -> Possible causes: Camera captured an empty board, or model failed to detect pieces."])%list)
  ∧ ∃ evs : list event,
      st_out (main w initial_store).2 = (st_out initial_store ++ evs)%list
      ∧ Forall not_engine evs.
Proof.
  apply (kingless_rejection (F := spec_float)
           (sample_world [sample_board_box; sample_box 5 5 "Black_King"]
              sample_table (Some "e2e4"))
           initial_store).
  - reflexivity.
  - right. reflexivity.
Defined.

(** C5, on the code.  With both kings detected, the engine answering
    [e1e2] and a table that has no row for [e1], the lookup raises
    [ValueError]; [execute_robot_move] prints it and returns normally; and
    [main] ends the pass by printing that the turn has completed
    successfully.  The same happens when the engine answers the
    two-character move [e1], which the lookup rejects as an invalid
    format. *)
Theorem robot_error_swallowed :
  let w : world spec_float := sample_world sample_kings sample_table (Some "e1e2") in
  let w' : world spec_float := sample_world sample_kings sample_table (Some "e1") in
  get_move_coordinates sample_table "e1e2"
  = inl (ValueError "Start square 'e1' not found in mapping file.")
  ∧ execute_robot_move sample_table "e1e2" initial_store
    = (inr tt,
       Store None
         [Print "Error in robot control: Start square 'e1' not found in mapping file."])
  ∧ (main w initial_store).1 = inr tt
  ∧ last_events 2 (st_out (main w initial_store).2)
    = [Print "Error in robot control: Start square 'e1' not found in mapping file.";
       Print (nl ++ "Single turn simulation completed successfully.")]
  ∧ get_move_coordinates sample_table "e1"
    = inl (ValueError "Invalid move format 'e1'. Expected format like 'e2e4'.")
  ∧ (main w' initial_store).1 = inr tt
  ∧ last_events 2 (st_out (main w' initial_store).2)
    = [Print "Error in robot control: Invalid move format 'e1'. Expected format like 'e2e4'.";
       Print (nl ++ "Single turn simulation completed successfully.")].
Proof. repeat split; reflexivity. Qed.

(** * Further properties *)

(** ** Writes of the square mapper *)

Lemma array_put_shape (a : ndarray) (rows cols i j : nat) (v : string) :
  has_shape a rows cols → has_shape (array_put a i j v) rows cols.
Proof. apply insert_has_shape. Qed.

Lemma cell_index_lt (i : Z) : (cell_index i < 9)%nat.
Proof. unfold cell_index. pose proof (Z.mod_pos_bound i 9 eq_refl). lia. Qed.

Lemma cell_index_inside (i : Z) : 0 ≤ i ≤ 8 → cell_index i = Z.to_nat i.
Proof. intros H. unfold cell_index. now rewrite Z.mod_small by lia. Qed.

Lemma array_put_put (a : ndarray) (i j : nat) (x y : string) :
  (i < length a)%nat →
  array_put (array_put a i j x) i j y = array_put a i j y.
Proof.
  intros Hi. unfold array_put.
  rewrite list_lookup_insert_eq by exact Hi. simpl.
  now rewrite !list_insert_insert_eq.
Qed.

Lemma array_put_commute (a : ndarray) (i j i' j' : nat) (x y : string) :
  (i < length a)%nat → (i' < length a)%nat →
  i ≠ i' ∨ j ≠ j' →
  array_put (array_put a i j x) i' j' y = array_put (array_put a i' j' y) i j x.
Proof.
  intros Hi Hi' Hne. unfold array_put.
  destruct (decide (i = i')) as [<- | Hii].
  - destruct Hne as [Hne | Hne]; [congruence |].
    rewrite !list_lookup_insert_eq by exact Hi. simpl.
    rewrite !list_insert_insert_eq. f_equal. now apply list_insert_insert_ne.
  - rewrite (list_lookup_insert_ne _ i i') by exact Hii.
    rewrite (list_lookup_insert_ne _ i' i) by congruence.
    apply list_insert_insert_ne. congruence.
Qed.

Section Writes.
Context {F : Type} {numeric : Numeric F}.

(** The turn of the loop for a piece with a known label and indices inside
    the array: one write. *)
Lemma map_piece_put (x_b y_b w_s h_s : F) (board : ndarray)
    (x_c y_c : F) (name symbol : string) (rank file : Z) :
  has_shape board 9 9 →
  fen_mapping !! name = Some symbol →
  row_index y_b h_s y_c = inr rank →
  col_index x_b w_s x_c = inr file →
  -9 ≤ rank ≤ 8 → -9 ≤ file ≤ 8 →
  map_piece x_b y_b w_s h_s board (x_c, y_c, name)
  = inr (array_put board (cell_index rank) (cell_index file) symbol).
Proof.
  intros Hs Hname Hrow Hcol Hrank Hfile.
  unfold map_piece. rewrite Hrow, Hcol, Hname. simpl.
  now rewrite (np_setitem_wraps board 8 9) by (assumption || lia).
Qed.

End Writes.

Section Placement.
Context {F : Type} {numeric : Numeric F}.

(** X1.  A detection with a known label whose rank and file indices are in
    1..8 is written on its square: the turn of the loop completes, the
    array keeps its 9 x 9 shape, the cell (rank, file) reads the symbol of
    the label, and every other cell of the array reads as before. *)
Theorem placement_in_range (x_b y_b w_s h_s : F) (board : ndarray)
    (x_c y_c : F) (name symbol : string) (rank file : Z) :
  has_shape board 9 9 →
  fen_mapping !! name = Some symbol →
  row_index y_b h_s y_c = inr rank →
  col_index x_b w_s x_c = inr file →
  1 ≤ rank ≤ 8 → 1 ≤ file ≤ 8 →
  ∃ board',
    map_piece x_b y_b w_s h_s board (x_c, y_c, name) = inr board'
    ∧ has_shape board' 9 9
    ∧ np_getitem board' rank file = inr symbol
    ∧ ∀ r c, 0 ≤ r ≤ 8 → 0 ≤ c ≤ 8 → r ≠ rank ∨ c ≠ file →
        np_getitem board' r c = np_getitem board r c.
Proof.
  intros Hs Hname Hrow Hcol Hrank Hfile.
  rewrite (map_piece_put _ _ _ _ _ _ _ _ _ _ _ Hs Hname Hrow Hcol) by lia.
  rewrite !cell_index_inside by lia.
  eexists. split; [reflexivity |].
  split; [now apply array_put_shape |].
  split.
  - unfold array_put. rewrite (np_getitem_insert board 8 9) by first [assumption | lia].
    now rewrite decide_True.
  - intros r c Hr Hc Hne. unfold array_put.
    rewrite (np_getitem_insert board 8 9) by first [assumption | lia].
    rewrite decide_False; [reflexivity | lia].
Qed.

(** X2.  Last write wins: when two detections with known labels get the
    same rank and file indices (inside the array), writing the first and
    then the second gives the array that writing the second alone gives;
    the earlier detection leaves no trace. *)
Theorem same_square_last_wins (x_b y_b w_s h_s : F) (board board1 : ndarray)
    (x_1 y_1 x_2 y_2 : F) (name_1 name_2 symbol_1 symbol_2 : string) (rank file : Z) :
  has_shape board 9 9 →
  fen_mapping !! name_1 = Some symbol_1 →
  fen_mapping !! name_2 = Some symbol_2 →
  row_index y_b h_s y_1 = inr rank → col_index x_b w_s x_1 = inr file →
  row_index y_b h_s y_2 = inr rank → col_index x_b w_s x_2 = inr file →
  -9 ≤ rank ≤ 8 → -9 ≤ file ≤ 8 →
  map_piece x_b y_b w_s h_s board (x_1, y_1, name_1) = inr board1 →
  map_piece x_b y_b w_s h_s board1 (x_2, y_2, name_2)
  = map_piece x_b y_b w_s h_s board (x_2, y_2, name_2).
Proof.
  intros Hs Hn1 Hn2 Hr1 Hc1 Hr2 Hc2 Hrank Hfile.
  rewrite (map_piece_put _ _ _ _ _ _ _ _ _ _ _ Hs Hn1 Hr1 Hc1) by lia.
  intros [= <-].
  rewrite (map_piece_put _ _ _ _ _ _ _ _ _ _ _ Hs Hn2 Hr2 Hc2) by lia.
  rewrite (map_piece_put _ _ _ _ _ _ _ _ symbol_2 rank file) by
    first [now apply array_put_shape | assumption | lia].
  f_equal. apply array_put_put. destruct Hs as [-> _]. apply cell_index_lt.
Qed.

(** X3.  Two detections with known labels that land on different cells of
    the array can be written in either order: the resulting array is the
    same.  The order of the detections matters only on a shared cell. *)
Theorem different_squares_commute (x_b y_b w_s h_s : F) (board : ndarray)
    (x_1 y_1 x_2 y_2 : F) (name_1 name_2 symbol_1 symbol_2 : string)
    (rank_1 file_1 rank_2 file_2 : Z) :
  has_shape board 9 9 →
  fen_mapping !! name_1 = Some symbol_1 →
  fen_mapping !! name_2 = Some symbol_2 →
  row_index y_b h_s y_1 = inr rank_1 → col_index x_b w_s x_1 = inr file_1 →
  row_index y_b h_s y_2 = inr rank_2 → col_index x_b w_s x_2 = inr file_2 →
  -9 ≤ rank_1 ≤ 8 → -9 ≤ file_1 ≤ 8 → -9 ≤ rank_2 ≤ 8 → -9 ≤ file_2 ≤ 8 →
  cell_index rank_1 ≠ cell_index rank_2 ∨ cell_index file_1 ≠ cell_index file_2 →
  (map_piece x_b y_b w_s h_s board (x_1, y_1, name_1)
     ≫= λ b, map_piece x_b y_b w_s h_s b (x_2, y_2, name_2))
  = (map_piece x_b y_b w_s h_s board (x_2, y_2, name_2)
       ≫= λ b, map_piece x_b y_b w_s h_s b (x_1, y_1, name_1)).
Proof.
  intros Hs Hn1 Hn2 Hr1 Hc1 Hr2 Hc2 Hrank1 Hfile1 Hrank2 Hfile2 Hne.
  rewrite (map_piece_put _ _ _ _ _ _ _ _ _ _ _ Hs Hn1 Hr1 Hc1) by lia.
  rewrite (map_piece_put _ _ _ _ _ _ _ _ _ _ _ Hs Hn2 Hr2 Hc2) by lia.
  unfold mbind, result_bind.
  rewrite (map_piece_put _ _ _ _ _ _ _ _ symbol_2 rank_2 file_2) by
    first [now apply array_put_shape | assumption | lia].
  rewrite (map_piece_put _ _ _ _ _ _ _ _ symbol_1 rank_1 file_1) by
    first [now apply array_put_shape | assumption | lia].
  f_equal. destruct Hs as [Hlen _].
  apply array_put_commute; rewrite ?Hlen; auto using cell_index_lt.
Qed.

End Placement.

Lemma placement_in_range_witness :
  let square := fdiv (of_int 80) (of_int 8) : spec_float in
  ∃ board',
    map_piece (of_int 0) (of_int 0) square square starting_board
      (of_int 45, of_int 35, "White_Queen") = inr board'
    ∧ has_shape board' 9 9
    ∧ np_getitem board' 5 5 = inr "Q"
    ∧ ∀ r c, 0 ≤ r ≤ 8 → 0 ≤ c ≤ 8 → r ≠ 5 ∨ c ≠ 5 →
        np_getitem board' r c = np_getitem starting_board r c.
Proof.
  apply (placement_in_range (F := spec_float)
           (of_int 0) (of_int 0) (fdiv (of_int 80) (of_int 8)) (fdiv (of_int 80) (of_int 8))
           starting_board (of_int 45) (of_int 35) "White_Queen" "Q" 5 5);
    first [reflexivity | lia | (split; [reflexivity | repeat constructor])].
Defined.

Lemma same_square_last_wins_witness :
  let square := fdiv (of_int 80) (of_int 8) : spec_float in
  map_piece (of_int 0) (of_int 0) square square
    (array_put (np_full 9 9 "") 8 1 "k") (of_int 6, of_int 4, "White_Queen")
  = map_piece (of_int 0) (of_int 0) square square
      (np_full 9 9 "") (of_int 6, of_int 4, "White_Queen").
Proof.
  apply (same_square_last_wins (F := spec_float)
           (of_int 0) (of_int 0) (fdiv (of_int 80) (of_int 8)) (fdiv (of_int 80) (of_int 8))
           (np_full 9 9 "") (array_put (np_full 9 9 "") 8 1 "k")
           (of_int 5) (of_int 5) (of_int 6) (of_int 4)
           "Black_King" "White_Queen" "k" "Q" 8 1);
    first [reflexivity | lia | (split; [reflexivity | repeat constructor])].
Defined.

Lemma different_squares_commute_witness :
  let square := fdiv (of_int 80) (of_int 8) : spec_float in
  (map_piece (of_int 0) (of_int 0) square square (np_full 9 9 "")
     (of_int 5, of_int 5, "Black_King")
     ≫= λ b, map_piece (of_int 0) (of_int 0) square square b
               (of_int 45, of_int 75, "White_King"))
  = (map_piece (of_int 0) (of_int 0) square square (np_full 9 9 "")
       (of_int 45, of_int 75, "White_King")
       ≫= λ b, map_piece (of_int 0) (of_int 0) square square b
                 (of_int 5, of_int 5, "Black_King")).
Proof.
  apply (different_squares_commute (F := spec_float)
           (of_int 0) (of_int 0) (fdiv (of_int 80) (of_int 8)) (fdiv (of_int 80) (of_int 8))
           (np_full 9 9 "")
           (of_int 5) (of_int 5) (of_int 45) (of_int 75)
           "Black_King" "White_King" "k" "K" 8 1 1 5);
    first [reflexivity | lia | (split; [reflexivity | repeat constructor])
          | (left; vm_compute; lia)].
Defined.

(** ** Detections the square mapper does not write *)

Lemma for_each_app {A : Type} (l1 l2 : list A) (body : A → Py unit) (s : store) :
  for_each (l1 ++ l2) body s = (for_each l1 body ;; for_each l2 body) s.
Proof.
  revert s. induction l1 as [|x l1 IH]; intros s; [reflexivity |].
  simpl. unfold mbind, Py_bind.
  destruct (body x s) as [[e | []] s']; [reflexivity |]. apply IH.
Qed.

Section Unwritten.
Context {F : Type} {numeric : Numeric F}.

(** In the loop over the pieces, a piece with an unknown label whose
    indices are computed without error is passed over. *)
Lemma unknown_piece_skipped (x_b y_b w_s h_s x_c y_c : F) (name : string)
    (before after : list (piece F)) (rank file : Z) :
  fen_mapping !! name = None →
  row_index y_b h_s y_c = inr rank →
  col_index x_b w_s x_c = inr file →
  ∀ (b : ndarray) (out : list event),
    for_each (before ++ (x_c, y_c, name) :: after) (place_piece x_b y_b w_s h_s)
      (Store (Some b) out)
    = for_each (before ++ after) (place_piece x_b y_b w_s h_s) (Store (Some b) out).
Proof.
  intros Hname Hrow Hcol b out. rewrite !for_each_app.
  unfold mbind, Py_bind.
  destruct (place_pieces_run x_b y_b w_s h_s before b) as (r & b' & Hrun).
  rewrite Hrun. destruct r as [e | []]; [reflexivity |].
  cbn [for_each]. unfold mbind, Py_bind.
  unfold place_piece at 1. unfold mbind, Py_bind, get_board, lift, set_board.
  cbn [st_board st_out]. unfold map_piece. rewrite Hrow, Hcol, Hname.
  reflexivity.
Qed.

(** X4.  A detection whose label is neither ["Chess_Board"] nor one of the
    twelve piece labels has no effect on the outcome, wherever it is among
    the pieces and whatever its indices are, provided [int()] succeeds on
    its two quotients.  The indices are computed before the label is
    looked up: when [int()] fails on a quotient, the turn of the loop
    raises although the label is unknown. *)
Theorem unknown_label (x_b y_b w_b h_b x_c y_c : F) (name : string)
    (before after : list (piece F)) :
  fen_mapping !! name = None →
  (∀ rank file : Z,
     row_index y_b (fdiv h_b (of_int 8)) y_c = inr rank →
     col_index x_b (fdiv w_b (of_int 8)) x_c = inr file →
     ∀ (active_color : string) (s : store),
       frame_to_fen (x_b, y_b, w_b, h_b) (before ++ (x_c, y_c, name) :: after)
         active_color s
       = frame_to_fen (x_b, y_b, w_b, h_b) (before ++ after) active_color s)
  ∧ (∀ (e : pyerr) (board : ndarray),
       row_index y_b (fdiv h_b (of_int 8)) y_c = inl e →
       map_piece x_b y_b (fdiv w_b (of_int 8)) (fdiv h_b (of_int 8)) board
         (x_c, y_c, name) = inl e).
Proof.
  intros Hname. split.
  - intros rank file Hrow Hcol active_color s.
    unfold frame_to_fen, square_mapper. py_unfold. cbv beta iota.
    now rewrite (unknown_piece_skipped x_b y_b _ _ x_c y_c name before after rank file).
  - intros e board Hrow. unfold map_piece. now rewrite Hrow.
Qed.

(** X5.  [int()] truncates toward zero.  A center less than one square
    above the top edge of the frame, whose quotient is in (-1, 0), gets rank
    index 8, not the 9 that the floor would give; a center less than one
    square left of the left edge gets file index 1, not 0.  Such a
    detection is binned into the first rank or file next to it. *)
Theorem truncation_at_near_edge (origin square c : F) (q : Q) :
  stands_for (fdiv (fsub c origin) square) q →
  (-1 < q)%Q → (q < 0)%Q →
  row_index origin square c = inr 8
  ∧ col_index origin square c = inr 1
  ∧ 8 - Qfloor q = 9
  ∧ Qfloor q + 1 = 0.
Proof.
  intros (q' & Hvalue & Hq) Hlo Hhi.
  assert (Hint : to_int (fdiv (fsub c origin) square) = inr 0).
  { rewrite (to_int_value _ _ Hvalue). f_equal.
    apply py_int_small; rewrite Hq; lra. }
  assert (Hfloor : Qfloor q = -1).
  { assert (H1 : (inject_Z (-1) <= q)%Q) by (change (inject_Z (-1)) with (-1)%Q; lra).
    assert (H2 : (q < inject_Z 0)%Q) by (change (inject_Z 0) with 0%Q; lra).
    apply Qfloor_resp_le in H1. rewrite Qfloor_Z in H1.
    assert (inject_Z (Qfloor q) < inject_Z 0)%Q
      by (eapply Qle_lt_trans; [apply Qfloor_le | exact H2]).
    rewrite <- Zlt_Qlt in H. lia. }
  unfold row_index, col_index, mbind, result_bind. rewrite Hint, Hfloor.
  repeat split.
Qed.

End Unwritten.

Lemma unknown_label_witness :
  let hand : piece spec_float := (of_int 500, of_int (-300), "Hand") in
  let black_king : piece spec_float := (of_int 5, of_int 5, "Black_King") in
  let white_king : piece spec_float := (of_int 45, of_int 75, "White_King") in
  (∀ rank file : Z,
     row_index (F := spec_float) (of_int 0) (fdiv (of_int 80) (of_int 8)) (of_int (-300)) = inr rank →
     col_index (F := spec_float) (of_int 0) (fdiv (of_int 80) (of_int 8)) (of_int 500) = inr file →
     ∀ (active_color : string) (s : store),
       frame_to_fen (of_int 0, of_int 0, of_int 80, of_int 80)
         ([black_king] ++ hand :: [white_king]) active_color s
       = frame_to_fen (of_int 0, of_int 0, of_int 80, of_int 80)
           ([black_king] ++ [white_king]) active_color s)
  ∧ (∀ (e : pyerr) (board : ndarray),
       row_index (F := spec_float) (of_int 0) (fdiv (of_int 80) (of_int 8)) (of_int (-300)) = inl e →
       map_piece (F := spec_float) (of_int 0) (of_int 0) (fdiv (of_int 80) (of_int 8))
         (fdiv (of_int 80) (of_int 8)) board (of_int 500, of_int (-300), "Hand") = inl e).
Proof.
  apply (unknown_label (F := spec_float) (of_int 0) (of_int 0) (of_int 80) (of_int 80)
           (of_int 500) (of_int (-300)) "Hand"
           [(of_int 5, of_int 5, "Black_King")] [(of_int 45, of_int 75, "White_King")]).
  reflexivity.
Defined.

Lemma truncation_at_near_edge_witness :
  row_index (F := spec_float) (of_int 0) (fdiv (of_int 80) (of_int 8)) (of_int (-5)) = inr 8
  ∧ col_index (F := spec_float) (of_int 0) (fdiv (of_int 80) (of_int 8)) (of_int (-5)) = inr 1
  ∧ 8 - Qfloor (- (1 # 2)) = 9
  ∧ Qfloor (- (1 # 2)) + 1 = 0.
Proof.
  apply (truncation_at_near_edge (F := spec_float)
           (of_int 0) (fdiv (of_int 80) (of_int 8)) (of_int (-5)) (- (1 # 2)));
    first [stands_for_computed | reflexivity].
Defined.

(** ** The array the square mapper leaves *)

Lemma np_full_shape : has_shape (np_full 9 9 "") 9 9.
Proof. split; [reflexivity | repeat constructor]. Qed.

Lemma np_full_cells : board_cells (np_full 9 9 "").
Proof. repeat constructor. Qed.

(** Membership in a list that is written out. *)
Ltac in_list :=
  first [left; reflexivity | right; apply list_elem_of_In; simpl; tauto].

Lemma fen_mapping_symbols (name symbol : string) :
  fen_mapping !! name = Some symbol → symbol ∈ symbols.
Proof.
  intros H. apply elem_of_list_to_map_2 in H.
  repeat (apply elem_of_cons in H as [[= _ ->] | H];
          [apply list_elem_of_In; simpl; tauto |]).
  now apply elem_of_nil in H.
Qed.

Lemma insert_board_cells (a : ndarray) (i j : nat) (symbol : string) :
  symbol ∈ symbols → board_cells a →
  board_cells (<[i := <[j := symbol]> (default [] (a !! i))]> a).
Proof.
  intros Hsym Ha. unfold board_cells.
  destruct (a !! i) as [row|] eqn:E; simpl.
  - apply Forall_insert; [exact Ha |].
    apply Forall_insert; [| now right].
    eapply Forall_lookup_1 in Ha; [exact Ha | exact E].
  - rewrite list_insert_ge; [exact Ha |]. now apply lookup_ge_None.
Qed.

Section Invariant.
Context {F : Type} {numeric : Numeric F}.

(** One turn of the loop keeps the shape of the array and the alphabet of
    its cells. *)
Lemma map_piece_invariant (x_b y_b w_s h_s : F) (board board' : ndarray) (p : piece F) :
  has_shape board 9 9 → board_cells board →
  map_piece x_b y_b w_s h_s board p = inr board' →
  has_shape board' 9 9 ∧ board_cells board'.
Proof.
  intros Hs Hc. destruct p as [[x_c y_c] name]. unfold map_piece.
  destruct (row_index y_b h_s y_c) as [e | row]; [discriminate |].
  destruct (col_index x_b w_s x_c) as [e | col]; [discriminate |]. simpl.
  destruct (fen_mapping !! name) as [symbol|] eqn:E.
  - unfold np_setitem.
    destruct (np_intp row) as [e | row']; [discriminate |]. simpl.
    destruct (np_intp col) as [e | col']; [discriminate |]. simpl.
    destruct (np_index 0 (length board) row') as [e | i]; [discriminate |]. simpl.
    destruct (np_index 1 (np_cols board) col') as [e | j]; [discriminate |]. simpl.
    intros [= <-]. split; [now apply insert_has_shape |].
    apply insert_board_cells; [| exact Hc]. now apply (fen_mapping_symbols name).
  - intros [= <-]. now split.
Qed.

(** Whether a turn of the loop raises, and what it raises, does not depend
    on what the array holds. *)
Lemma map_piece_error (x_b y_b w_s h_s : F) (b b0 : ndarray) (p : piece F) (e : pyerr) :
  has_shape b 9 9 → has_shape b0 9 9 →
  map_piece x_b y_b w_s h_s b p = inl e → map_piece x_b y_b w_s h_s b0 p = inl e.
Proof.
  intros Hs Hs0. destruct p as [[x_c y_c] name]. unfold map_piece.
  destruct (row_index y_b h_s y_c) as [e' | row]; [trivial |].
  destruct (col_index x_b w_s x_c) as [e' | col]; [trivial |]. simpl.
  destruct (fen_mapping !! name) as [symbol|]; [| discriminate].
  unfold np_setitem.
  rewrite (has_shape_cols _ 8 9 Hs), (has_shape_cols _ 8 9 Hs0).
  destruct Hs as [-> _], Hs0 as [-> _].
  destruct (np_intp row) as [e' | row']; [trivial |]. simpl.
  destruct (np_intp col) as [e' | col']; [trivial |]. simpl.
  destruct (np_index 0 9 row') as [e' | i]; [trivial |]. simpl.
  destruct (np_index 1 9 col') as [e' | j]; [trivial | discriminate].
Qed.

Lemma map_piece_good (x_b y_b w_s h_s : F) (b b0 b1 : ndarray) (p : piece F) :
  has_shape b 9 9 → has_shape b0 9 9 →
  map_piece x_b y_b w_s h_s b0 p = inr b1 →
  ∃ b', map_piece x_b y_b w_s h_s b p = inr b'.
Proof.
  intros Hs Hs0 Hgood.
  destruct (map_piece x_b y_b w_s h_s b p) as [e | b'] eqn:E; [| now exists b'].
  rewrite (map_piece_error _ _ _ _ b b0 p e Hs Hs0 E) in Hgood. discriminate.
Qed.

(** The loop over the pieces keeps the invariant, whether it completes or
    raises. *)
Lemma place_pieces_invariant (x_b y_b w_s h_s : F) (pieces : list (piece F)) :
  ∀ b : ndarray, has_shape b 9 9 → board_cells b →
  ∃ (r : result unit) (b' : ndarray),
    has_shape b' 9 9 ∧ board_cells b'
    ∧ ∀ out : list event,
        for_each pieces (place_piece x_b y_b w_s h_s) (Store (Some b) out)
        = (r, Store (Some b') out).
Proof.
  induction pieces as [|p pieces IH]; intros b Hs Hc.
  - exists (inr tt), b. split; [exact Hs | split; [exact Hc | reflexivity]].
  - destruct (map_piece x_b y_b w_s h_s b p) as [e | b1] eqn:E.
    + exists (inl e), b. split; [exact Hs | split; [exact Hc |]]. intros out.
      simpl. unfold place_piece. py_unfold. simpl. now rewrite E.
    + destruct (map_piece_invariant _ _ _ _ _ _ _ Hs Hc E) as [Hs1 Hc1].
      destruct (IH b1 Hs1 Hc1) as (r & b' & Hs' & Hc' & Hrun).
      exists r, b'. split; [exact Hs' | split; [exact Hc' |]]. intros out.
      simpl. unfold place_piece. py_unfold. simpl. rewrite E. apply Hrun.
Qed.

(** The loop over pieces that each map without error completes. *)
Lemma place_pieces_good (x_b y_b w_s h_s : F) (pieces : list (piece F)) :
  Forall (λ q, ∃ b1, map_piece x_b y_b w_s h_s (np_full 9 9 "") q = inr b1) pieces →
  ∀ b : ndarray, has_shape b 9 9 → board_cells b →
  ∃ b' : ndarray,
    has_shape b' 9 9 ∧ board_cells b'
    ∧ ∀ out : list event,
        for_each pieces (place_piece x_b y_b w_s h_s) (Store (Some b) out)
        = (inr tt, Store (Some b') out).
Proof.
  induction 1 as [|p pieces [b1 Hp] _ IH]; intros b Hs Hc.
  - exists b. split; [exact Hs | split; [exact Hc | reflexivity]].
  - destruct (map_piece_good _ _ _ _ b _ _ _ Hs np_full_shape Hp) as [b2 E].
    destruct (map_piece_invariant _ _ _ _ _ _ _ Hs Hc E) as [Hs2 Hc2].
    destruct (IH b2 Hs2 Hc2) as (b' & Hs' & Hc' & Hrun).
    exists b'. split; [exact Hs' | split; [exact Hc' |]]. intros out.
    simpl. unfold place_piece. py_unfold. simpl. rewrite E. apply Hrun.
Qed.

(** The loop stops at the first piece that raises, with its exception. *)
Lemma place_pieces_first_failure (x_b y_b w_s h_s : F)
    (before after : list (piece F)) (p : piece F) (e : pyerr) :
  Forall (λ q, ∃ b1, map_piece x_b y_b w_s h_s (np_full 9 9 "") q = inr b1) before →
  map_piece x_b y_b w_s h_s (np_full 9 9 "") p = inl e →
  ∀ b : ndarray, has_shape b 9 9 → board_cells b →
  ∃ b' : ndarray,
    has_shape b' 9 9 ∧ board_cells b'
    ∧ ∀ out : list event,
        for_each (before ++ p :: after) (place_piece x_b y_b w_s h_s) (Store (Some b) out)
        = (inl e, Store (Some b') out).
Proof.
  intros Hbefore Hp b Hs Hc.
  destruct (place_pieces_good _ _ _ _ _ Hbefore b Hs Hc) as (b' & Hs' & Hc' & Hrun).
  exists b'. split; [exact Hs' | split; [exact Hc' |]]. intros out.
  rewrite for_each_app. unfold mbind, Py_bind. rewrite Hrun.
  simpl. unfold place_piece. py_unfold. simpl.
  now rewrite (map_piece_error _ _ _ _ _ b' p e np_full_shape Hs' Hp).
Qed.

(** Either every piece maps without error, or there is a first one that
    raises. *)
Lemma first_failure_or_none (fr : frame F) (pieces : list (piece F)) :
  Forall (λ q, ∃ b1, maps_alone fr q = inr b1) pieces
  ∨ ∃ before p after e,
      pieces = (before ++ p :: after)%list
      ∧ Forall (λ q, ∃ b1, maps_alone fr q = inr b1) before
      ∧ maps_alone fr p = inl e.
Proof.
  induction pieces as [|p pieces IH]; [left; constructor |].
  destruct (maps_alone fr p) as [e | b1] eqn:E.
  - right. exists [], p, pieces, e. repeat split; [constructor | exact E].
  - destruct IH as [IH | (before & q & after & e & -> & Hbefore & Hq)].
    + left. constructor; [now exists b1 | exact IH].
    + right. exists (p :: before), q, after, e.
      repeat split; [| exact Hq]. constructor; [now exists b1 | exact Hbefore].
Qed.

(** [frame_to_fen] when the loop completes and when it raises. *)
Lemma frame_to_fen_good (fr : frame F) (pieces : list (piece F)) (active_color : string) :
  Forall (λ q, ∃ b1, maps_alone fr q = inr b1) pieces →
  ∃ b' : ndarray,
    has_shape b' 9 9 ∧ board_cells b'
    ∧ ∀ s : store,
        frame_to_fen fr pieces active_color s
        = (inr (reference_serializer (grid_of b') active_color),
           Store (Some b') (st_out s)).
Proof.
  destruct fr as [[[x_b y_b] w_b] h_b]. intros Hgood.
  destruct (place_pieces_good _ _ _ _ _ Hgood _ np_full_shape np_full_cells)
    as (b' & Hs' & Hc' & Hrun).
  exists b'. split; [exact Hs' | split; [exact Hc' |]]. intros s.
  unfold frame_to_fen, square_mapper. py_unfold. cbn [st_board st_out].
  rewrite Hrun. cbn [st_board st_out].
  now rewrite (notation_serializer_reference _ _ Hs').
Qed.

Lemma frame_to_fen_first_failure (fr : frame F) (before after : list (piece F))
    (p : piece F) (e : pyerr) (active_color : string) :
  Forall (λ q, ∃ b1, maps_alone fr q = inr b1) before →
  maps_alone fr p = inl e →
  ∃ b' : ndarray,
    has_shape b' 9 9 ∧ board_cells b'
    ∧ ∀ s : store,
        frame_to_fen fr (before ++ p :: after) active_color s
        = (inl e, Store (Some b') (st_out s)).
Proof.
  destruct fr as [[[x_b y_b] w_b] h_b]. intros Hbefore Hp.
  destruct (place_pieces_first_failure _ _ _ _ before after p e Hbefore Hp
              _ np_full_shape np_full_cells) as (b' & Hs' & Hc' & Hrun).
  exists b'. split; [exact Hs' | split; [exact Hc' |]]. intros s.
  unfold frame_to_fen, square_mapper. py_unfold. simpl. now rewrite Hrun.
Qed.

(** X6.  Whatever the frame and the pieces, and whether the square mapper
    completes or raises, the array it leaves in the store has 9 rows of 9
    cells, every cell is empty or holds one of the twelve symbols, and the
    recorded output is as before: the square mapper and the serializer of
    the revised variant print nothing. *)
Theorem mapper_leaves_board (fr : frame F) (pieces : list (piece F))
    (active_color : string) (s : store) :
  ∃ (r : result string) (board : ndarray),
    frame_to_fen fr pieces active_color s = (r, Store (Some board) (st_out s))
    ∧ has_shape board 9 9
    ∧ board_cells board.
Proof.
  destruct (first_failure_or_none fr pieces)
    as [Hgood | (before & p & after & e & -> & Hbefore & Hp)].
  - destruct (frame_to_fen_good fr pieces active_color Hgood) as (b' & Hs' & Hc' & Hrun).
    eexists _, b'. now rewrite Hrun.
  - destruct (frame_to_fen_first_failure fr before after p e active_color Hbefore Hp)
      as (b' & Hs' & Hc' & Hrun).
    eexists _, b'. now rewrite Hrun.
Qed.

(** X7.  The loop of the square mapper stops at the first piece that
    raises: when every piece before [p] maps without error on its own and
    [p] on its own raises [e], the square mapper raises [e] on the whole
    list, whatever comes after [p]; the serializer is not reached and no
    string is produced. *)
Theorem first_failing_piece_decides (fr : frame F) (before after : list (piece F))
    (p : piece F) (e : pyerr) (active_color : string) (s : store) :
  Forall (λ q, ∃ b1, maps_alone fr q = inr b1) before →
  maps_alone fr p = inl e →
  (frame_to_fen fr (before ++ p :: after) active_color s).1 = inl e.
Proof.
  intros Hbefore Hp.
  destruct (frame_to_fen_first_failure fr before after p e active_color Hbefore Hp)
    as (b' & _ & _ & Hrun).
  now rewrite Hrun.
Qed.

(** X8.  The square mapper followed by the serializer returns a string
    exactly when every piece maps without error on its own; the serializer
    itself never fails on the array the square mapper leaves, and the
    string is the reference serialization of the grid of that array. *)
Theorem fen_iff_every_piece_maps (fr : frame F) (pieces : list (piece F))
    (active_color : string) (s : store) :
  Forall (λ q, ∃ b1, maps_alone fr q = inr b1) pieces
  ↔ ∃ board : ndarray,
      frame_to_fen fr pieces active_color s
      = (inr (reference_serializer (grid_of board) active_color),
         Store (Some board) (st_out s)).
Proof.
  split.
  - intros Hgood.
    destruct (frame_to_fen_good fr pieces active_color Hgood) as (b' & _ & _ & Hrun).
    exists b'. apply Hrun.
  - intros [board Hrun].
    destruct (first_failure_or_none fr pieces)
      as [Hgood | (before & p & after & e & -> & Hbefore & Hp)]; [exact Hgood |].
    destruct (frame_to_fen_first_failure fr before after p e active_color Hbefore Hp)
      as (b' & _ & _ & Hfail).
    rewrite Hfail in Hrun. discriminate.
Qed.

End Invariant.

Lemma first_failing_piece_decides_witness :
  let fr : frame spec_float := (of_int 0, of_int 0, of_int 80, of_int 80) in
  (frame_to_fen fr
     ([(of_int 5, of_int 5, "Black_King")]
      ++ (of_int 5, of_int (-15), "White_Pawn") :: [(of_int 45, of_int 75, "White_King")])
     "w" initial_store).1
  = inl (IndexError "index 9 is out of bounds for axis 0 with size 9").
Proof.
  apply (first_failing_piece_decides (F := spec_float)
           (of_int 0, of_int 0, of_int 80, of_int 80)
           [(of_int 5, of_int 5, "Black_King")] [(of_int 45, of_int 75, "White_King")]
           (of_int 5, of_int (-15), "White_Pawn")).
  - repeat constructor. eexists. reflexivity.
  - reflexivity.
Defined.

(** ** Reading the rank strings back *)

Lemma expand_flush (run : nat) (rest : string) :
  (run ≤ 9)%nat →
  expand_rank (flush run ++ rest) = (replicate run None ++ expand_rank rest)%list.
Proof.
  intros H. do 10 (destruct run as [|run]; [reflexivity |]). lia.
Qed.

Lemma expand_symbol (symbol rest : string) :
  symbol ∈ symbols →
  expand_rank (symbol ++ rest) = Some symbol :: expand_rank rest.
Proof.
  intros H. unfold symbols in H.
  repeat (apply elem_of_cons in H as [-> | H]; [reflexivity |]).
  now apply elem_of_nil in H.
Qed.

(** The encoding of a rank loses nothing: expanding it gives the cells
    back, after the empty cells counted before them. *)
Lemma expand_encode_rank (cells : list (option string)) :
  Forall square_ok cells →
  ∀ run : nat, (run + length cells ≤ 9)%nat →
  expand_rank (encode_rank run cells) = (replicate run None ++ cells)%list.
Proof.
  induction 1 as [|cell cells Hcell _ IH]; intros run Hrun; simpl in Hrun.
  - cbn [encode_rank]. rewrite <- (str_app_nil_r (flush run)).
    rewrite expand_flush by lia. reflexivity.
  - destruct Hcell as [-> | (symbol & -> & Hsymbol)]; cbn [encode_rank].
    + rewrite IH by (simpl; lia). rewrite replicate_S_end, <- app_assoc. reflexivity.
    + rewrite expand_flush by lia. rewrite expand_symbol by exact Hsymbol.
      rewrite IH by (simpl; lia). reflexivity.
Qed.

(** The squares of a well-formed array, read through [grid_of]. *)
Lemma grid_of_square_ok (board : ndarray) (rank file : Z) :
  has_shape board 9 9 → board_cells board →
  1 ≤ rank ≤ 8 → 1 ≤ file ≤ 8 →
  square_ok (grid_of board rank file).
Proof.
  intros Hs Hc Hrank Hfile.
  assert (Hget : np_getitem board rank file
                 = inr (default "" (default [] (board !! Z.to_nat rank) !! Z.to_nat file)))
    by (apply (np_getitem_inside board 8 9 rank file Hs); lia).
  rewrite (grid_of_cell _ _ _ _ Hget).
  destruct Hs as [Hlen Hrows].
  destruct (lookup_lt_is_Some_2 board (Z.to_nat rank)) as [row Hrow]; [lia |].
  rewrite Hrow. simpl.
  assert (Hlrow : length row = 9%nat) by (eapply Forall_lookup_1 in Hrows; eauto).
  destruct (lookup_lt_is_Some_2 row (Z.to_nat file)) as [cell Hcell]; [lia |].
  rewrite Hcell. simpl.
  eapply Forall_lookup_1 in Hc; [| exact Hrow]. cbv beta in Hc.
  eapply Forall_lookup_1 in Hc; [| exact Hcell]. cbv beta in Hc.
  destruct Hc as [-> | Hsymbol]; [now left |]. right.
  destruct (String.eqb cell "") eqn:E.
  - apply String.eqb_eq in E. subst cell. unfold symbols in Hsymbol.
    repeat (apply elem_of_cons in Hsymbol as [[=] | Hsymbol]).
    now apply elem_of_nil in Hsymbol.
  - now exists cell.
Qed.

(** The strings of the eight ranks, read back. *)
Lemma fen_rows_expand (board : ndarray) :
  has_shape board 9 9 → board_cells board →
  ∃ fen_rows : list string,
    generate_fen_rows board = inr fen_rows
    ∧ expand_rank <$> fen_rows
      = (λ rank, grid_of board rank <$> [1; 2; 3; 4; 5; 6; 7; 8])
          <$> [8; 7; 6; 5; 4; 3; 2; 1].
Proof.
  intros Hs Hc. unfold generate_fen_rows.
  rewrite (generate_fen_rows_encode _ _ (serializer_reads_inside _ Hs)).
  eexists. split; [reflexivity |].
  rewrite app_nil_l, <- list_fmap_compose, files_walked, ranks_walked.
  apply Forall_fmap_ext_1.
  eapply Forall_impl; [rewrite <- ranks_walked; apply ranks_in_range |].
  intros rank Hrank. simpl in Hrank. unfold compose.
  rewrite expand_encode_rank; [reflexivity | | simpl; lia].
  apply Forall_fmap.
  eapply Forall_impl; [rewrite <- files_walked; apply files_in_range |].
  intros file Hfile. simpl in Hfile. simpl. now apply grid_of_square_ok.
Qed.

(** X9.  The rank strings lose nothing.  On a 9 x 9 array whose cells are
    empty or hold one of the twelve symbols, as the square mapper leaves
    it, the serializer returns eight strings joined with ["/"] and followed
    by the trailer; the strings stand for rank 8 down to rank 1, and
    reading each of them back (a digit for that many empty squares, a
    letter for a piece) gives the eight squares of its rank, file 1 to
    file 8. *)
Theorem rank_strings_round_trip (board : ndarray) (active_color : string) :
  has_shape board 9 9 → board_cells board →
  ∃ fen_rows : list string,
    notation_serializer board (fen_trailer active_color)
    = inr (String.concat "/" fen_rows ++ " " ++ active_color ++ " - - 0 1")
    ∧ length fen_rows = 8%nat
    ∧ expand_rank <$> fen_rows
      = (λ rank, grid_of board rank <$> [1; 2; 3; 4; 5; 6; 7; 8])
          <$> [8; 7; 6; 5; 4; 3; 2; 1].
Proof.
  intros Hs Hc.
  destruct (fen_rows_expand board Hs Hc) as (fen_rows & Hrows & Hexpand).
  exists fen_rows. split; [| split; [| exact Hexpand]].
  - unfold notation_serializer. now rewrite Hrows.
  - apply (f_equal length) in Hexpand. now rewrite length_fmap in Hexpand.
Qed.

Lemma rank_strings_round_trip_witness :
  ∃ fen_rows : list string,
    notation_serializer starting_board (fen_trailer "w")
    = inr (String.concat "/" fen_rows ++ " " ++ "w" ++ " - - 0 1")
    ∧ length fen_rows = 8%nat
    ∧ expand_rank <$> fen_rows
      = (λ rank, grid_of starting_board rank <$> [1; 2; 3; 4; 5; 6; 7; 8])
          <$> [8; 7; 6; 5; 4; 3; 2; 1].
Proof.
  apply (rank_strings_round_trip starting_board "w").
  - split; [reflexivity | repeat constructor].
  - unfold board_cells, starting_board, symbols.
    repeat (constructor; [repeat (constructor; [in_list |]); constructor |]).
    constructor.
Defined.

(** ** Detections outside the frame *)

Lemma py_int_at_most_minus_one (q : Q) : (q <= -1)%Q → py_int q ≤ -1.
Proof.
  destruct q as [n d]. unfold Qle, py_int. simpl. intros H.
  transitivity (Z.quot (- Zpos d) (Zpos d)).
  - apply Z.quot_le_mono; lia.
  - rewrite Z.quot_opp_l, Z.quot_same by lia. lia.
Qed.

Lemma py_int_at_least (q : Q) (n : Z) :
  0 ≤ n → (inject_Z n <= q)%Q → n ≤ py_int q.
Proof.
  intros Hn Hq.
  assert (H0 : (0 <= q)%Q).
  { eapply Qle_trans; [| exact Hq]. change 0%Q with (inject_Z 0). now rewrite <- Zle_Qle. }
  rewrite py_int_floor by exact H0.
  rewrite <- (Qfloor_Z n). now apply Qfloor_resp_le.
Qed.

(** Truncation toward zero does not leave an interval around zero. *)
Lemma py_int_bounded (q : Q) (bound : Z) :
  0 ≤ bound → (inject_Z (- bound) <= q)%Q → (q <= inject_Z bound)%Q →
  - bound ≤ py_int q ≤ bound.
Proof.
  destruct q as [n d]. unfold Qle, py_int. simpl. intros Hb Hlo Hhi.
  split.
  - rewrite <- (Z.quot_mul (- bound) (Zpos d)) by lia.
    apply Z.quot_le_mono; lia.
  - rewrite <- (Z.quot_mul bound (Zpos d)) by lia.
    apply Z.quot_le_mono; lia.
Qed.

Section OutsideFrame.
Context {F : Type} {numeric : Numeric F}.

(** X10.  A detection below the frame comes back from the top.  When the
    quotient along the height stands for a rational in [9, 17), that is the
    center lies between one and nine squares below the bottom edge, the
    rank index [8 - floor q] is in -8..-1; the write counts it from the end
    of the axis, and the symbol lands on rank [17 - floor q] of the board,
    in 1..8: one square below the bottom edge is written on rank 8. *)
Theorem below_frame_wraps (x_b y_b w_s h_s : F) (board : ndarray)
    (x_c y_c : F) (name symbol : string) (file : Z) (q : Q) :
  has_shape board 9 9 →
  fen_mapping !! name = Some symbol →
  stands_for (fdiv (fsub y_c y_b) h_s) q →
  (inject_Z 9 <= q)%Q → (q < inject_Z 17)%Q →
  col_index x_b w_s x_c = inr file →
  1 ≤ file ≤ 8 →
  ∃ board',
    map_piece x_b y_b w_s h_s board (x_c, y_c, name) = inr board'
    ∧ row_index y_b h_s y_c = inr (8 - Qfloor q)
    ∧ 1 ≤ 17 - Qfloor q ≤ 8
    ∧ np_getitem board' (17 - Qfloor q) file = inr symbol.
Proof.
  intros Hs Hname (q' & Hvalue & Hq) Hlo Hhi Hcol Hfile.
  assert (H0 : (0 <= q)%Q).
  { eapply Qle_trans; [| exact Hlo]. change 0%Q with (inject_Z 0). now rewrite <- Zle_Qle. }
  assert (Hfloor : 9 ≤ Qfloor q < 17).
  { split.
    - rewrite <- (Qfloor_Z 9). now apply Qfloor_resp_le.
    - now apply Qfloor_range. }
  assert (Hrow : row_index y_b h_s y_c = inr (8 - Qfloor q)).
  { unfold row_index. rewrite (to_int_value _ _ Hvalue).
    rewrite py_int_floor by (rewrite Hq; exact H0).
    now rewrite (Qfloor_comp _ _ Hq). }
  destruct (negative_rank_wraps x_b y_b w_s h_s board x_c y_c name symbol
              (8 - Qfloor q) file Hs Hname Hrow Hcol ltac:(lia) Hfile)
    as (board' & Hmap & Hget).
  exists board'. split; [exact Hmap |]. split; [exact Hrow |]. split; [lia |].
  now replace (17 - Qfloor q) with (8 - Qfloor q + 9) by lia.
Qed.

(** X11.  A detection above or right of the frame raises.  When both
    quotients are finite, the label is known, and the center lies at least
    one square above the top edge (quotient along the height at most -1,
    so rank index 9 or more) or at or beyond the right edge (quotient along
    the width 8 or more, so file index 9 or more), the write raises and
    nothing is written.  The exception is the [IndexError] of an index out
    of bounds when both quotients are within 2^62 of zero, so that both
    indices fit the index type of numpy; beyond, single precision reaching
    3.4e38, it is [OverflowError] or [IndexError].  Together with the wrap
    of the rows below the frame, the four sides of the frame are not
    treated alike. *)
Theorem above_or_right_of_frame_raises (x_b y_b w_s h_s : F) (board : ndarray)
    (x_c y_c : F) (name symbol : string) (q_x q_y : Q) :
  has_shape board 9 9 →
  fen_mapping !! name = Some symbol →
  stands_for (fdiv (fsub x_c x_b) w_s) q_x →
  stands_for (fdiv (fsub y_c y_b) h_s) q_y →
  (q_y <= -1)%Q ∨ (inject_Z 8 <= q_x)%Q →
  ∃ e : pyerr,
    map_piece x_b y_b w_s h_s board (x_c, y_c, name) = inl e
    ∧ (e = OverflowError "Python int too large to convert to C long"
       ∨ ∃ msg, e = IndexError msg)
    ∧ ((inject_Z (-4611686018427387904) <= q_x)%Q
       ∧ (q_x <= inject_Z 4611686018427387904)%Q
       ∧ (inject_Z (-4611686018427387904) <= q_y)%Q
       ∧ (q_y <= inject_Z 4611686018427387904)%Q →
       ∃ msg, e = IndexError msg).
Proof.
  intros Hs Hname (qx & Hvx & Hqx) (qy & Hvy & Hqy) Hout.
  assert (Hrow : row_index y_b h_s y_c = inr (8 - py_int qy))
    by (unfold row_index; now rewrite (to_int_value _ _ Hvy)).
  assert (Hcol : col_index x_b w_s x_c = inr (py_int qx + 1))
    by (unfold col_index; now rewrite (to_int_value _ _ Hvx)).
  destruct (index_beyond_array_raises x_b y_b w_s h_s board x_c y_c name symbol
              (8 - py_int qy) (py_int qx + 1) Hs Hname Hrow Hcol)
    as (e & Hmap & Hclass & Hfits).
  - destruct Hout as [Hy | Hx].
    + right. left.
      assert (py_int qy ≤ -1) by (apply py_int_at_most_minus_one; now rewrite Hqy).
      lia.
    + assert (8 ≤ py_int qx) by (apply py_int_at_least; [lia | now rewrite Hqx]).
      destruct (Z.lt_ge_cases (8 - py_int qy) (-9)) as [Hr | Hr]; [now left |].
      destruct (Z.le_gt_cases 9 (8 - py_int qy)) as [Hr' | Hr']; [right; now left |].
      right. right. split; [lia |]. right. lia.
  - exists e. split; [exact Hmap |]. split; [exact Hclass |].
    intros (Hx1 & Hx2 & Hy1 & Hy2).
    assert (-4611686018427387904 ≤ py_int qx ≤ 4611686018427387904)
      by (apply (py_int_bounded qx 4611686018427387904);
          [lia | now rewrite Hqx | now rewrite Hqx]).
    assert (-4611686018427387904 ≤ py_int qy ≤ 4611686018427387904)
      by (apply (py_int_bounded qy 4611686018427387904);
          [lia | now rewrite Hqy | now rewrite Hqy]).
    apply Hfits; lia.
Qed.

End OutsideFrame.

Lemma below_frame_wraps_witness :
  let square := fdiv (of_int 80) (of_int 8) : spec_float in
  ∃ board',
    map_piece (of_int 0) (of_int 0) square square (np_full 9 9 "")
      (of_int 5, of_int 95, "White_Pawn") = inr board'
    ∧ row_index (of_int 0) square (of_int 95) = inr (8 - Qfloor (19 # 2))
    ∧ 1 ≤ 17 - Qfloor (19 # 2) ≤ 8
    ∧ np_getitem board' (17 - Qfloor (19 # 2)) 1 = inr "P".
Proof.
  apply (below_frame_wraps (F := spec_float)
           (of_int 0) (of_int 0) (fdiv (of_int 80) (of_int 8)) (fdiv (of_int 80) (of_int 8))
           (np_full 9 9 "") (of_int 5) (of_int 95) "White_Pawn" "P" 1 (19 # 2));
    first [stands_for_computed | reflexivity | lia
          | (split; [reflexivity | repeat constructor])
          | (vm_compute; discriminate)].
Defined.

Lemma above_or_right_of_frame_raises_witness :
  let square := fdiv (of_int 80) (of_int 8) : spec_float in
  ∃ e : pyerr,
    map_piece (of_int 0) (of_int 0) square square (np_full 9 9 "")
      (of_int 85, of_int 5, "White_Pawn") = inl e
    ∧ (e = OverflowError "Python int too large to convert to C long"
       ∨ ∃ msg, e = IndexError msg)
    ∧ ((inject_Z (-4611686018427387904) <= 17 # 2)%Q
       ∧ (17 # 2 <= inject_Z 4611686018427387904)%Q
       ∧ (inject_Z (-4611686018427387904) <= 1 # 2)%Q
       ∧ (1 # 2 <= inject_Z 4611686018427387904)%Q →
       ∃ msg, e = IndexError msg).
Proof.
  apply (above_or_right_of_frame_raises (F := spec_float)
           (of_int 0) (of_int 0) (fdiv (of_int 80) (of_int 8)) (fdiv (of_int 80) (of_int 8))
           (np_full 9 9 "") (of_int 85) (of_int 5) "White_Pawn" "P" (17 # 2) (1 # 2));
    first [stands_for_computed | reflexivity
          | (split; [reflexivity | repeat constructor])
          | (right; vm_compute; discriminate)].
Defined.

(** ** A frame of no height or no width, in single precision *)

Lemma f32_to_int_errors (x : spec_float) (e : pyerr) :
  f32_to_int x = inl e →
  e = OverflowError "cannot convert float infinity to integer"
  ∨ e = ValueError "cannot convert float NaN to integer".
Proof.
  destruct x as [s | s | | s m [|k|k]]; simpl; intros [= <-]; auto.
Qed.

(** Dividing by a zero gives an infinity or a nan, on which [int()]
    raises. *)
Lemma f32_div_by_zero (x : spec_float) (s : bool) :
  ∃ e, f32_to_int (SFdiv 24 128 x (S754_zero s)) = inl e.
Proof. destruct x as [sx | sx | | sx m k]; simpl; eexists; reflexivity. Qed.

Lemma f32_eighth_of_zero (s : bool) :
  fdiv (S754_zero s) (of_int 8) = S754_zero (xorb s false).
Proof. reflexivity. Qed.

(** X12.  When the frame has zero height or zero width (a board detection
    whose box is flat), numpy divides by zero without raising and [int()]
    receives an infinity or a nan: with at least one detection besides the
    board, whatever its label, the square mapper raises [OverflowError]
    (infinity) or [ValueError] (nan) at the first piece.  With no other
    detection it returns the empty position. *)
Theorem flat_frame_fails (x_b y_b w_b h_b : spec_float) (zero_sign : bool)
    (p : piece spec_float) (pieces : list (piece spec_float))
    (active_color : string) (s : store) :
  h_b = S754_zero zero_sign ∨ w_b = S754_zero zero_sign →
  (∃ e, (frame_to_fen (x_b, y_b, w_b, h_b) (p :: pieces) active_color s).1 = inl e
        ∧ (e = OverflowError "cannot convert float infinity to integer"
           ∨ e = ValueError "cannot convert float NaN to integer"))
  ∧ (frame_to_fen (x_b, y_b, w_b, h_b) [] active_color s).1
    = inr ("8/8/8/8/8/8/8/8 " ++ active_color ++ " - - 0 1").
Proof.
  intros Hflat. split; [| reflexivity].
  destruct p as [[x_c y_c] name].
  assert (Hfail : ∃ e, maps_alone (x_b, y_b, w_b, h_b) (x_c, y_c, name) = inl e
            ∧ (e = OverflowError "cannot convert float infinity to integer"
               ∨ e = ValueError "cannot convert float NaN to integer")).
  { unfold maps_alone, map_piece.
    destruct (row_index y_b (fdiv h_b (of_int 8)) y_c) as [e | row] eqn:Erow.
    - exists e. split; [reflexivity |].
      unfold row_index in Erow.
      destruct (to_int (fdiv (fsub y_c y_b) (fdiv h_b (of_int 8)))) as [e' | k] eqn:Ek;
        [| discriminate].
      injection Erow as <-. now apply (f32_to_int_errors _ _ Ek).
    - destruct Hflat as [-> | ->].
      + exfalso. unfold row_index in Erow. rewrite f32_eighth_of_zero in Erow.
        destruct (f32_div_by_zero (fsub y_c y_b) (xorb zero_sign false)) as [e He].
        change (to_int (fdiv (fsub y_c y_b) (S754_zero (xorb zero_sign false))))
          with (f32_to_int (SFdiv 24 128 (fsub y_c y_b) (S754_zero (xorb zero_sign false))))
          in Erow.
        rewrite He in Erow. discriminate.
      + unfold col_index. rewrite f32_eighth_of_zero.
        destruct (f32_div_by_zero (fsub x_c x_b) (xorb zero_sign false)) as [e He].
        change (to_int (fdiv (fsub x_c x_b) (S754_zero (xorb zero_sign false))))
          with (f32_to_int (SFdiv 24 128 (fsub x_c x_b) (S754_zero (xorb zero_sign false)))).
        rewrite He. exists e. split; [reflexivity |].
        now apply (f32_to_int_errors _ _ He). }
  destruct Hfail as (e & Hmap & He).
  exists e. split; [| exact He].
  destruct (frame_to_fen_first_failure (x_b, y_b, w_b, h_b) [] pieces (x_c, y_c, name) e
              active_color ltac:(constructor) Hmap) as (b' & _ & _ & Hrun).
  exact (f_equal fst (Hrun s)).
Qed.

Lemma flat_frame_fails_witness :
  let flat : frame spec_float := chessboard_of (Detection (of_int 0) (of_int 40) (of_int 80) (of_int 40) "Chess_Board") in
  (∃ e, (frame_to_fen flat [(of_int 5, of_int 40, "Hand")] "w" initial_store).1 = inl e
        ∧ (e = OverflowError "cannot convert float infinity to integer"
           ∨ e = ValueError "cannot convert float NaN to integer"))
  ∧ (frame_to_fen flat [] "w" initial_store).1
    = inr ("8/8/8/8/8/8/8/8 " ++ "w" ++ " - - 0 1").
Proof.
  apply (flat_frame_fails (of_int 0) (of_int 40) (fsub (of_int 80) (of_int 0))
           (fsub (of_int 40) (of_int 40)) false
           (of_int 5, of_int 40, "Hand") [] "w" initial_store).
  left. reflexivity.
Defined.

(** ** The two variants of [image_to_fen] *)

Section Variants.
Context {F : Type} {numeric : Numeric F}.

(** X13.  With a board detected, the earlier variant of [image_to_fen]
    (in "Computer Vision files") and the revised one called with active
    color [b] have the same outcome, the same string or the same
    exception, and leave the same array; the earlier one prints the array
    without its row 0 and column 0 when the square mapper completes, and
    that is the only difference. *)
Theorem variants_agree_for_black (w : world F) (image model : string)
    (results : list (detection F)) (fr : frame F) (pieces : list (piece F)) (s : store) :
  yolo w model image = inr results →
  extract_detections results = (Some fr, pieces) →
  let bare := image_to_fen_bare w image model s in
  let revised := image_to_fen w image model "b" s in
  bare.1 = revised.1
  ∧ st_board bare.2 = st_board revised.2
  ∧ st_out bare.2
    = (st_out revised.2
       ++ match revised.1, st_board revised.2 with
          | inr _, Some board => [PrintArray (np_drop_first board)]
          | _, _ => []
          end)%list.
Proof.
  intros Hyolo Hextract. cbv zeta.
  rewrite (image_to_fen_detected _ _ _ _ _ _ Hyolo). cbv zeta. rewrite Hextract.
  unfold image_to_fen_bare, detect. py_unfold. cbv beta iota.
  rewrite Hyolo. cbv beta iota. rewrite Hextract.
  destruct fr as [[[x_b y_b] w_b] h_b].
  destruct (place_pieces_invariant x_b y_b (fdiv w_b (of_int 8)) (fdiv h_b (of_int 8))
              pieces _ np_full_shape np_full_cells) as (r & b' & Hs' & _ & Hrun).
  unfold frame_to_fen, square_mapper. py_unfold. cbv beta iota zeta.
  cbn [st_board st_out].
  rewrite !Hrun. destruct r as [e | []]; cbn [st_board st_out fst snd].
  - now rewrite app_nil_r.
  - change " b - - 0 1" with (fen_trailer "b").
    rewrite (notation_serializer_reference _ _ Hs'). cbn [fst snd st_board st_out].
    repeat split.
Qed.

End Variants.

Lemma variants_agree_for_black_witness :
  let w : world spec_float := sample_world sample_kings sample_table None in
  let bare := image_to_fen_bare w "move_1.jpg" model_path initial_store in
  let revised := image_to_fen w "move_1.jpg" model_path "b" initial_store in
  bare.1 = revised.1
  ∧ st_board bare.2 = st_board revised.2
  ∧ st_out bare.2
    = (st_out revised.2
       ++ match revised.1, st_board revised.2 with
          | inr _, Some board => [PrintArray (np_drop_first board)]
          | _, _ => []
          end)%list.
Proof.
  apply (variants_agree_for_black (F := spec_float)
           (sample_world sample_kings sample_table None) "move_1.jpg" model_path
           sample_kings
           (of_int 0, of_int 0, fsub (of_int 80) (of_int 0), fsub (of_int 80) (of_int 0))
           [piece_of (sample_box 5 5 "Black_King"); piece_of (sample_box 45 75 "White_King")]
           initial_store);
    reflexivity.
Defined.

(** ** The placement mapper never raises *)

(** X14.  [execute_robot_move] returns normally on every table, every
    move and every store, and leaves the array alone.  Every exception of
    the lookup is a [ValueError] (an [IndexError] of the subscripts is
    turned into one), so the handler of [execute_robot_move] catches it: it
    prints the message after ["Error in robot control: "] and nothing
    else. *)
Theorem robot_move_never_raises (df : list csv_row) (move : string) (s : store) :
  (execute_robot_move df move s).1 = inr tt
  ∧ st_board (execute_robot_move df move s).2 = st_board s
  ∧ ∀ e : pyerr,
      get_move_coordinates df move = inl e →
      ∃ msg : string,
        e = ValueError msg
        ∧ st_out (execute_robot_move df move s).2
          = (st_out s ++ [Print ("Error in robot control: " ++ msg)])%list.
Proof.
  destruct (get_move_coordinates df move) as [e | [pick place]] eqn:E.
  - rewrite (execute_robot_move_failed _ _ _ _ E).
    split; [reflexivity |]. split; [reflexivity |].
    intros e' [= <-]. destruct (get_move_coordinates_error _ _ _ E) as [msg ->].
    now exists msg.
  - rewrite (execute_robot_move_found _ _ _ _ _ E).
    split; [reflexivity |]. split; [reflexivity |]. discriminate.
Qed.

(** ** The pass of [main] after the string has been generated *)

Section Turn.
Context {F : Type} {numeric : Numeric F}.

(** The pass of [main] once the string holds both kings. *)
Lemma main_with_kings (w : world F) (s s1 : store) (fen_string : string) :
  path_exists w model_path = true →
  turn_generate w s = (inr (Some fen_string), s1) →
  str_in "k" fen_string = true → str_in "K" fen_string = true →
  main w s
  = match turn_engine w fen_string s1 with
    | (inl e, s2) => (inl e, s2)
    | (inr None, s2) => (inr tt, s2)
    | (inr (Some best_move), s2) =>
        match turn_robot w best_move s2 with
        | (inl e, s3) => (inl e, s3)
        | (inr true, s3) =>
            print (nl ++ "Single turn simulation completed successfully.") s3
        | (inr false, s3) => (inr tt, s3)
        end
    end.
Proof.
  intros Hmodel Hgen Hk HK. unfold main. rewrite Hmodel. cbn [negb].
  unfold turn. unfold mbind at 1. unfold Py_bind. rewrite Hgen.
  unfold turn_play. rewrite Hk, HK. cbn [negb orb].
  unfold mbind at 1. unfold Py_bind.
  destruct (turn_engine w fen_string s1) as [[e | [best_move |]] s2]; try reflexivity.
  unfold mbind at 1. unfold Py_bind.
  destruct (turn_robot w best_move s2) as [[e | [|]] s3]; reflexivity.
Qed.

(** Step 4 by the answers of the engine. *)
Lemma turn_engine_start_failure (w : world F) (fen_string err : string) (s : store) :
  sf_init w stockfish_path = Some err →
  turn_engine w fen_string s
  = (inr None,
     Store (st_board s)
       (st_out s ++
        [Print (nl ++ "Step 4: Calculating best move with Stockfish...");
         EngineStart stockfish_path;
         Print ("  -> Error during Stockfish analysis: "
                ++ "Stockfish engine not found or failed to initialize at '"
                ++ stockfish_path ++ "'. "
                ++ "Please ensure the path is correct. Error: " ++ err)])%list).
Proof.
  intros Hinit. unfold turn_engine, get_best_move. rewrite Hinit.
  py_unfold. cbn [st_board st_out is_FileNotFound_or_Value exc_str].
  now rewrite <- !app_assoc.
Qed.

Lemma turn_engine_invalid_fen (w : world F) (fen_string : string) (s : store) :
  sf_init w stockfish_path = None →
  sf_is_fen_valid w fen_string = false →
  turn_engine w fen_string s
  = (inr None,
     Store (st_board s)
       (st_out s ++
        [Print (nl ++ "Step 4: Calculating best move with Stockfish...");
         EngineStart stockfish_path;
         EngineValidate fen_string;
         Print ("  -> Error during Stockfish analysis: "
                ++ "Invalid FEN string provided to Stockfish: " ++ fen_string)])%list).
Proof.
  intros Hinit Hvalid. unfold turn_engine, get_best_move. rewrite Hinit, Hvalid.
  py_unfold. cbn [negb st_board st_out is_FileNotFound_or_Value exc_str].
  now rewrite <- !app_assoc.
Qed.

Lemma turn_engine_answer (w : world F) (fen_string : string) (s : store) :
  sf_init w stockfish_path = None →
  sf_is_fen_valid w fen_string = true →
  turn_engine w fen_string s
  = (inr (if truthy (sf_best_move_time w fen_string 2000)
          then sf_best_move_time w fen_string 2000 else None),
     Store (st_board s)
       (st_out s ++
        [Print (nl ++ "Step 4: Calculating best move with Stockfish...");
         EngineStart stockfish_path;
         EngineValidate fen_string;
         EngineSetFen fen_string;
         EngineBestMove 2000;
         Print (if truthy (sf_best_move_time w fen_string 2000)
                then "  -> Best move found: "
                     ++ default "" (sf_best_move_time w fen_string 2000)
                else "  -> Stockfish did not return a move. Game may be over.")])%list).
Proof.
  intros Hinit Hvalid. unfold turn_engine, get_best_move. rewrite Hinit, Hvalid.
  py_unfold. cbn [negb st_board st_out].
  destruct (truthy (sf_best_move_time w fen_string 2000));
    cbn [st_board st_out]; now rewrite <- !app_assoc.
Qed.

(** Steps 5 and 6 by what the constructor finds. *)
Lemma turn_robot_table (w : world F) (csv_path best_move : string) (s : store) :
  (path_exists w default_csv_path = true ∧ csv_path = default_csv_path)
  ∨ (path_exists w default_csv_path = false ∧ csv_path = fallback_csv_path w
     ∧ path_exists w csv_path = true) →
  turn_robot w best_move s
  = (inr true,
     (execute_robot_move (read_csv w csv_path) best_move
        (Store (st_board s)
           (st_out s ++
            [Print (nl ++ "Step 5 & 6: Translating move and generating robot waypoints...");
             ReadCsv csv_path])%list)).2).
Proof.
  intros Hpath. unfold turn_robot, RobotController. cbv zeta.
  fold (fallback_csv_path w).
  assert (Hread : (if negb (path_exists w default_csv_path)
                   then fallback_csv_path w else default_csv_path) = csv_path
                  ∧ path_exists w csv_path = true).
  { destruct Hpath as [[Hd ->] | (Hd & -> & Hf)]; rewrite Hd; now split. }
  destruct Hread as [-> Hexists]. rewrite Hexists. cbn [negb].
  unfold try_except, print. unfold mbind, Py_bind, emit, mret, Py_ret.
  cbv beta iota. cbn [st_board st_out].
  rewrite <- !app_assoc. cbn [app].
  destruct (get_move_coordinates (read_csv w csv_path) best_move) as [e | [pick place]] eqn:E.
  - now rewrite (execute_robot_move_failed _ _ _ _ E).
  - now rewrite (execute_robot_move_found _ _ _ _ _ E).
Qed.

Lemma turn_robot_no_table (w : world F) (best_move : string) (s : store) :
  path_exists w default_csv_path = false →
  path_exists w (fallback_csv_path w) = false →
  turn_robot w best_move s
  = (inr false,
     Store (st_board s)
       (st_out s ++
        [Print (nl ++ "Step 5 & 6: Translating move and generating robot waypoints...");
         Print ("  -> Error during robot control step: "
                ++ "Robot coordinate mapping file not found at '"
                ++ fallback_csv_path w ++ "'. "
                ++ "Please ensure the path is correct.")])%list).
Proof.
  intros Hd Hf. unfold turn_robot, RobotController. cbv zeta.
  fold (fallback_csv_path w). rewrite Hd. cbn [negb]. rewrite Hf. cbn [negb].
  py_unfold. cbn [st_board st_out is_FileNotFound_or_Value exc_str].
  now rewrite <- !app_assoc.
Qed.

(** X15.  When the engine cannot be started, the adapter raises
    [FileNotFoundError] with the error of the constructor in its message,
    before any question is put to the engine; [main] prints it as an error
    of the analysis and ends the pass: the position is neither validated
    nor set, no move is searched, the table of coordinates is not read. *)
Theorem engine_start_failure_ends_turn (w : world F) (s s1 : store)
    (fen_string err : string) :
  path_exists w model_path = true →
  turn_generate w s = (inr (Some fen_string), s1) →
  str_in "k" fen_string = true → str_in "K" fen_string = true →
  sf_init w stockfish_path = Some err →
  get_best_move w fen_string stockfish_path s1
  = (inl (FileNotFoundError
            ("Stockfish engine not found or failed to initialize at '"
             ++ stockfish_path ++ "'. "
             ++ "Please ensure the path is correct. Error: " ++ err)),
     Store (st_board s1) (st_out s1 ++ [EngineStart stockfish_path])%list)
  ∧ main w s
    = (inr tt,
       Store (st_board s1)
         (st_out s1 ++
          [Print (nl ++ "Step 4: Calculating best move with Stockfish...");
           EngineStart stockfish_path;
           Print ("  -> Error during Stockfish analysis: "
                  ++ "Stockfish engine not found or failed to initialize at '"
                  ++ stockfish_path ++ "'. "
                  ++ "Please ensure the path is correct. Error: " ++ err)])%list).
Proof.
  intros Hmodel Hgen Hk HK Hinit. split.
  - unfold get_best_move. rewrite Hinit. reflexivity.
  - rewrite (main_with_kings w s s1 fen_string Hmodel Hgen Hk HK).
    now rewrite (turn_engine_start_failure w fen_string err s1 Hinit).
Qed.

(** X16.  When the engine rejects the string, the adapter raises
    [ValueError] right after the validation: the position is not set and
    no move is searched.  [main] prints the message as an error of the
    analysis and ends the pass without reading the table of coordinates. *)
Theorem invalid_fen_ends_turn (w : world F) (s s1 : store) (fen_string : string) :
  path_exists w model_path = true →
  turn_generate w s = (inr (Some fen_string), s1) →
  str_in "k" fen_string = true → str_in "K" fen_string = true →
  sf_init w stockfish_path = None →
  sf_is_fen_valid w fen_string = false →
  get_best_move w fen_string stockfish_path s1
  = (inl (ValueError ("Invalid FEN string provided to Stockfish: " ++ fen_string)),
     Store (st_board s1)
       (st_out s1 ++ [EngineStart stockfish_path; EngineValidate fen_string])%list)
  ∧ main w s
    = (inr tt,
       Store (st_board s1)
         (st_out s1 ++
          [Print (nl ++ "Step 4: Calculating best move with Stockfish...");
           EngineStart stockfish_path;
           EngineValidate fen_string;
           Print ("  -> Error during Stockfish analysis: "
                  ++ "Invalid FEN string provided to Stockfish: " ++ fen_string)])%list).
Proof.
  intros Hmodel Hgen Hk HK Hinit Hvalid. split.
  - unfold get_best_move. rewrite Hinit, Hvalid. py_unfold.
    cbn [negb st_board st_out]. now rewrite <- !app_assoc.
  - rewrite (main_with_kings w s s1 fen_string Hmodel Hgen Hk HK).
    now rewrite (turn_engine_invalid_fen w fen_string s1 Hinit Hvalid).
Qed.

(** X17.  When the engine accepts the string and answers [None] or the
    empty string, [main] prints that no move was returned and ends the
    pass: the engine has been started, asked to validate, given the
    position and asked for a move within 2000 ms, in this order; the table
    of coordinates is not read and the pass is not reported as completed. *)
Theorem no_move_ends_turn (w : world F) (s s1 : store) (fen_string : string) :
  path_exists w model_path = true →
  turn_generate w s = (inr (Some fen_string), s1) →
  str_in "k" fen_string = true → str_in "K" fen_string = true →
  sf_init w stockfish_path = None →
  sf_is_fen_valid w fen_string = true →
  truthy (sf_best_move_time w fen_string 2000) = false →
  main w s
  = (inr tt,
     Store (st_board s1)
       (st_out s1 ++
        [Print (nl ++ "Step 4: Calculating best move with Stockfish...");
         EngineStart stockfish_path;
         EngineValidate fen_string;
         EngineSetFen fen_string;
         EngineBestMove 2000;
         Print "  -> Stockfish did not return a move. Game may be over."])%list).
Proof.
  intros Hmodel Hgen Hk HK Hinit Hvalid Hnone.
  rewrite (main_with_kings w s s1 fen_string Hmodel Hgen Hk HK).
  rewrite (turn_engine_answer w fen_string s1 Hinit Hvalid). now rewrite Hnone.
Qed.

(** X18.  A pass that goes through.  When the string holds both kings,
    the engine starts, accepts the string and answers a move whose two
    squares are in the table, the pass of [main] adds to the output, in
    this order: the four calls of the engine, the move, the reading of the
    table, the command of the arm with the waypoints of the two squares,
    and the line that reports the pass as completed.  The move handed to
    the arm is the one the engine answered, for the string that was
    generated. *)
Theorem full_turn (w : world F) (s s1 : store)
    (fen_string best_move pick place : string) :
  path_exists w model_path = true →
  turn_generate w s = (inr (Some fen_string), s1) →
  str_in "k" fen_string = true → str_in "K" fen_string = true →
  sf_init w stockfish_path = None →
  sf_is_fen_valid w fen_string = true →
  sf_best_move_time w fen_string 2000 = Some best_move →
  truthy (Some best_move) = true →
  path_exists w default_csv_path = true →
  get_move_coordinates (read_csv w default_csv_path) best_move = inr (pick, place) →
  main w s
  = (inr tt,
     Store (st_board s1)
       (st_out s1 ++
        [Print (nl ++ "Step 4: Calculating best move with Stockfish...");
         EngineStart stockfish_path;
         EngineValidate fen_string;
         EngineSetFen fen_string;
         EngineBestMove 2000;
         Print ("  -> Best move found: " ++ best_move);
         Print (nl ++ "Step 5 & 6: Translating move and generating robot waypoints...");
         ReadCsv default_csv_path;
         Print (nl ++ "--- Robot Control Final Command ---");
         Print ("Move: " ++ best_move);
         Print "Final Waypoints Array for Simulink:";
         PrintList (waypoints_of pick place);
         Print "-----------------------------------";
         Print (nl ++ "Single turn simulation completed successfully.")])%list).
Proof.
  intros Hmodel Hgen Hk HK Hinit Hvalid Hmove Htruthy Hcsv Hfound.
  rewrite (main_with_kings w s s1 fen_string Hmodel Hgen Hk HK).
  rewrite (turn_engine_answer w fen_string s1 Hinit Hvalid).
  rewrite Hmove, Htruthy.
  rewrite (turn_robot_table w default_csv_path best_move) by (left; now split).
  rewrite (execute_robot_move_found _ _ _ _ _ Hfound).
  unfold print, emit. cbn [st_board st_out snd default].
  now rewrite <- !app_assoc.
Qed.

(** X19.  The table of coordinates is looked for at the default path and
    then next to the module.  When the default path does not exist: if the
    fallback path does not exist either, the constructor raises
    [FileNotFoundError] naming the fallback path, [main] prints it as an
    error of the robot control step and the pass ends without the line
    that reports it as completed, no table having been read; if the
    fallback path exists, the table is read from it and the move is looked
    up in that table. *)
Theorem table_fallback (w : world F) (best_move : string) (s : store) :
  path_exists w default_csv_path = false →
  (path_exists w (fallback_csv_path w) = false →
   turn_robot w best_move s
   = (inr false,
      Store (st_board s)
        (st_out s ++
         [Print (nl ++ "Step 5 & 6: Translating move and generating robot waypoints...");
          Print ("  -> Error during robot control step: "
                 ++ "Robot coordinate mapping file not found at '"
                 ++ fallback_csv_path w ++ "'. "
                 ++ "Please ensure the path is correct.")])%list))
  ∧ (path_exists w (fallback_csv_path w) = true →
     turn_robot w best_move s
     = (inr true,
        (execute_robot_move (read_csv w (fallback_csv_path w)) best_move
           (Store (st_board s)
              (st_out s ++
               [Print (nl ++ "Step 5 & 6: Translating move and generating robot waypoints...");
                ReadCsv (fallback_csv_path w)])%list)).2)).
Proof.
  intros Hd. split; intros Hf.
  - now apply turn_robot_no_table.
  - apply turn_robot_table. right. now repeat split.
Qed.

End Turn.

Lemma engine_start_failure_ends_turn_witness :
  let w : world spec_float :=
    sample_world_with (λ _, true) (Some "[Errno 2] No such file or directory")
      true sample_kings sample_table (Some "e2e4") in
  let s1 := (turn_generate w initial_store).2 in
  let fen_string := "k7/8/8/8/8/8/8/4K3 w - - 0 1" in
  get_best_move w fen_string stockfish_path s1
  = (inl (FileNotFoundError
            ("Stockfish engine not found or failed to initialize at '"
             ++ stockfish_path ++ "'. "
             ++ "Please ensure the path is correct. Error: "
             ++ "[Errno 2] No such file or directory")),
     Store (st_board s1) (st_out s1 ++ [EngineStart stockfish_path])%list)
  ∧ main w initial_store
    = (inr tt,
       Store (st_board s1)
         (st_out s1 ++
          [Print (nl ++ "Step 4: Calculating best move with Stockfish...");
           EngineStart stockfish_path;
           Print ("  -> Error during Stockfish analysis: "
                  ++ "Stockfish engine not found or failed to initialize at '"
                  ++ stockfish_path ++ "'. "
                  ++ "Please ensure the path is correct. Error: "
                  ++ "[Errno 2] No such file or directory")])%list).
Proof.
  apply (engine_start_failure_ends_turn (F := spec_float)
           (sample_world_with (λ _, true) (Some "[Errno 2] No such file or directory")
              true sample_kings sample_table (Some "e2e4"))
           initial_store);
    reflexivity.
Defined.

Lemma invalid_fen_ends_turn_witness :
  let w : world spec_float :=
    sample_world_with (λ _, true) None false sample_kings sample_table (Some "e2e4") in
  let s1 := (turn_generate w initial_store).2 in
  let fen_string := "k7/8/8/8/8/8/8/4K3 w - - 0 1" in
  get_best_move w fen_string stockfish_path s1
  = (inl (ValueError ("Invalid FEN string provided to Stockfish: " ++ fen_string)),
     Store (st_board s1)
       (st_out s1 ++ [EngineStart stockfish_path; EngineValidate fen_string])%list)
  ∧ main w initial_store
    = (inr tt,
       Store (st_board s1)
         (st_out s1 ++
          [Print (nl ++ "Step 4: Calculating best move with Stockfish...");
           EngineStart stockfish_path;
           EngineValidate fen_string;
           Print ("  -> Error during Stockfish analysis: "
                  ++ "Invalid FEN string provided to Stockfish: " ++ fen_string)])%list).
Proof.
  apply (invalid_fen_ends_turn (F := spec_float)
           (sample_world_with (λ _, true) None false sample_kings sample_table
              (Some "e2e4"))
           initial_store);
    reflexivity.
Defined.

Lemma no_move_ends_turn_witness :
  let w : world spec_float := sample_world sample_kings sample_table (Some "") in
  let s1 := (turn_generate w initial_store).2 in
  let fen_string := "k7/8/8/8/8/8/8/4K3 w - - 0 1" in
  main w initial_store
  = (inr tt,
     Store (st_board s1)
       (st_out s1 ++
        [Print (nl ++ "Step 4: Calculating best move with Stockfish...");
         EngineStart stockfish_path;
         EngineValidate fen_string;
         EngineSetFen fen_string;
         EngineBestMove 2000;
         Print "  -> Stockfish did not return a move. Game may be over."])%list).
Proof.
  apply (no_move_ends_turn (F := spec_float)
           (sample_world sample_kings sample_table (Some "")) initial_store);
    reflexivity.
Defined.

Lemma full_turn_witness :
  let w : world spec_float := sample_world sample_kings sample_table (Some "e2e4") in
  let s1 := (turn_generate w initial_store).2 in
  let fen_string := "k7/8/8/8/8/8/8/4K3 w - - 0 1" in
  main w initial_store
  = (inr tt,
     Store (st_board s1)
       (st_out s1 ++
        [Print (nl ++ "Step 4: Calculating best move with Stockfish...");
         EngineStart stockfish_path;
         EngineValidate fen_string;
         EngineSetFen fen_string;
         EngineBestMove 2000;
         Print ("  -> Best move found: " ++ "e2e4");
         Print (nl ++ "Step 5 & 6: Translating move and generating robot waypoints...");
         ReadCsv default_csv_path;
         Print (nl ++ "--- Robot Control Final Command ---");
         Print ("Move: " ++ "e2e4");
         Print "Final Waypoints Array for Simulink:";
         PrintList (waypoints_of "[0.30; 0.10; 0.05]" "[0.30; 0.20; 0.06]");
         Print "-----------------------------------";
         Print (nl ++ "Single turn simulation completed successfully.")])%list).
Proof.
  apply (full_turn (F := spec_float)
           (sample_world sample_kings sample_table (Some "e2e4")) initial_store);
    reflexivity.
Defined.

Lemma table_fallback_witness :
  let on_disk (path : string) := String.eqb path "/app/robot_controller/Placement of pieces_csv.csv" in
  let w : world spec_float :=
    sample_world_with on_disk None true sample_kings sample_table (Some "e2e4") in
  ((path_exists w (fallback_csv_path w) = false →
    turn_robot w "e2e4" initial_store
    = (inr false,
       Store (st_board initial_store)
         (st_out initial_store ++
          [Print (nl ++ "Step 5 & 6: Translating move and generating robot waypoints...");
           Print ("  -> Error during robot control step: "
                  ++ "Robot coordinate mapping file not found at '"
                  ++ fallback_csv_path w ++ "'. "
                  ++ "Please ensure the path is correct.")])%list))
   ∧ (path_exists w (fallback_csv_path w) = true →
      turn_robot w "e2e4" initial_store
      = (inr true,
         (execute_robot_move (read_csv w (fallback_csv_path w)) "e2e4"
            (Store (st_board initial_store)
               (st_out initial_store ++
                [Print (nl ++ "Step 5 & 6: Translating move and generating robot waypoints...");
                 ReadCsv (fallback_csv_path w)])%list)).2)))
  ∧ path_exists w default_csv_path = false
  ∧ path_exists w (fallback_csv_path w) = true.
Proof.
  split; [| split; reflexivity].
  apply (table_fallback (F := spec_float)
           (sample_world_with
              (λ path, String.eqb path "/app/robot_controller/Placement of pieces_csv.csv")
              None true sample_kings sample_table (Some "e2e4"))
           "e2e4" initial_store).
  reflexivity.
Defined.

(** ** [main] returns normally *)

Section NeverRaises.
Context {A : Type}.

Lemma never_raises_ret (x : A) : never_raises (mret x : Py A).
Proof. intros s. now exists x. Qed.

Lemma never_raises_bind {B : Type} (m : Py B) (k : B → Py A) :
  never_raises m → (∀ x, never_raises (k x)) → never_raises (m ≫= k).
Proof.
  intros Hm Hk s. unfold mbind, Py_bind.
  destruct (Hm s) as [x Hx]. destruct (m s) as [[e | x'] s']; simpl in Hx; [discriminate |].
  apply Hk.
Qed.

(** A handler that catches every exception and does not raise. *)
Lemma never_raises_try_except (body : Py A) (handler : pyerr → Py A) :
  (∀ e, never_raises (handler e)) →
  never_raises (try_except body (λ _, true) handler).
Proof.
  intros Hhandler s. unfold try_except.
  destruct (body s) as [[e | x] s']; [apply Hhandler | now exists x].
Qed.

End NeverRaises.

Lemma never_raises_emit (ev : event) : never_raises (emit ev).
Proof. intros s. now exists tt. Qed.

Lemma never_raises_print (line : string) : never_raises (print line).
Proof. apply never_raises_emit. Qed.

Lemma never_raises_execute_robot_move (df : list csv_row) (move : string) :
  never_raises (execute_robot_move df move).
Proof.
  intros s. exists tt.
  destruct (get_move_coordinates df move) as [e | [pick place]] eqn:E.
  - now rewrite (execute_robot_move_failed _ _ _ _ E).
  - now rewrite (execute_robot_move_found _ _ _ _ _ E).
Qed.

#[local] Hint Resolve never_raises_ret never_raises_emit never_raises_print
  never_raises_execute_robot_move : emits.

Ltac returns_step :=
  match goal with
  | |- never_raises (mbind _ _) => apply never_raises_bind; [| intros ?]
  | |- never_raises (try_except _ _ _) => apply never_raises_try_except; intros ?
  | |- never_raises (if ?b then _ else _) => destruct b
  | |- never_raises (match ?x with _ => _ end) => destruct x
  | |- never_raises _ => solve [auto with emits]
  end.

Section Camera.
Context {F : Type} {numeric : Numeric F}.

Lemma never_raises_capture_image (w : world F) (move_number : nat) :
  never_raises (capture_image w move_number).
Proof. unfold capture_image. repeat returns_step. Qed.

Lemma never_raises_turn (w : world F) : never_raises (turn w).
Proof.
  unfold turn, turn_generate, turn_play, turn_fen, turn_engine, turn_robot.
  repeat returns_step. apply never_raises_capture_image.
Qed.

(** X20.  [main] returns normally whatever the detector, the engine and
    the table do.  Every call that can raise, [image_to_fen],
    [get_best_move], the constructor of [RobotController] and
    [execute_robot_move], sits in a [try] whose last handler catches
    [Exception], and no handler raises; the camera, the file system and
    [print] do not raise in this model. *)
Theorem main_never_raises (w : world F) (s : store) :
  (main w s).1 = inr tt.
Proof.
  unfold main. destruct (negb (path_exists w model_path)); [reflexivity |].
  destruct (never_raises_turn w s) as [[] H]. exact H.
Qed.

(** X21.  When the camera cannot be opened or gives no frame, [main]
    prints the error and ends the pass right after the capture: nothing is
    written to the disk, the detector is not run.  The camera is released
    after the read, so a camera that could not be opened is not
    released. *)
Theorem camera_failure_ends_turn (w : world F) (s : store) :
  path_exists w model_path = true →
  cam_is_opened w = false ∨ cam_read w = false →
  main w s
  = (inr tt,
     Store (st_board s)
       (st_out s ++
        [Print (nl ++ "--- Turn 1: W's Move ---");
         Print (nl ++ "Step 1: Capturing image...");
         CameraOpen 0] ++
        (if cam_is_opened w
         then [CameraRead; CameraRelease; Print "  -> Error: Failed to capture frame."]
         else [Print "  -> Error: Could not open camera."]))%list).
Proof.
  intros Hmodel Hcam. unfold main. rewrite Hmodel. cbn [negb].
  unfold turn, turn_generate, capture_image.
  destruct (cam_is_opened w).
  - destruct Hcam as [Hcam | Hcam]; [discriminate |]. rewrite Hcam.
    py_unfold. cbn [negb st_board st_out truthy]. now rewrite <- !app_assoc.
  - py_unfold. cbn [negb st_board st_out truthy]. now rewrite <- !app_assoc.
Qed.

(** X22.  A piece that the square mapper cannot place ends the pass.
    When the detector answers a board and pieces of which one raises [e]
    on its own, all the pieces before it mapping without error, steps 2
    and 3 of [main] catch [e], print it and end the pass with no string:
    as an error of the generation when [e] is a [ValueError] (a nan
    quotient), as an unexpected error otherwise (an [IndexError] of the
    write, an [OverflowError] of an infinite quotient). *)
Theorem failing_piece_ends_turn (w : world F) (image : string)
    (results : list (detection F)) (fr : frame F)
    (before after : list (piece F)) (p : piece F) (e : pyerr) (s : store) :
  yolo w model_path image = inr results →
  extract_detections results = (Some fr, (before ++ p :: after)%list) →
  Forall (λ q, ∃ b1, maps_alone fr q = inr b1) before →
  maps_alone fr p = inl e →
  ∃ board : ndarray,
    turn_fen w image s
    = (inr None,
       Store (Some board)
         (st_out s ++
          [Print (nl ++ "Step 2 & 3: Processing image and generating FEN string...");
           Detect model_path image;
           Print (image_error_line e)])%list).
Proof.
  intros Hyolo Hextract Hbefore Hp.
  destruct (frame_to_fen_first_failure fr before after p e game_active_color Hbefore Hp)
    as (board & _ & _ & Hrun).
  exists board. unfold turn_fen, try_except.
  unfold mbind at 1. unfold Py_bind. unfold print at 1. unfold emit at 1.
  unfold mbind at 1. unfold Py_bind.
  rewrite (image_to_fen_detected _ _ _ _ _ _ Hyolo). cbv zeta.
  rewrite Hextract, Hrun. cbv beta iota. unfold image_error_line.
  destruct (is_ValueError e); py_unfold; cbn [st_board st_out];
    now rewrite <- !app_assoc.
Qed.

End Camera.

Lemma camera_failure_ends_turn_witness :
  let w : world spec_float :=
    World (λ _, true) (λ a b, a ++ "/" ++ b) "/app/robot_controller" true false
          (λ _ _, inr sample_kings) (λ _, None) (λ _, true) (λ _ _, Some "e2e4")
          (λ _, sample_table) in
  main w initial_store
  = (inr tt,
     Store None
       [Print (nl ++ "--- Turn 1: W's Move ---");
        Print (nl ++ "Step 1: Capturing image...");
        CameraOpen 0; CameraRead; CameraRelease;
        Print "  -> Error: Failed to capture frame."]).
Proof.
  apply (camera_failure_ends_turn (F := spec_float)
           (World (λ _, true) (λ a b, a ++ "/" ++ b) "/app/robot_controller" true false
              (λ _ _, inr sample_kings) (λ _, None) (λ _, true) (λ _ _, Some "e2e4")
              (λ _, sample_table))
           initial_store).
  - reflexivity.
  - right. reflexivity.
Defined.

Lemma failing_piece_ends_turn_witness :
  let w : world spec_float :=
    sample_world (sample_kings ++ [sample_box 85 5 "White_Rook"]) sample_table None in
  ∃ board : ndarray,
    turn_fen w "move_1.jpg" initial_store
    = (inr None,
       Store (Some board)
         [Print (nl ++ "Step 2 & 3: Processing image and generating FEN string...");
          Detect model_path "move_1.jpg";
          Print ("  -> An unexpected error occurred during image processing: "
                 ++ "index 9 is out of bounds for axis 1 with size 9")]).
Proof.
  apply (failing_piece_ends_turn (F := spec_float)
           (sample_world (sample_kings ++ [sample_box 85 5 "White_Rook"]) sample_table None)
           "move_1.jpg" (sample_kings ++ [sample_box 85 5 "White_Rook"])
           (chessboard_of sample_board_box)
           [piece_of (sample_box 5 5 "Black_King"); piece_of (sample_box 45 75 "White_King")]
           [] (piece_of (sample_box 85 5 "White_Rook"))
           (IndexError "index 9 is out of bounds for axis 1 with size 9")
           initial_store).
  - reflexivity.
  - reflexivity.
  - repeat constructor; eexists; reflexivity.
  - reflexivity.
Defined.

(** ** The test of the kings *)

Lemma str_in_char (c : ascii) (s : string) : str_in (String c "") s = char_in c s.
Proof.
  induction s as [|a s IH]; [reflexivity |].
  cbn [str_in char_in String.prefix]. rewrite IH.
  destruct (ascii_dec c a) as [-> | Hne].
  - rewrite Ascii.eqb_refl. now destruct s.
  - apply Ascii.eqb_neq in Hne. now rewrite Hne.
Qed.

Lemma char_in_app (c : ascii) (s t : string) :
  char_in c (s ++ t) = char_in c s || char_in c t.
Proof.
  induction s as [|a s IH]; [reflexivity |].
  change (char_in c (String a (s ++ t)) = char_in c (String a s) || char_in c t).
  cbn [char_in]. now rewrite IH, orb_assoc.
Qed.

Lemma char_in_concat (c : ascii) (rows : list string) :
  Ascii.eqb c "/" = false →
  char_in c (String.concat "/" rows) = true ↔ ∃ row, row ∈ rows ∧ char_in c row = true.
Proof.
  intros Hsep. induction rows as [|row rows IH].
  - simpl. split; [discriminate |]. intros (row & Hrow & _). now apply elem_of_nil in Hrow.
  - destruct rows as [|row' rows].
    + simpl. split.
      * intros H. exists row. split; [left | exact H].
      * intros (r & Hr & H). apply list_elem_of_singleton in Hr. now subst r.
    + change (String.concat "/" (row :: row' :: rows))
        with (row ++ "/" ++ String.concat "/" (row' :: rows)).
      rewrite !char_in_app. cbn [char_in]. rewrite Hsep. cbn [orb].
      rewrite orb_true_iff, IH. split.
      * intros [H | (r & Hr & H)].
        -- exists row. split; [left | exact H].
        -- exists r. split; [now right | exact H].
      * intros (r & Hr & H). apply elem_of_cons in Hr as [-> | Hr]; [now left |].
        right. now exists r.
Qed.

Lemma digit_of_eqb (c a : ascii) :
  digit_of c = None → digit_of a ≠ None → Ascii.eqb c a = false.
Proof. intros Hc Ha. apply Ascii.eqb_neq. intros ->. contradiction. Qed.

(** A character that is not a digit occurs in a rank string exactly when
    the squares read back hold it. *)
Lemma char_in_expand (c : ascii) (s : string) :
  digit_of c = None →
  char_in c s = true ↔ Some (String c "") ∈ expand_rank s.
Proof.
  intros Hc. induction s as [|a s IH].
  - simpl. split; [discriminate |]. intros H. now apply elem_of_nil in H.
  - cbn [char_in expand_rank]. destruct (digit_of a) as [n|] eqn:Ea.
    + rewrite (digit_of_eqb c a Hc) by (rewrite Ea; discriminate). cbn [orb].
      rewrite IH, elem_of_app. split; [now right |].
      intros [H | H]; [| exact H].
      apply elem_of_replicate in H as [[=] _].
    + rewrite orb_true_iff, IH, elem_of_cons. split.
      * intros [H | H]; [left | now right]. apply Ascii.eqb_eq in H. now subst a.
      * intros [[= ->] | H]; [left; apply Ascii.eqb_refl | now right].
Qed.

(** X23.  The test of the kings in [main] reads the board.  On the array
    the square mapper leaves, with active color [w] or [b], the serializer
    returns a string, and [k] occurs in it exactly when some square of
    ranks 1..8 and files 1..8 holds the black king; likewise [K] and the
    white king.  The separators, the counts and the trailer never supply
    the letter. *)
Theorem king_test_reads_the_board (board : ndarray) (active_color : string) :
  has_shape board 9 9 → board_cells board →
  active_color = "w" ∨ active_color = "b" →
  ∃ fen_string : string,
    notation_serializer board (fen_trailer active_color) = inr fen_string
    ∧ ∀ king : ascii, king = "k"%char ∨ king = "K"%char →
        str_in (String king "") fen_string = true
        ↔ ∃ rank file : Z,
            1 ≤ rank ≤ 8 ∧ 1 ≤ file ≤ 8
            ∧ grid_of board rank file = Some (String king "").
Proof.
  intros Hs Hc Hcolor.
  destruct (fen_rows_expand board Hs Hc) as (fen_rows & Hrows & Hexpand).
  unfold notation_serializer. rewrite Hrows. cbn [mbind result_bind].
  eexists. split; [reflexivity |]. intros king Hking.
  assert (Hdigit : digit_of king = None) by (destruct Hking as [-> | ->]; reflexivity).
  assert (Hsep : Ascii.eqb king "/" = false) by (destruct Hking as [-> | ->]; reflexivity).
  assert (Htrailer : char_in king (fen_trailer active_color) = false)
    by (destruct Hking as [-> | ->], Hcolor as [-> | ->]; reflexivity).
  rewrite str_in_char, char_in_app, Htrailer, orb_false_r.
  rewrite (char_in_concat _ _ Hsep). split.
  - intros (row & Hrow & Hin).
    apply (char_in_expand _ _ Hdigit) in Hin.
    assert (Hcells : expand_rank row ∈ expand_rank <$> fen_rows)
      by (apply list_elem_of_fmap; now exists row).
    rewrite Hexpand in Hcells.
    apply list_elem_of_fmap in Hcells as (rank & Hcells & Hrank).
    rewrite Hcells in Hin.
    apply list_elem_of_fmap in Hin as (file & Hsquare & Hfile).
    exists rank, file.
    assert (1 ≤ rank ≤ 8).
    { rewrite <- ranks_walked in Hrank.
      exact (proj1 (Forall_forall _ _) ranks_in_range rank Hrank). }
    assert (1 ≤ file ≤ 8).
    { rewrite <- files_walked in Hfile.
      exact (proj1 (Forall_forall _ _) files_in_range file Hfile). }
    now repeat split.
  - intros (rank & file & Hrank & Hfile & Hsquare).
    assert (Hcells : (grid_of board rank <$> [1; 2; 3; 4; 5; 6; 7; 8])
                     ∈ expand_rank <$> fen_rows).
    { rewrite Hexpand. apply list_elem_of_fmap. exists rank. split; [reflexivity |].
      apply list_elem_of_In. simpl. lia. }
    apply list_elem_of_fmap in Hcells as (row & Hcells & Hrow).
    exists row. split; [exact Hrow |].
    apply (char_in_expand _ _ Hdigit). rewrite <- Hcells.
    apply list_elem_of_fmap. exists file. split; [now rewrite Hsquare |].
    apply list_elem_of_In. simpl. lia.
Qed.

Lemma king_test_reads_the_board_witness :
  ∃ fen_string : string,
    notation_serializer starting_board (fen_trailer "w") = inr fen_string
    ∧ ∀ king : ascii, king = "k"%char ∨ king = "K"%char →
        str_in (String king "") fen_string = true
        ↔ ∃ rank file : Z,
            1 ≤ rank ≤ 8 ∧ 1 ≤ file ≤ 8
            ∧ grid_of starting_board rank file = Some (String king "").
Proof.
  apply (king_test_reads_the_board starting_board "w").
  - split; [reflexivity | repeat constructor].
  - unfold board_cells, starting_board, symbols.
    repeat (constructor; [repeat (constructor; [in_list |]); constructor |]).
    constructor.
  - left. reflexivity.
Defined.

(** ** From the camera to the detector *)

Lemma emits_only_any_emit (ev : event) : emits_only any_event (emit ev).
Proof. now apply emits_only_emit. Qed.

Lemma emits_only_any_print (line : string) : emits_only any_event (print line).
Proof. apply emits_only_any_emit. Qed.

#[local] Hint Resolve emits_only_any_emit emits_only_any_print : emits.

Section Capture.
Context {F : Type} {numeric : Numeric F}.

(** Whatever the rest of a pass does, it only adds to the output. *)
Lemma emits_only_turn_play (w : world F) (fen_string : string) :
  emits_only any_event (turn_play w fen_string).
Proof.
  unfold turn_play, turn_engine, turn_robot, get_best_move, RobotController,
    execute_robot_move.
  repeat emits_step.
Qed.

(** Steps 2 and 3 start by printing their title and running the detector
    on the image they are given, with the model of [main]. *)
Lemma turn_fen_starts (w : world F) (image : string) (s : store) :
  ∃ evs : list event,
    st_out (turn_fen w image s).2
    = (st_out s ++
       [Print (nl ++ "Step 2 & 3: Processing image and generating FEN string...");
        Detect model_path image] ++ evs)%list.
Proof.
  unfold turn_fen, try_except.
  unfold mbind at 1. unfold Py_bind. unfold print at 1. unfold emit at 1.
  unfold mbind at 1. unfold Py_bind.
  unfold image_to_fen, detect.
  unfold mbind at 1 2. unfold Py_bind, emit, lift. cbn [st_board st_out].
  destruct (yolo w model_path image) as [e | results].
  - cbv beta iota.
    destruct (is_ValueError e); eexists; py_unfold; cbn [st_board st_out snd];
      rewrite <- !app_assoc; reflexivity.
  - cbv beta iota. destruct (extract_detections results) as [[fr |] pieces].
    + destruct (frame_to_fen_run fr pieces game_active_color) as (r & b' & Hrun).
      rewrite Hrun. destruct r as [e | fen_string].
      * cbv beta iota.
        destruct (is_ValueError e); eexists; py_unfold; cbn [st_board st_out snd];
          rewrite <- !app_assoc; reflexivity.
      * eexists. py_unfold. cbn [st_board st_out snd]. rewrite <- !app_assoc. reflexivity.
    + eexists. py_unfold. cbn [st_board st_out snd is_ValueError].
      rewrite <- !app_assoc. reflexivity.
Qed.

(** X24.  From the camera to the detector.  When the model file exists
    and the camera gives a frame, the pass of [main] opens camera 0, reads
    one frame and releases the camera before anything is written; creates
    the directory of the pictures only if it does not exist; writes the
    frame to [move_1.jpg] in that directory; and, the joined path being a
    non-empty string, runs the detector, with the model of [main], on the
    path it has just written.  Whatever follows is added after these
    events. *)
Theorem capture_feeds_detector (w : world F) (s : store) :
  path_exists w model_path = true →
  cam_is_opened w = true → cam_read w = true →
  let output_dir := path_join w "computer_vision_files" "moves_pictures" in
  let image_path := path_join w output_dir "move_1.jpg" in
  truthy (Some image_path) = true →
  ∃ evs : list event,
    st_out (main w s).2
    = (st_out s ++
       [Print (nl ++ "--- Turn 1: W's Move ---");
        Print (nl ++ "Step 1: Capturing image...");
        CameraOpen 0; CameraRead; CameraRelease] ++
       (if path_exists w output_dir then [] else [Makedirs output_dir]) ++
       [Imwrite image_path;
        Print ("  -> Image captured and saved to: '" ++ image_path ++ "'");
        Print (nl ++ "Step 2 & 3: Processing image and generating FEN string...");
        Detect model_path image_path] ++ evs)%list.
Proof.
  intros Hmodel Hopen Hread output_dir image_path Htruthy.
  set (s1 := Store (st_board s)
               (st_out s ++
                [Print (nl ++ "--- Turn 1: W's Move ---");
                 Print (nl ++ "Step 1: Capturing image...");
                 CameraOpen 0; CameraRead; CameraRelease] ++
                (if path_exists w output_dir then [] else [Makedirs output_dir]) ++
                [Imwrite image_path;
                 Print ("  -> Image captured and saved to: '" ++ image_path ++ "'")])%list).
  assert (Hgen : turn_generate w s = turn_fen w image_path s1).
  { unfold turn_generate, capture_image. rewrite Hopen, Hread. cbn [negb]. cbv zeta.
    change (path_join w "computer_vision_files" "moves_pictures") with output_dir.
    change (path_join w output_dir ("move_" ++ pretty game_full_move_number ++ ".jpg"))
      with image_path.
    subst s1.
    destruct (path_exists w output_dir); py_unfold; cbn [negb st_board st_out];
      rewrite Htruthy; cbn [negb];
      change (default "" (Some image_path)) with image_path;
      rewrite <- !app_assoc; reflexivity. }
  unfold main. rewrite Hmodel. cbn [negb].
  unfold turn. unfold mbind at 1. unfold Py_bind. rewrite Hgen.
  destruct (turn_fen_starts w image_path s1) as (evs & Hout).
  assert (Hs1 : (st_out s1 ++
                 [Print (nl ++ "Step 2 & 3: Processing image and generating FEN string...");
                  Detect model_path image_path] ++ evs
                 = st_out s ++
                   [Print (nl ++ "--- Turn 1: W's Move ---");
                    Print (nl ++ "Step 1: Capturing image...");
                    CameraOpen 0; CameraRead; CameraRelease] ++
                   (if path_exists w output_dir then [] else [Makedirs output_dir]) ++
                   [Imwrite image_path;
                    Print ("  -> Image captured and saved to: '" ++ image_path ++ "'");
                    Print (nl ++ "Step 2 & 3: Processing image and generating FEN string...");
                    Detect model_path image_path] ++ evs)%list).
  { subst s1. cbn [st_out]. rewrite <- !app_assoc. reflexivity. }
  destruct (turn_fen w image_path s1) as [[e | [fen_string |]] s2];
    cbn [snd] in Hout.
  - exists evs. cbn [snd]. now rewrite Hout.
  - destruct (emits_only_turn_play w fen_string s2) as (evs' & Hout' & _).
    exists (evs ++ evs')%list. rewrite Hout', Hout, Hs1.
    rewrite <- !app_assoc. reflexivity.
  - exists evs. cbn [snd mret Py_ret]. now rewrite Hout.
Qed.

End Capture.

Lemma capture_feeds_detector_witness :
  let w : world spec_float :=
    sample_world_with (λ path, negb (String.eqb path "computer_vision_files/moves_pictures"))
      None true sample_kings sample_table (Some "e2e4") in
  ∃ evs : list event,
    st_out (main w initial_store).2
    = ([] ++
       [Print (nl ++ "--- Turn 1: W's Move ---");
        Print (nl ++ "Step 1: Capturing image...");
        CameraOpen 0; CameraRead; CameraRelease] ++
       [Makedirs "computer_vision_files/moves_pictures"] ++
       [Imwrite "computer_vision_files/moves_pictures/move_1.jpg";
        Print ("  -> Image captured and saved to: '"
               ++ "computer_vision_files/moves_pictures/move_1.jpg" ++ "'");
        Print (nl ++ "Step 2 & 3: Processing image and generating FEN string...");
        Detect model_path "computer_vision_files/moves_pictures/move_1.jpg"] ++ evs)%list.
Proof.
  apply (capture_feeds_detector (F := spec_float)
           (sample_world_with
              (λ path, negb (String.eqb path "computer_vision_files/moves_pictures"))
              None true sample_kings sample_table (Some "e2e4"))
           initial_store);
    reflexivity.
Defined.
